(** * Check_MK GUI value specifications: a shallow embedding

    This development embeds the validation core of [cmk/gui/valuespec.py]
    (the [ValueSpec] class hierarchy), the check parameter registration of
    [cmk/gui/plugins/wato/check_parameters/emcvnx_storage_pools.py] and the
    level classification helper exercised by
    [tests/unit/cmk_base/test_check_api.py].

    Python objects are records of their methods, Python values are an
    inductive type, and raising an exception is a result in an error
    monad. *)

From Stdlib Require Import ZArith List String Ascii Bool Arith Lia.
From Stdlib Require Import DecimalString.
From Stdlib Require Import Floats.SpecFloat.
Import ListNotations.

Set Warnings "-register-all".

Local Open Scope string_scope.
Local Open Scope Z_scope.

(** ** Python values *)

(** The fragment of the Python value universe the valuespecs inspect:
    [None], [bool], [int], [float], [str], [list], [tuple] and [dict].
    A float is an IEEE 754 binary64 datum ([spec_float]); a dict is the
    list of its items. *)
Inductive pyval : Type :=
| PNone
| PBool (b : bool)
| PInt (z : Z)
| PFloat (f : spec_float)
| PStr (s : string)
| PList (items : list pyval)
| PTuple (items : list pyval)
| PDict (items : list (pyval * pyval)).

(** Numbers as the type comments of the constructors have them:
    [Union[int, float]]. *)
Inductive number : Type :=
| NInt (z : Z)
| NFloat (f : spec_float).

Definition py_of_number (n : number) : pyval :=
  match n with
  | NInt z => PInt z
  | NFloat f => PFloat f
  end.

(** ** Exceptions and the error monad *)

(** [MKUserError(varname, message)] keeps the name of the HTML variable it
    points to; the translated message text is not represented.  Every
    constructor is a subclass of Python's [Exception]. *)
Inductive exc : Type :=
| MKUserError (varname : string)
| TypeError
| IndexError
| AttributeError
| OverflowError
| OtherException (name : string).

Inductive result (A : Type) : Type :=
| Ok (a : A)
| Raise (e : exc).

Arguments Ok {A} a.
Arguments Raise {A} e.

Definition bind {A B : Type} (c : result A) (k : A -> result B) : result B :=
  match c with
  | Ok a => k a
  | Raise e => Raise e
  end.

Notation "x <- c ;; k" := (bind c (fun x => k))
  (at level 61, c at next level, right associativity).
Notation "c ;;; k" := (bind c (fun _ => k))
  (at level 61, right associativity).

(** [try: c  except Exception: handler] *)
Definition try_except {A : Type} (c : result A) (handler : exc -> result A) : result A :=
  match c with
  | Ok a => Ok a
  | Raise e => handler e
  end.

Definition returns {A : Type} (c : result A) : Prop := exists a, c = Ok a.
Definition raises {A : Type} (c : result A) : Prop := exists e, c = Raise e.
Definition raises_MKUserError {A : Type} (c : result A) : Prop :=
  exists varname, c = Raise (MKUserError varname).

Definition is_ok {A : Type} (c : result A) : bool :=
  match c with Ok _ => true | Raise _ => false end.

Fixpoint mapM {A B : Type} (f : A -> result B) (l : list A) : result (list B) :=
  match l with
  | [] => Ok []
  | x :: l' => y <- f x ;; ys <- mapM f l' ;; Ok (y :: ys)
  end.

(** ** Builtins *)

Definition binary64_prec : Z := 53.
Definition binary64_emax : Z := 1024.

(** [float(z)] for an int: round to nearest even, [OverflowError] when the
    result is out of range. *)
Definition float_of_Z (z : Z) : result spec_float :=
  match binary_normalize binary64_prec binary64_emax z 0 false with
  | S754_infinity _ => Raise OverflowError
  | f => Ok f
  end.

Definition float_of_number (n : number) : result spec_float :=
  match n with
  | NInt z => float_of_Z z
  | NFloat f => Ok f
  end.

(** Exact comparison of an int with a float, as Python does it. *)
Definition Z_compare_float (z : Z) (f : spec_float) : option comparison :=
  match f with
  | S754_zero _ => Some (z ?= 0)
  | S754_infinity s => Some (if s then Gt else Lt)
  | S754_nan => None
  | S754_finite s m e =>
      let v := if s then Z.neg m else Z.pos m in
      if 0 <=? e then Some (z ?= v * 2 ^ e) else Some (z * 2 ^ (- e) ?= v)
  end.

Definition number_compare (x y : number) : option comparison :=
  match x, y with
  | NInt a, NInt b => Some (a ?= b)
  | NInt a, NFloat g => Z_compare_float a g
  | NFloat f, NInt b => option_map CompOpp (Z_compare_float b f)
  | NFloat f, NFloat g => SFcompare f g
  end.

Definition number_eqb (x y : number) : bool :=
  match number_compare x y with Some Eq => true | _ => false end.

Definition number_ltb (x y : number) : bool :=
  match number_compare x y with Some Lt => true | _ => false end.

Definition number_gtb (x y : number) : bool :=
  match number_compare x y with Some Gt => true | _ => false end.

(** The numeric reading of a value: [bool] is a subclass of [int]. *)
Definition as_number (v : pyval) : option number :=
  match v with
  | PBool b => Some (NInt (if b then 1 else 0))
  | PInt z => Some (NInt z)
  | PFloat f => Some (NFloat f)
  | _ => None
  end.

(** [a == b] on values, structurally.  CPython's shortcut inside
    containers, by which two items that are one object are equal, is not
    represented: the two agree on every value that holds no NaN (see
    [holds_nan]). *)
Fixpoint py_eq (a b : pyval) {struct a} : bool :=
  match a with
  | PNone => match b with PNone => true | _ => false end
  | PBool x =>
      match as_number b with
      | Some n => number_eqb (NInt (if x then 1 else 0)) n
      | None => false
      end
  | PInt x =>
      match as_number b with
      | Some n => number_eqb (NInt x) n
      | None => false
      end
  | PFloat x =>
      match as_number b with
      | Some n => number_eqb (NFloat x) n
      | None => false
      end
  | PStr s => match b with PStr t => String.eqb s t | _ => false end
  | PList l =>
      match b with
      | PList m =>
          (fix go (l m : list pyval) {struct l} : bool :=
             match l, m with
             | [], [] => true
             | x :: l', y :: m' => py_eq x y && go l' m'
             | _, _ => false
             end) l m
      | _ => false
      end
  | PTuple l =>
      match b with
      | PTuple m =>
          (fix go (l m : list pyval) {struct l} : bool :=
             match l, m with
             | [], [] => true
             | x :: l', y :: m' => py_eq x y && go l' m'
             | _, _ => false
             end) l m
      | _ => false
      end
  | PDict d =>
      match b with
      | PDict e =>
          Nat.eqb (List.length d) (List.length e)
          && (fix all (d : list (pyval * pyval)) {struct d} : bool :=
                match d with
                | [] => true
                | (k, v) :: d' =>
                    (fix find (e : list (pyval * pyval)) : bool :=
                       match e with
                       | [] => false
                       | (k', w) :: e' => if py_eq k k' then py_eq v w else find e'
                       end) e
                    && all d'
                end) d
      | _ => false
      end
  end.

(** [a != b] *)
Definition py_ne (a b : pyval) : bool := negb (py_eq a b).

(** Truth value of a number, as in [if self._minvalue:]. *)
Definition number_truthy (n : number) : bool :=
  match n with
  | NInt z => negb (z =? 0)
  | NFloat (S754_zero _) => false
  | NFloat _ => true
  end.

(** [sys.maxint] of the 64-bit platforms the GUI runs on. *)
Definition sys_maxint : Z := 9223372036854775807.

(** Python 2 has two integer types.  An integer literal, and the result
    of arithmetic on ints, is an [int] when it lies within
    [-sys.maxint - 1 .. sys.maxint] and a [long] beyond.  [PInt z] is
    the integer [z] in that type: a [long] exactly when [is_long z].  A
    [long] of a value within the range of [int] (the literal [5L], the
    result of [long(5)]) is not represented. *)
Definition is_long (z : Z) : bool :=
  (z <? - sys_maxint - 1) || (sys_maxint <? z).

(** [isinstance] tests.  [bool] is a subclass of [int]; a [long] is no
    [int]; [numbers.Integral] covers [int], [long] and [bool].  Python
    2's [unicode] is not represented in [pyval]. *)
Definition isinstance_bool (v : pyval) : bool :=
  match v with PBool _ => true | _ => false end.
Definition isinstance_int (v : pyval) : bool :=
  match v with
  | PBool _ => true
  | PInt z => negb (is_long z)
  | _ => false
  end.
Definition isinstance_Integral (v : pyval) : bool :=
  match v with PBool _ | PInt _ => true | _ => false end.
Definition isinstance_float (v : pyval) : bool :=
  match v with PFloat _ => true | _ => false end.
Definition isinstance_str (v : pyval) : bool :=
  match v with PStr _ => true | _ => false end.
Definition isinstance_list (v : pyval) : bool :=
  match v with PList _ => true | _ => false end.
Definition isinstance_tuple (v : pyval) : bool :=
  match v with PTuple _ => true | _ => false end.
Definition isinstance_dict (v : pyval) : bool :=
  match v with PDict _ => true | _ => false end.

(** [str(no)] and ["%d" % no] for an index. *)
Definition str_of_nat (n : nat) : string := NilZero.string_of_uint (Nat.to_uint n).

(** ["%d" % z] *)
Definition fmt_d (z : Z) : string := NilZero.string_of_int (Z.to_int z).

(** Dict primitives over the item list: [key in d], [d[key]], [d[key] = v]
    and [d.keys()]. *)
Fixpoint dict_get (d : list (pyval * pyval)) (key : pyval) : option pyval :=
  match d with
  | [] => None
  | (k, v) :: d' => if py_eq k key then Some v else dict_get d' key
  end.

Definition dict_contains (d : list (pyval * pyval)) (key : pyval) : bool :=
  match dict_get d key with Some _ => true | None => false end.

Fixpoint dict_set (d : list (pyval * pyval)) (key v : pyval) : list (pyval * pyval) :=
  match d with
  | [] => [(key, v)]
  | (k, w) :: d' => if py_eq k key then (k, v) :: d' else (k, w) :: dict_set d' key v
  end.

Definition dict_keys (d : list (pyval * pyval)) : list pyval := map fst d.

(** [dict(items)] *)
Definition dict_of_items (items : list (pyval * pyval)) : list (pyval * pyval) :=
  fold_left (fun d kv => dict_set d (fst kv) (snd kv)) items [].

(** [name in names] for a list of strings. *)
Definition str_in (name : string) (names : list string) : bool :=
  existsb (String.eqb name) names.

(** [key in names] for an arbitrary key against a list of strings. *)
Definition py_in_strs (key : pyval) (names : list string) : bool :=
  existsb (fun n => py_eq key (PStr n)) names.

(** ** The [ValueSpec] interface *)

(** A valuespec object, seen through the three methods by which nested
    valuespecs call one another. *)
Record ValueSpec : Type := mkValueSpec {
  canonical_value : result pyval;
  default_value : result pyval;
  validate_datatype : pyval -> string -> result unit
}.

(** The [default_value] constructor argument: a plain value or a function
    ([types.FunctionType]) of no argument.  [None] at type
    [option default_arg] is the sentinel [_DEF_VALUE]: the attribute
    [self._default_value] is then not set at all. *)
Inductive default_arg : Type :=
| DefaultValue (v : pyval)
| DefaultFunction (f : unit -> result pyval).

(** The [validate] constructor argument. *)
Definition callback : Type := pyval -> string -> result unit.

Section ValueSpecBase.

Definition ValueSpec_canonical_value : result pyval := Ok PNone.

(** Reading [self._default_value]. *)
Definition getattr__default_value (_default_value : option default_arg)
  : result default_arg :=
  match _default_value with
  | Some d => Ok d
  | None => Raise AttributeError
  end.

Definition ValueSpec_default_value (_default_value : option default_arg)
    (self_canonical_value : result pyval) : result pyval :=
  try_except
    (d <- getattr__default_value _default_value ;;
     match d with
     | DefaultFunction f => f tt
     | DefaultValue v => Ok v
     end)
    (fun _ => self_canonical_value).

Definition ValueSpec_validate_datatype (value : pyval) (varprefix : string)
  : result unit := Ok tt.

Definition ValueSpec__validate_value (value : pyval) (varprefix : string)
  : result unit := Ok tt.

Definition ValueSpec__custom_validate (_validate : option callback)
    (value : pyval) (varprefix : string) : result unit :=
  match _validate with
  | Some f => f value varprefix
  | None => Ok tt
  end.

(** The call [self.validate_datatype(value, varprefix)] is commented out
    in the source; the two remaining phases run in sequence. *)
Definition ValueSpec_validate_value (self__validate_value : callback)
    (_validate : option callback) (value : pyval) (varprefix : string)
  : result unit :=
  self__validate_value value varprefix ;;;
  ValueSpec__custom_validate _validate value varprefix.

End ValueSpecBase.

(** ** FixedValue *)

Definition FixedValue_validate_datatype (_value : pyval) (value : pyval)
    (varprefix : string) : result unit :=
  if negb (py_eq _value value) then Raise (MKUserError varprefix) else Ok tt.

Definition FixedValue (_value : pyval) (_default_value : option default_arg)
  : ValueSpec :=
  {| canonical_value := Ok _value;
     default_value := ValueSpec_default_value _default_value (Ok _value);
     validate_datatype := FixedValue_validate_datatype _value |}.

(** ** Age *)

Definition Age_canonical_value (_minvalue : option Z) : pyval :=
  match _minvalue with
  | Some m => if negb (m =? 0) then PInt m else PInt 0
  | None => PInt 0
  end.

Definition Age_validate_datatype (value : pyval) (varprefix : string)
  : result unit :=
  if negb (isinstance_int value) then Raise (MKUserError varprefix) else Ok tt.

Definition Age (_minvalue : option Z) (_default_value : option default_arg)
  : ValueSpec :=
  {| canonical_value := Ok (Age_canonical_value _minvalue);
     default_value :=
       ValueSpec_default_value _default_value (Ok (Age_canonical_value _minvalue));
     validate_datatype := Age_validate_datatype |}.

(** ** Integer *)

Definition Integer_canonical_value (_minvalue : option number) : number :=
  match _minvalue with
  | Some m => if number_truthy m then m else NInt 0
  | None => NInt 0
  end.

Definition Integer_validate_datatype (value : pyval) (varprefix : string)
  : result unit :=
  if negb (isinstance_Integral value) then Raise (MKUserError varprefix) else Ok tt.

(** [value < bound] and [value > bound] against a number, with Python 2's
    ordering of mixed types: [None] is below everything and numbers are
    below every other type. *)
Definition py2_lt_number (value : pyval) (bound : number) : bool :=
  match as_number value with
  | Some x => number_ltb x bound
  | None => match value with PNone => true | _ => false end
  end.

Definition py2_gt_number (value : pyval) (bound : number) : bool :=
  match as_number value with
  | Some x => number_gtb x bound
  | None => match value with PNone => false | _ => true end
  end.

Definition Integer__validate_value (_minvalue _maxvalue : option number)
    (value : pyval) (varprefix : string) : result unit :=
  match _minvalue with
  | Some m => if py2_lt_number value m then Raise (MKUserError varprefix) else Ok tt
  | None => Ok tt
  end ;;;
  match _maxvalue with
  | Some m => if py2_gt_number value m then Raise (MKUserError varprefix) else Ok tt
  | None => Ok tt
  end.

Definition Integer (_minvalue : option number) (_default_value : option default_arg)
  : ValueSpec :=
  {| canonical_value := Ok (py_of_number (Integer_canonical_value _minvalue));
     default_value :=
       ValueSpec_default_value _default_value
         (Ok (py_of_number (Integer_canonical_value _minvalue)));
     validate_datatype := Integer_validate_datatype |}.

(** ** Float *)

Definition Float_canonical_value (_minvalue : option number) : result pyval :=
  f <- float_of_number (Integer_canonical_value _minvalue) ;; Ok (PFloat f).

Definition Float_validate_datatype (_allow_int : bool) (value : pyval)
    (varprefix : string) : result unit :=
  if isinstance_float value then Ok tt
  else if isinstance_Integral value && _allow_int then Ok tt
  else Raise (MKUserError varprefix).

Definition Float (_allow_int : bool) (_minvalue : option number)
    (_default_value : option default_arg) : ValueSpec :=
  {| canonical_value := Float_canonical_value _minvalue;
     default_value :=
       ValueSpec_default_value _default_value (Float_canonical_value _minvalue);
     validate_datatype := Float_validate_datatype _allow_int |}.

(** ** Percentage *)

(** The default of the [minvalue] argument of [Percentage]: [0.0]. *)
Definition Percentage_minvalue_default : option number :=
  Some (NFloat (S754_zero false)).

Definition Percentage_validate_datatype (_allow_int : bool) (value : pyval)
    (varprefix : string) : result unit :=
  if _allow_int then
    if negb (isinstance_int value || isinstance_float value)
    then Raise (MKUserError varprefix) else Ok tt
  else Float_validate_datatype _allow_int value varprefix.

Definition Percentage (_allow_int : bool) (_minvalue : option number)
    (_default_value : option default_arg) : ValueSpec :=
  {| canonical_value := Float_canonical_value _minvalue;
     default_value :=
       ValueSpec_default_value _default_value (Float_canonical_value _minvalue);
     validate_datatype := Percentage_validate_datatype _allow_int |}.

(** ** Checkbox *)

Definition Checkbox_validate_datatype (value : pyval) (varprefix : string)
  : result unit :=
  if negb (isinstance_bool value) then Raise (MKUserError varprefix) else Ok tt.

Definition Checkbox (_default_value : option default_arg) : ValueSpec :=
  {| canonical_value := Ok (PBool false);
     default_value := ValueSpec_default_value _default_value (Ok (PBool false));
     validate_datatype := Checkbox_validate_datatype |}.

(** ** TextAscii *)

Definition TextAscii_validate_datatype (_none_is_empty : bool) (value : pyval)
    (varprefix : string) : result unit :=
  if _none_is_empty && (match value with PNone => true | _ => false end) then Ok tt
  else if negb (isinstance_str value) then Raise (MKUserError varprefix)
  else Ok tt.

Definition TextAscii (_none_is_empty : bool) (_default_value : option default_arg)
  : ValueSpec :=
  {| canonical_value := Ok (PStr "");
     default_value := ValueSpec_default_value _default_value (Ok (PStr ""));
     validate_datatype := TextAscii_validate_datatype _none_is_empty |}.

(** ** ListOfStrings *)

(** [for nr, s in enumerate(value): self._valuespec.validate_datatype(s, varprefix + "_%d" % nr)] *)
Fixpoint ListOfStrings_validate_items (_valuespec : ValueSpec) (varprefix : string)
    (nr : nat) (value : list pyval) : result unit :=
  match value with
  | [] => Ok tt
  | s :: rest =>
      validate_datatype _valuespec s (varprefix ++ "_" ++ str_of_nat nr) ;;;
      ListOfStrings_validate_items _valuespec varprefix (S nr) rest
  end.

Definition ListOfStrings_validate_datatype (_valuespec : ValueSpec) (value : pyval)
    (varprefix : string) : result unit :=
  match value with
  | PList l => ListOfStrings_validate_items _valuespec varprefix 0%nat l
  | _ => Raise (MKUserError varprefix)
  end.

(** [valuespec if valuespec is not None else TextAscii(size=size)] *)
Definition ListOfStrings (valuespec : option ValueSpec)
    (_default_value : option default_arg) : ValueSpec :=
  let _valuespec :=
    match valuespec with Some vs => vs | None => TextAscii false None end in
  {| canonical_value := Ok (PList []);
     default_value := ValueSpec_default_value _default_value (Ok (PList []));
     validate_datatype := ListOfStrings_validate_datatype _valuespec |}.

(** ** DropdownChoice *)

(** The [choices] argument: a list of (value, title) entries or a function
    returning one. *)
Inductive choices_arg : Type :=
| ChoicesList (l : list (pyval * string))
| ChoicesFunction (f : unit -> result (list (pyval * string))).

Definition DropdownChoice_choices (_choices : choices_arg) (_no_preselect : bool)
    (_no_preselect_value : pyval) (_no_preselect_title : string)
  : result (list (pyval * string)) :=
  result_ <- match _choices with
             | ChoicesList l => Ok l
             | ChoicesFunction f => f tt
             end ;;
  if _no_preselect
  then Ok ((_no_preselect_value, _no_preselect_title) :: result_)
  else Ok result_.

Definition DropdownChoice_canonical_value (_choices : choices_arg)
    (_no_preselect : bool) (_no_preselect_value : pyval)
    (_no_preselect_title : string) : result pyval :=
  choices <- DropdownChoice_choices _choices _no_preselect _no_preselect_value
               _no_preselect_title ;;
  match choices with
  | entry :: _ => Ok (fst entry)
  | [] => Ok PNone
  end.

(** [DropdownChoice] does not override [validate_datatype]. *)
Definition DropdownChoice (_choices : choices_arg) (_no_preselect : bool)
    (_no_preselect_value : pyval) (_no_preselect_title : string)
    (_default_value : option default_arg) : ValueSpec :=
  {| canonical_value :=
       DropdownChoice_canonical_value _choices _no_preselect _no_preselect_value
         _no_preselect_title;
     default_value :=
       ValueSpec_default_value _default_value
         (DropdownChoice_canonical_value _choices _no_preselect _no_preselect_value
            _no_preselect_title);
     validate_datatype := ValueSpec_validate_datatype |}.

(** ** Optional *)

Definition Optional_validate_datatype (_valuespec : ValueSpec) (_none_value : pyval)
    (value : pyval) (varprefix : string) : result unit :=
  if py_ne value _none_value
  then validate_datatype _valuespec value (varprefix ++ "_value")
  else Ok tt.

Definition Optional (_valuespec : ValueSpec) (_none_value : pyval)
    (_default_value : option default_arg) : ValueSpec :=
  {| canonical_value := Ok _none_value;
     default_value := ValueSpec_default_value _default_value (Ok _none_value);
     validate_datatype := Optional_validate_datatype _valuespec _none_value |}.

(** ** Alternative *)

(** [self._elements[0]] *)
Definition elements_0 (elements : list ValueSpec) : result ValueSpec :=
  match elements with
  | vs :: _ => Ok vs
  | [] => Raise IndexError
  end.

Definition Alternative_canonical_value (_elements : list ValueSpec) : result pyval :=
  vs <- elements_0 _elements ;; canonical_value vs.

Definition Alternative_default_value (_elements : list ValueSpec)
    (_default_value : option default_arg) : result pyval :=
  try_except
    (d <- getattr__default_value _default_value ;;
     match d with
     | DefaultFunction f => f tt
     | DefaultValue v => Ok v
     end)
    (fun _ => vs <- elements_0 _elements ;; default_value vs).

(** The first element whose datatype check does not raise ends the loop;
    every exception of an element is swallowed. *)
Fixpoint Alternative_validate_datatype (_elements : list ValueSpec) (value : pyval)
    (varprefix : string) : result unit :=
  match _elements with
  | [] => Raise (MKUserError varprefix)
  | vs :: rest =>
      try_except (validate_datatype vs value "")
        (fun _ => Alternative_validate_datatype rest value varprefix)
  end.

Definition Alternative (_elements : list ValueSpec)
    (_default_value : option default_arg) : ValueSpec :=
  {| canonical_value := Alternative_canonical_value _elements;
     default_value := Alternative_default_value _elements _default_value;
     validate_datatype := Alternative_validate_datatype _elements |}.

(** ** Tuple *)

Definition Tuple_canonical_value (_elements : list ValueSpec) : result pyval :=
  xs <- mapM canonical_value _elements ;; Ok (PTuple xs).

Definition Tuple_default_value (_elements : list ValueSpec) : result pyval :=
  xs <- mapM default_value _elements ;; Ok (PTuple xs).

(** [for no, (element, val) in enumerate(zip(self._elements, value))] *)
Fixpoint Tuple_validate_elements (varprefix : string) (no : nat)
    (_elements : list ValueSpec) (value : list pyval) : result unit :=
  match _elements, value with
  | element :: es, val :: vals =>
      let vp := varprefix ++ "_" ++ str_of_nat no in
      validate_datatype element val vp ;;;
      Tuple_validate_elements varprefix (S no) es vals
  | _, _ => Ok tt
  end.

Definition Tuple_validate_datatype (_elements : list ValueSpec) (value : pyval)
    (varprefix : string) : result unit :=
  match value with
  | PTuple vals =>
      if negb (Nat.eqb (List.length vals) (List.length _elements))
      then Raise (MKUserError varprefix)
      else Tuple_validate_elements varprefix 0%nat _elements vals
  | _ => Raise (MKUserError varprefix)
  end.

(** The [default_value] argument is stored by [ValueSpec.__init__] and
    never read again: [Tuple] overrides [default_value]. *)
Definition Tuple (_elements : list ValueSpec) (_default_value : option default_arg)
  : ValueSpec :=
  {| canonical_value := Tuple_canonical_value _elements;
     default_value := Tuple_default_value _elements;
     validate_datatype := Tuple_validate_datatype _elements |}.

(** ** Dictionary *)

(** The [optional_keys] argument: [Union[bool, List[str]]]. *)
Inductive optional_keys_arg : Type :=
| OptionalKeysBool (b : bool)
| OptionalKeysList (keys : list string).

(** The attributes [Dictionary.__init__] leaves on the object. *)
Record DictionaryAttrs : Type := mkDictionaryAttrs {
  _elements : list (string * ValueSpec);
  _required_keys : list string;
  _ignored_keys : list string;
  _default_keys : list string;
  _optional_keys : bool;
  _migrate : option (pyval -> result pyval)
}.

(** [x or []] for an optional list argument. *)
Definition or_empty (x : option (list string)) : list string :=
  match x with
  | Some (k :: l) => k :: l
  | _ => []
  end.

Definition Dictionary___init__ (elements : list (string * ValueSpec))
    (optional_keys : optional_keys_arg)
    (required_keys ignored_keys default_keys : option (list string))
    (migrate : option (pyval -> result pyval)) : DictionaryAttrs :=
  match optional_keys with
  | OptionalKeysList (k :: l) =>
      {| _elements := elements;
         _required_keys :=
           map fst (filter (fun e => negb (str_in (fst e) (k :: l))) elements);
         _ignored_keys := or_empty ignored_keys;
         _default_keys := or_empty default_keys;
         _optional_keys := true;
         _migrate := migrate |}
  | OptionalKeysBool true =>
      {| _elements := elements;
         _required_keys := or_empty required_keys;
         _ignored_keys := or_empty ignored_keys;
         _default_keys := or_empty default_keys;
         _optional_keys := true;
         _migrate := migrate |}
  | _ =>
      {| _elements := elements;
         _required_keys := or_empty required_keys;
         _ignored_keys := or_empty ignored_keys;
         _default_keys := or_empty default_keys;
         _optional_keys := false;
         _migrate := migrate |}
  end.

Section DictionaryMethods.

Variable self : DictionaryAttrs.

Definition Dictionary_migrate (value : pyval) : result pyval :=
  match _migrate self with
  | Some f => f value
  | None => Ok value
  end.

(** [elements] is a list, as its type comment says; the branch of
    [_get_elements] for a callable is not represented. *)
Definition Dictionary__get_elements : list (string * ValueSpec) := _elements self.

(** [name in self._required_keys or not self._optional_keys] *)
Definition Dictionary_canonical_key (name : string) : bool :=
  str_in name (_required_keys self) || negb (_optional_keys self).

Definition Dictionary_canonical_value : result pyval :=
  items <- mapM (fun e => v <- canonical_value (snd e) ;; Ok (PStr (fst e), v))
             (filter (fun e => Dictionary_canonical_key (fst e))
                Dictionary__get_elements) ;;
  Ok (PDict (dict_of_items items)).

(** [name in self._required_keys or not self._optional_keys or name in self._default_keys] *)
Definition Dictionary_default_key (name : string) : bool :=
  str_in name (_required_keys self) || negb (_optional_keys self)
  || str_in name (_default_keys self).

Fixpoint Dictionary_default_value_loop (elements : list (string * ValueSpec))
    (def_val : list (pyval * pyval)) : result (list (pyval * pyval)) :=
  match elements with
  | [] => Ok def_val
  | (name, vs) :: rest =>
      if Dictionary_default_key name
      then v <- default_value vs ;;
           Dictionary_default_value_loop rest (dict_set def_val (PStr name) v)
      else Dictionary_default_value_loop rest def_val
  end.

Definition Dictionary_default_value : result pyval :=
  def_val <- Dictionary_default_value_loop Dictionary__get_elements [] ;;
  Ok (PDict def_val).

(** [not self._optional_keys or param in self._required_keys] *)
Definition Dictionary_required (param : string) : bool :=
  negb (_optional_keys self) || str_in param (_required_keys self).

(** The loop over the declared elements.  An [MKUserError] of an element
    is raised again under the same [varname]. *)
Fixpoint Dictionary_validate_elements (value : list (pyval * pyval))
    (varprefix : string) (elements : list (string * ValueSpec)) : result unit :=
  match elements with
  | [] => Ok tt
  | (param, vs) :: rest =>
      match dict_get value (PStr param) with
      | Some entry =>
          let vp := varprefix ++ "_p_" ++ param in
          try_except (validate_datatype vs entry vp)
            (fun e =>
               match e with
               | MKUserError varname => Raise (MKUserError varname)
               | _ => Raise e
               end) ;;;
          Dictionary_validate_elements value varprefix rest
      | None =>
          if Dictionary_required param
          then Raise (MKUserError varprefix)
          else Dictionary_validate_elements value varprefix rest
      end
  end.

Definition Dictionary_allowed_keys : list string :=
  let allowed_keys := map fst Dictionary__get_elements in
  match _ignored_keys self with
  | [] => allowed_keys
  | k :: l => allowed_keys ++ (k :: l)
  end.

(** [for param in value.keys(): if param not in allowed_keys: raise] *)
Fixpoint Dictionary_check_exceeding (allowed_keys : list string)
    (varprefix : string) (keys : list pyval) : result unit :=
  match keys with
  | [] => Ok tt
  | param :: rest =>
      if negb (py_in_strs param allowed_keys)
      then Raise (MKUserError varprefix)
      else Dictionary_check_exceeding allowed_keys varprefix rest
  end.

Definition Dictionary_validate_datatype (value : pyval) (varprefix : string)
  : result unit :=
  value' <- Dictionary_migrate value ;;
  match value' with
  | PDict d =>
      Dictionary_validate_elements d varprefix Dictionary__get_elements ;;;
      Dictionary_check_exceeding Dictionary_allowed_keys varprefix (dict_keys d)
  | _ => Raise (MKUserError varprefix)
  end.

End DictionaryMethods.

(** As for [Tuple], the [default_value] argument is stored and never
    read: [Dictionary] overrides [default_value]. *)
Definition Dictionary_of_attrs (self : DictionaryAttrs)
    (_default_value : option default_arg) : ValueSpec :=
  {| canonical_value := Dictionary_canonical_value self;
     default_value := Dictionary_default_value self;
     validate_datatype := Dictionary_validate_datatype self |}.

Definition Dictionary (elements : list (string * ValueSpec))
    (optional_keys : optional_keys_arg)
    (required_keys ignored_keys default_keys : option (list string))
    (migrate : option (pyval -> result pyval))
    (_default_value : option default_arg) : ValueSpec :=
  Dictionary_of_attrs
    (Dictionary___init__ elements optional_keys required_keys ignored_keys
       default_keys migrate)
    _default_value.

(** ** Transform *)

Section TransformMethods.

Variable _valuespec : ValueSpec.
Variables _back _forth : option (pyval -> result pyval).

Definition Transform_forth (value : pyval) : result pyval :=
  match _forth with
  | Some f => f value
  | None => Ok value
  end.

Definition Transform_back (value : pyval) : result pyval :=
  match _back with
  | Some f => f value
  | None => Ok value
  end.

Definition Transform_canonical_value : result pyval :=
  v <- canonical_value _valuespec ;; Transform_back v.

Definition Transform_default_value : result pyval :=
  v <- default_value _valuespec ;; Transform_back v.

Definition Transform_validate_datatype (value : pyval) (varprefix : string)
  : result unit :=
  v <- Transform_forth value ;; validate_datatype _valuespec v varprefix.

(** [value_to_text] of the wrapped valuespec is reached through the
    object; it is the argument [inner_value_to_text] here. *)
Definition Transform_value_to_text (inner_value_to_text : pyval -> result string)
    (value : pyval) : result string :=
  v <- Transform_forth value ;; inner_value_to_text v.

End TransformMethods.

Definition Transform (_valuespec : ValueSpec)
    (_back _forth : option (pyval -> result pyval))
    (_default_value : option default_arg) : ValueSpec :=
  {| canonical_value := Transform_canonical_value _valuespec _back;
     default_value := Transform_default_value _valuespec _back;
     validate_datatype := Transform_validate_datatype _valuespec _forth |}.

(** ** Age.value_to_text *)

(** [divmod(a, b)]: floor division and its remainder. *)
Definition divmod (a b : Z) : Z * Z := (a / b, a mod b).

Section AgeText.

(** The translation function [_] of [cmk.gui.i18n]. *)
Variable translate : string -> string.

(** The loop body: ["%d %s" % (count, title)] is appended when [count]
    is not zero. *)
Fixpoint Age_parts (entries : list (string * Z)) : list string :=
  match entries with
  | [] => []
  | (title, count) :: rest =>
      if negb (count =? 0)
      then (fmt_d count ++ " " ++ title) :: Age_parts rest
      else Age_parts rest
  end.

Definition Age_value_to_text (value : Z) : string :=
  let '(days, rest) := divmod value (60 * 60 * 24) in
  let '(hours, rest) := divmod rest (60 * 60) in
  let '(minutes, seconds) := divmod rest 60 in
  let parts :=
    Age_parts [(translate "days", days);
               (translate "hours", hours);
               (translate "minutes", minutes);
               (translate "seconds", seconds)] in
  match parts with
  | _ :: _ => String.concat " " parts
  | [] => translate "no time"
  end.

(** The rendering as the specification words it, for a decomposition
    [d], [h], [m], [s] given from outside. *)
Definition Age_text_spec (d h m s : Z) : string :=
  if (d =? 0) && (h =? 0) && (m =? 0) && (s =? 0)
  then translate "no time"
  else
    String.concat " "
      (map (fun e => fmt_d (snd e) ++ " " ++ translate (fst e))
         (filter (fun e => negb (snd e =? 0))
            [("days", d); ("hours", h); ("minutes", m); ("seconds", s)])).

End AgeText.

(** ** The EMC VNX storage pools registration *)

(** The float literals [70.0] and [90.0]. *)
Definition float_70_0 : spec_float := S754_finite false 4925812092436480 (-46).
Definition float_90_0 : spec_float := S754_finite false 6333186975989760 (-46).

(** What one call of [register_check_parameters] hands over. *)
Record check_parameters : Type := mkCheckParameters {
  subgroup : string;
  checkgroup : string;
  title : string;
  valuespec : ValueSpec;
  itemspec : option ValueSpec;
  match_type : string
}.

Definition register_check_parameters (subgroup checkgroup title : string)
    (valuespec : ValueSpec) (itemspec : option ValueSpec) (match_type : string)
  : check_parameters :=
  mkCheckParameters subgroup checkgroup title valuespec itemspec match_type.

(** Arguments left out of a constructor call take the defaults of the
    Python signature. *)
Definition emcvnx_storage_pools_valuespec : ValueSpec :=
  Dictionary
    [("percent_full",
      Tuple
        [Percentage false Percentage_minvalue_default
           (Some (DefaultValue (PFloat float_70_0)));
         Percentage false Percentage_minvalue_default
           (Some (DefaultValue (PFloat float_90_0)))]
        None)]
    (OptionalKeysBool true) None None None None None.

Definition emcvnx_storage_pools : check_parameters :=
  register_check_parameters
    "RulespecGroupCheckParametersStorage"
    "emcvnx_storage_pools"
    "EMC VNX storage pools"
    emcvnx_storage_pools_valuespec
    (Some (TextAscii false None))
    "dict".

(** ** Level classification *)

Module CheckApi.

(** The [params] argument of [check_levels]: [None], an upper pair or
    upper and lower pairs. *)
Inductive levels : Type :=
| NoLevels
| Levels2 (warn crit : Z)
| Levels4 (warn crit warn_low crit_low : Z).

(** A performance data entry: [(dsname, value)] or
    [(dsname, value, warn, crit)]. *)
Inductive perfdata : Type :=
| Perf2 (dsname : string) (value : Z)
| Perf4 (dsname : string) (value warn crit : Z).

Section Levels.

(** [human_readable_func], with the unit appended. *)
Variable human_readable : Z -> string.

Definition levelsinfo (ty : string) (warn crit : Z) : string :=
  " (warn/crit " ++ ty ++ " " ++ human_readable warn ++ "/"
    ++ human_readable crit ++ ")".

(** Modelled from the spec: [_check_boundaries] of [cmk_base.check_api],
    which is not part of the sources at hand.  The statuses and texts
    are those of the specification and of [test_boundaries]: the
    critical bounds are tried before the warning bounds, an upper
    bound before the lower one. *)
Definition _check_boundaries (value : Z) (params : levels) : Z * string :=
  match params with
  | NoLevels => (0, "")
  | Levels2 warn crit =>
      if crit <=? value then (2, levelsinfo "at" warn crit)
      else if warn <=? value then (1, levelsinfo "at" warn crit)
      else (0, "")
  | Levels4 warn crit warn_low crit_low =>
      if crit <=? value then (2, levelsinfo "at" warn crit)
      else if value <? crit_low then (2, levelsinfo "below" warn_low crit_low)
      else if warn <=? value then (1, levelsinfo "at" warn crit)
      else if value <? warn_low then (1, levelsinfo "below" warn_low crit_low)
      else (0, "")
  end.

(** Modelled from the spec: [check_levels] of [cmk_base.check_api],
    which is not part of the sources at hand.  The result is the
    status, the info text ["<infoname>: <value>"] followed by the
    text of the levels, and one performance data entry, as the
    specification and [test_check_levels] have them. *)
Definition check_levels (value : Z) (dsname : string) (params : levels)
    (infoname : option string) : Z * string * list perfdata :=
  let infotext :=
    (match infoname with Some n => n | None => dsname end)
      ++ ": " ++ human_readable value in
  let '(state, levelstext) := _check_boundaries value params in
  let perf :=
    match params with
    | NoLevels => Perf2 dsname value
    | Levels2 warn crit => Perf4 dsname value warn crit
    | Levels4 warn crit _ _ => Perf4 dsname value warn crit
    end in
  (state, infotext ++ levelstext, [perf]).

End Levels.

End CheckApi.

(** ** Notions the properties are stated with *)

(** The component check of position [i]. *)
Definition Tuple_component (varprefix : string) (no : nat) (element : ValueSpec) (val : pyval)
  : result unit :=
  validate_datatype element val (varprefix ++ "_" ++ str_of_nat no).

(** What the loop over the declared elements asks of one of them. *)
Definition Dictionary_element_ok (self : DictionaryAttrs) (value : list (pyval * pyval))
    (varprefix : string) (param : string) (vs : ValueSpec) : Prop :=
  match dict_get value (PStr param) with
  | Some entry => validate_datatype vs entry (varprefix ++ "_p_" ++ param) = Ok tt
  | None => Dictionary_required self param = false
  end.

(** A conversion function that cannot raise. *)
Definition total (f : pyval -> pyval) : pyval -> result pyval := fun v => Ok (f v).

(** Dicts whose keys are all strings. *)
Definition str_keys (d : list (pyval * pyval)) : Prop :=
  Forall (fun kv => exists s, fst kv = PStr s) d.

(** The element that has the last word on the key [name] of the default
    value: the last declared one with that name, if the key is kept. *)
Fixpoint Dictionary_last_default (self : DictionaryAttrs)
    (elements : list (string * ValueSpec)) (name : string) : option ValueSpec :=
  match elements with
  | [] => None
  | (n, vs) :: rest =>
      match Dictionary_last_default self rest name with
      | Some r => Some r
      | None =>
          if String.eqb n name && Dictionary_default_key self n then Some vs else None
      end
  end.

(** A valuespec inherits [default_value] from [ValueSpec] when its class
    does not override the method: the answer is then the one of
    [ValueSpec.default_value] on the stored argument [d]. *)
Definition inherits_default_value (vs : ValueSpec) (d : option default_arg) : Prop :=
  default_value vs = ValueSpec_default_value d (canonical_value vs).

(** A valuespec together with the two attributes [validate_value] goes
    through: its [_validate_value] method and its [_validate] callback. *)
Record ValidatingValueSpec : Type := mkValidatingValueSpec {
  as_ValueSpec : ValueSpec;
  _validate_value : callback;
  _validate : option callback
}.

(** No class of the hierarchy overrides [validate_value]. *)
Definition validate_value (self : ValidatingValueSpec) (value : pyval)
    (varprefix : string) : result unit :=
  ValueSpec_validate_value (_validate_value self) (_validate self) value varprefix.

(** [Checkbox] inherits [_validate_value] from [ValueSpec]. *)
Definition Checkbox_validating (validate : option callback)
    (_default_value : option default_arg) : ValidatingValueSpec :=
  {| as_ValueSpec := Checkbox _default_value;
     _validate_value := ValueSpec__validate_value;
     _validate := validate |}.

Definition Integer_validating (minvalue maxvalue : option number)
    (validate : option callback) (_default_value : option default_arg)
  : ValidatingValueSpec :=
  {| as_ValueSpec := Integer minvalue _default_value;
     _validate_value := Integer__validate_value minvalue maxvalue;
     _validate := validate |}.

(** The float literal [1.5]. *)
Definition float_1_5 : spec_float := S754_finite false 6755399441055744 (-52).

(** The valuespecs built by nesting the thirteen classes, configured so
    that no constructor argument defeats the canonical value: for
    [FixedValue] and for the [none_value] of [Optional] a value that
    [py_eq] finds equal to itself, which leaves out every value that
    holds a NaN; a [minvalue] that is no [long] for [Age]; no float that
    is not zero as the [minvalue] of an [Integer]; a [minvalue] that
    [float()] can convert for [Float] and [Percentage]; choices that can
    be computed for [DropdownChoice]; at least one element for
    [Alternative]; and, for [Dictionary], no [migrate] function and no
    name declared twice. *)
Inductive well_configured : ValueSpec -> Prop :=
| wc_FixedValue v d :
    py_eq v v = true -> well_configured (FixedValue v d)
| wc_Age m d :
    (forall z, m = Some z -> is_long z = false) -> well_configured (Age m d)
| wc_Integer m d :
    (forall f, m = Some (NFloat f) -> number_truthy (NFloat f) = false) ->
    well_configured (Integer m d)
| wc_Float a m d :
    returns (float_of_number (Integer_canonical_value m)) ->
    well_configured (Float a m d)
| wc_Percentage a m d :
    returns (float_of_number (Integer_canonical_value m)) ->
    well_configured (Percentage a m d)
| wc_Checkbox d : well_configured (Checkbox d)
| wc_TextAscii n d : well_configured (TextAscii n d)
| wc_ListOfStrings vs d : well_configured (ListOfStrings vs d)
| wc_DropdownChoice c p pv pt d :
    returns (DropdownChoice_choices c p pv pt) ->
    well_configured (DropdownChoice c p pv pt d)
| wc_Optional vs n d :
    py_eq n n = true -> well_configured (Optional vs n d)
| wc_Alternative e es d :
    well_configured e -> well_configured (Alternative (e :: es) d)
| wc_Tuple es d :
    Forall well_configured es -> well_configured (Tuple es d)
| wc_Dictionary self d :
    _migrate self = None ->
    NoDup (map fst (_elements self)) ->
    Forall (fun e => well_configured (snd e)) (_elements self) ->
    well_configured (Dictionary_of_attrs self d).

(** [canonical_value()] returns a value that [validate_datatype] lets
    through under every [varprefix]. *)
Definition canonical_passes (vs : ValueSpec) : Prop :=
  exists v,
    canonical_value vs = Ok v
    /\ forall varprefix, validate_datatype vs v varprefix = Ok tt.

(** The items of a dict with string keys. *)
Definition str_items (kvs : list (string * pyval)) : list (pyval * pyval) :=
  map (fun kv => (PStr (fst kv), snd kv)) kvs.

(** The value the last item named [name] holds. *)
Fixpoint assoc_last (name : string) (kvs : list (string * pyval)) : option pyval :=
  match kvs with
  | [] => None
  | (n, v) :: rest =>
      match assoc_last name rest with
      | Some w => Some w
      | None => if String.eqb n name then Some v else None
      end
  end.

(** An item of the canonical dict belongs to a declared element. *)
Definition canonical_item (e : string * ValueSpec) (kv : string * pyval) : Prop :=
  fst kv = fst e
  /\ canonical_value (snd e) = Ok (snd kv)
  /\ forall p, validate_datatype (snd e) (snd kv) p = Ok tt.

(** * Further parts of the valuespec library *)

(** ** Further builtins *)

(** [KeyError], as one more subclass of [Exception]. *)
Definition KeyError : exc := OtherException "KeyError".

(** Truth value of a value, as in [if value:] and [not value]. *)
Definition py_truthy (v : pyval) : bool :=
  match v with
  | PNone => false
  | PBool b => b
  | PInt z => negb (z =? 0)
  | PFloat f => number_truthy (NFloat f)
  | PStr s => match s with EmptyString => false | String _ _ => true end
  | PList l => match l with [] => false | _ :: _ => true end
  | PTuple l => match l with [] => false | _ :: _ => true end
  | PDict d => match d with [] => false | _ :: _ => true end
  end.

(** Whether a NaN occurs in a value.  CPython's [==] on lists, tuples
    and dicts takes two items that are one and the same object as equal
    without comparing them, and a NaN differs from itself; so for a
    value that holds a NaN the outcome of [==] depends on which objects
    are shared, and [py_eq], which has no object identity, decides as if
    none were.  On a value that holds no NaN the two agree whatever is
    shared. *)
Fixpoint holds_nan (v : pyval) : bool :=
  match v with
  | PFloat S754_nan => true
  | PList l =>
      (fix any (l : list pyval) : bool :=
         match l with
         | [] => false
         | x :: l' => holds_nan x || any l'
         end) l
  | PTuple l =>
      (fix any (l : list pyval) : bool :=
         match l with
         | [] => false
         | x :: l' => holds_nan x || any l'
         end) l
  | PDict d =>
      (fix any (d : list (pyval * pyval)) : bool :=
         match d with
         | [] => false
         | (k, w) :: d' => holds_nan k || holds_nan w || any d'
         end) d
  | _ => false
  end.

(** [value is None] *)
Definition is_None (v : pyval) : bool :=
  match v with PNone => true | _ => false end.

(** [len(value)] *)
Definition py_len (v : pyval) : result nat :=
  match v with
  | PStr s => Ok (String.length s)
  | PList l => Ok (List.length l)
  | PTuple l => Ok (List.length l)
  | PDict d => Ok (List.length d)
  | _ => Raise TypeError
  end.

(** The characters of a string, each a string of length one. *)
Fixpoint str_chars (s : string) : list string :=
  match s with
  | EmptyString => []
  | String c s' => String c EmptyString :: str_chars s'
  end.

(** What [for x in value] and [zip(..., value)] go through: the items of
    a list or tuple, the characters of a string, the keys of a dict. *)
Definition py_iter (v : pyval) : result (list pyval) :=
  match v with
  | PList l => Ok l
  | PTuple l => Ok l
  | PStr s => Ok (map PStr (str_chars s))
  | PDict d => Ok (dict_keys d)
  | _ => Raise TypeError
  end.

(** [p in s] for two strings. *)
Fixpoint is_substring (p s : string) : bool :=
  String.prefix p s
  || match s with
     | EmptyString => false
     | String _ s' => is_substring p s'
     end.

(** [c in value] for a string [c]. *)
Definition py_str_in (c : string) (value : pyval) : result bool :=
  match value with
  | PStr s => Ok (is_substring c s)
  | PList l => Ok (existsb (fun x => py_eq (PStr c) x) l)
  | PTuple l => Ok (existsb (fun x => py_eq (PStr c) x) l)
  | PDict d => Ok (dict_contains d (PStr c))
  | _ => Raise TypeError
  end.

(** [seq[i]] on the items of a sequence, negative indexes counting from
    the end. *)
Definition seq_getitem {A : Type} (l : list A) (i : Z) : result A :=
  let idx := if i <? 0 then i + Z.of_nat (List.length l) else i in
  if idx <? 0 then Raise IndexError
  else match nth_error l (Z.to_nat idx) with
       | Some x => Ok x
       | None => Raise IndexError
       end.

(** [value[i]] for an int [i]. *)
Definition py_getitem_int (value : pyval) (i : Z) : result pyval :=
  match value with
  | PList l => seq_getitem l i
  | PTuple l => seq_getitem l i
  | PStr s => seq_getitem (map PStr (str_chars s)) i
  | PDict d =>
      match dict_get d (PInt i) with
      | Some v => Ok v
      | None => Raise KeyError
      end
  | _ => Raise TypeError
  end.

(** [value[key]] for a string [key]. *)
Definition py_getitem_str (value : pyval) (key : string) : result pyval :=
  match value with
  | PDict d =>
      match dict_get d (PStr key) with
      | Some v => Ok v
      | None => Raise KeyError
      end
  | _ => Raise TypeError
  end.

(** [items > bound] for a tuple against a tuple of ints: the first
    position where the two differ decides, then the lengths. *)
Fixpoint tuple_gt_ints (items : list pyval) (bound : list Z) : bool :=
  match items, bound with
  | v :: items', w :: bound' =>
      if py_eq v (PInt w) then tuple_gt_ints items' bound'
      else py2_gt_number v (NInt w)
  | _ :: _, [] => true
  | [], _ => false
  end.

(** [value > bound] for any value against a tuple of ints; in Python 2
    every value of another type modelled here sorts below a tuple. *)
Definition py2_gt_int_tuple (value : pyval) (bound : list Z) : bool :=
  match value with
  | PTuple items => tuple_gt_ints items bound
  | _ => false
  end.

(** [s.strip()] *)
Definition is_space (c : ascii) : bool :=
  let n := nat_of_ascii c in
  (Nat.eqb n 32) || ((9 <=? n)%nat && (n <=? 13)%nat).

Fixpoint str_lstrip (s : string) : string :=
  match s with
  | EmptyString => EmptyString
  | String c s' => if is_space c then str_lstrip s' else s
  end.

Fixpoint str_rstrip (s : string) : string :=
  match s with
  | EmptyString => EmptyString
  | String c s' =>
      match str_rstrip s' with
      | EmptyString => if is_space c then EmptyString else String c EmptyString
      | r => String c r
      end
  end.

Definition str_strip (s : string) : string := str_rstrip (str_lstrip s).

(** A str that [unicode()] can decode: all bytes below 128. *)
Fixpoint is_ascii_str (s : string) : bool :=
  match s with
  | EmptyString => true
  | String c s' => (nat_of_ascii c <? 128)%nat && is_ascii_str s'
  end.

(** [s[:n]] and [s[n:]] for [0 <= n]. *)
Fixpoint str_take (n : nat) (s : string) : string :=
  match n, s with
  | S n', String c s' => String c (str_take n' s')
  | _, _ => EmptyString
  end.

Fixpoint str_drop (n : nat) (s : string) : string :=
  match n, s with
  | S n', String _ s' => str_drop n' s'
  | _, _ => s
  end.

(** ** Timeofday and TimeofdayRange *)

Definition Timeofday_canonical_value (_allow_empty : bool) : pyval :=
  if _allow_empty then PNone else PTuple [PInt 0; PInt 0].

(** [for x in value: if not isinstance(x, int): raise] *)
Fixpoint Timeofday_validate_items (varprefix : string) (value : list pyval)
  : result unit :=
  match value with
  | [] => Ok tt
  | x :: rest =>
      if negb (isinstance_int x) then Raise (MKUserError varprefix)
      else Timeofday_validate_items varprefix rest
  end.

Definition Timeofday_validate_datatype (_allow_empty : bool) (value : pyval)
    (varprefix : string) : result unit :=
  if _allow_empty && is_None value then Ok tt
  else
    match value with
    | PTuple items =>
        if negb (Nat.eqb (List.length items) 2) then Raise (MKUserError varprefix)
        else Timeofday_validate_items varprefix items
    | _ => Raise (MKUserError varprefix)
    end.

Definition Timeofday__validate_value (_allow_24_00 _allow_empty : bool)
    (value : pyval) (varprefix : string) : result unit :=
  (if negb _allow_empty && is_None value
   then Raise (MKUserError varprefix) else Ok tt) ;;;
  let max_value := if _allow_24_00 then [24; 0] else [23; 59] in
  if py2_gt_int_tuple value max_value then Raise (MKUserError varprefix)
  else
    h <- py_getitem_int value 0 ;;
    if py2_lt_number h (NInt 0) then Raise (MKUserError varprefix)
    else
      m <- py_getitem_int value 1 ;;
      if py2_lt_number m (NInt 0) then Raise (MKUserError varprefix)
      else
        h' <- py_getitem_int value 0 ;;
        if py2_gt_number h' (NInt 24) then Raise (MKUserError varprefix)
        else
          m' <- py_getitem_int value 1 ;;
          if py2_gt_number m' (NInt 59) then Raise (MKUserError varprefix)
          else Ok tt.

Definition Timeofday (_allow_24_00 _allow_empty : bool)
    (_default_value : option default_arg) : ValueSpec :=
  {| canonical_value := Ok (Timeofday_canonical_value _allow_empty);
     default_value :=
       ValueSpec_default_value _default_value
         (Ok (Timeofday_canonical_value _allow_empty));
     validate_datatype := Timeofday_validate_datatype _allow_empty |}.

Definition Timeofday_validating (_allow_24_00 _allow_empty : bool)
    (validate : option callback) (_default_value : option default_arg)
  : ValidatingValueSpec :=
  {| as_ValueSpec := Timeofday _allow_24_00 _allow_empty _default_value;
     _validate_value := Timeofday__validate_value _allow_24_00 _allow_empty;
     _validate := validate |}.

(** [self._bounds]: two [Timeofday(allow_empty=self._allow_empty, allow_24_00=True)]. *)
Definition TimeofdayRange__bounds (_allow_empty : bool) : ValueSpec * ValueSpec :=
  (Timeofday true _allow_empty None, Timeofday true _allow_empty None).

Definition TimeofdayRange_canonical_value (_allow_empty : bool) : pyval :=
  if _allow_empty then PNone
  else PTuple [PTuple [PInt 0; PInt 0]; PTuple [PInt 24; PInt 0]].

Definition TimeofdayRange_validate_datatype (_allow_empty : bool) (value : pyval)
    (varprefix : string) : result unit :=
  if _allow_empty && is_None value then Ok tt
  else
    match value with
    | PTuple items =>
        if negb (Nat.eqb (List.length items) 2) then Raise (MKUserError varprefix)
        else
          from <- seq_getitem items 0 ;;
          validate_datatype (fst (TimeofdayRange__bounds _allow_empty)) from
            (varprefix ++ "_from") ;;;
          until <- seq_getitem items 1 ;;
          validate_datatype (snd (TimeofdayRange__bounds _allow_empty)) until
            (varprefix ++ "_until")
    | _ => Raise (MKUserError varprefix)
    end.

Definition TimeofdayRange (_allow_empty : bool) (_default_value : option default_arg)
  : ValueSpec :=
  {| canonical_value := Ok (TimeofdayRange_canonical_value _allow_empty);
     default_value :=
       ValueSpec_default_value _default_value
         (Ok (TimeofdayRange_canonical_value _allow_empty));
     validate_datatype := TimeofdayRange_validate_datatype _allow_empty |}.

(** ** AutoTimestamp *)

(** [AutoTimestamp.validate_datatype] hands the exception back with
    [return]; what the caller gets is that object or [None]. *)
Definition AutoTimestamp_validate_datatype (value : pyval) (varprefix : string)
  : result (option exc) :=
  if negb (isinstance_int value || isinstance_float value)
  then Ok (Some (MKUserError varprefix))
  else Ok None.

(** An [AutoTimestamp] as the valuespecs around it call it.  [now] is
    what [time.time()] answers when [canonical_value] is called, [later]
    what it answers when [default_value] falls back on
    [canonical_value]; the callers of [validate_datatype] use no result,
    so what the method returns is dropped. *)
Definition AutoTimestamp (now later : spec_float)
    (_default_value : option default_arg) : ValueSpec :=
  {| canonical_value := Ok (PFloat now);
     default_value := ValueSpec_default_value _default_value (Ok (PFloat later));
     validate_datatype := fun value varprefix =>
       AutoTimestamp_validate_datatype value varprefix ;;; Ok tt |}.

(** ** NetworkPort *)

Definition NetworkPort (_default_value : option default_arg) : ValidatingValueSpec :=
  Integer_validating (Some (NInt 1)) (Some (NInt 65535)) None _default_value.

(** ** TextAscii._validate_value *)

(** [for c in self._forbidden_chars: if c in value: raise] *)
Fixpoint TextAscii_forbidden_loop (forbidden_chars : list string) (value : pyval)
    (varprefix : string) : result unit :=
  match forbidden_chars with
  | [] => Ok tt
  | c :: rest =>
      found <- py_str_in c value ;;
      if found then Raise (MKUserError varprefix)
      else TextAscii_forbidden_loop rest value varprefix
  end.

(** [value.strip()]: only a str has the method. *)
Definition py_strip (value : pyval) : result pyval :=
  match value with
  | PStr s => Ok (PStr (str_strip s))
  | _ => Raise AttributeError
  end.

(** [self._regex.match(value)], the compiled pattern being the function
    that tells whether a string matches. *)
Definition regex_match (regex : string -> bool) (value : pyval) : result bool :=
  match value with
  | PStr s => Ok (regex s)
  | _ => Raise TypeError
  end.

Definition TextAscii__validate_value (_forbidden_chars : string)
    (_none_is_empty _allow_empty : bool) (_regex : option (string -> bool))
    (_minlen : option Z) (value : pyval) (varprefix : string) : result unit :=
  (match value with
   | PStr s => if is_ascii_str s then Ok tt else Raise (MKUserError varprefix)
   | _ => Ok tt
   end) ;;;
  (match _forbidden_chars with
   | EmptyString => Ok tt
   | String _ _ =>
       TextAscii_forbidden_loop (str_chars _forbidden_chars) value varprefix
   end) ;;;
  (if _none_is_empty && py_eq value (PStr "")
   then Raise (MKUserError varprefix) else Ok tt) ;;;
  (if negb _allow_empty
   then stripped <- py_strip value ;;
        if py_eq stripped (PStr "") then Raise (MKUserError varprefix) else Ok tt
   else Ok tt) ;;;
  (if py_truthy value
   then match _regex with
        | Some regex =>
            matched <- regex_match regex value ;;
            if negb matched then Raise (MKUserError varprefix) else Ok tt
        | None => Ok tt
        end
   else Ok tt) ;;;
  (match _minlen with
   | Some minlen =>
       n <- py_len value ;;
       if Z.of_nat n <? minlen then Raise (MKUserError varprefix) else Ok tt
   | None => Ok tt
   end).

Definition TextAscii_validating (_forbidden_chars : string)
    (_none_is_empty _allow_empty : bool) (_regex : option (string -> bool))
    (_minlen : option Z) (validate : option callback)
    (_default_value : option default_arg) : ValidatingValueSpec :=
  {| as_ValueSpec := TextAscii _none_is_empty _default_value;
     _validate_value :=
       TextAscii__validate_value _forbidden_chars _none_is_empty _allow_empty
         _regex _minlen;
     _validate := validate |}.

(** ** DropdownChoice._validate_value *)

Section DropdownChoiceValidation.

Variable _choices : choices_arg.
Variable _no_preselect : bool.
Variable _no_preselect_value : pyval.
Variable _no_preselect_title : string.
(** The [invalid_choice] argument: ["complain"], ["replace"] or [None]. *)
Variable _invalid_choice : option string.

Definition DropdownChoice__value_is_invalid (value : pyval) : result bool :=
  choices <- DropdownChoice_choices _choices _no_preselect _no_preselect_value
               _no_preselect_title ;;
  Ok (negb (existsb (fun entry => py_eq (fst entry) value) choices)).

Definition is_complain (invalid_choice : option string) : bool :=
  match invalid_choice with
  | Some s => String.eqb s "complain"
  | None => false
  end.

Definition DropdownChoice__validate_value (value : pyval) (varprefix : string)
  : result unit :=
  (if _no_preselect && py_eq value _no_preselect_value
   then Raise (MKUserError varprefix) else Ok tt) ;;;
  (if is_complain _invalid_choice
   then invalid <- DropdownChoice__value_is_invalid value ;;
        if invalid then Raise (MKUserError varprefix) else Ok tt
   else Ok tt).

End DropdownChoiceValidation.
(** ** _validate_value of the container classes *)

(** [for no, (element, val) in enumerate(zip(self._elements, value))] *)
Fixpoint Tuple__validate_value_loop (varprefix : string) (no : nat)
    (elements : list ValidatingValueSpec) (value : list pyval) : result unit :=
  match elements, value with
  | element :: es, val :: vals =>
      let vp := varprefix ++ "_" ++ str_of_nat no in
      validate_value element val vp ;;;
      Tuple__validate_value_loop varprefix (S no) es vals
  | _, _ => Ok tt
  end.

Definition Tuple__validate_value (elements : list ValidatingValueSpec)
    (value : pyval) (varprefix : string) : result unit :=
  items <- py_iter value ;;
  Tuple__validate_value_loop varprefix 0%nat elements items.

Definition Tuple_validating (elements : list ValidatingValueSpec)
    (validate : option callback) (_default_value : option default_arg)
  : ValidatingValueSpec :=
  {| as_ValueSpec := Tuple (map as_ValueSpec elements) _default_value;
     _validate_value := Tuple__validate_value elements;
     _validate := validate |}.

(** The loop of [Dictionary._validate_value] over the declared elements;
    [self] holds the attributes, [elements] the declared valuespecs with
    their [validate_value]. *)
Fixpoint Dictionary__validate_value_loop (self : DictionaryAttrs) (value : pyval)
    (varprefix : string) (elements : list (string * ValidatingValueSpec))
  : result unit :=
  match elements with
  | [] => Ok tt
  | (param, vs) :: rest =>
      present <- py_str_in param value ;;
      if present
      then
        let vp := varprefix ++ "_p_" ++ param in
        entry <- py_getitem_str value param ;;
        validate_value vs entry vp ;;;
        Dictionary__validate_value_loop self value varprefix rest
      else
        if Dictionary_required self param
        then Raise (MKUserError varprefix)
        else Dictionary__validate_value_loop self value varprefix rest
  end.

Definition Dictionary__validate_value (self : DictionaryAttrs)
    (elements : list (string * ValidatingValueSpec)) (value : pyval)
    (varprefix : string) : result unit :=
  value' <- Dictionary_migrate self value ;;
  Dictionary__validate_value_loop self value' varprefix elements.

(** The attributes of a [Dictionary] over elements that carry their
    [validate_value]. *)
Definition Dictionary_validating_attrs
    (elements : list (string * ValidatingValueSpec))
    (optional_keys : optional_keys_arg)
    (required_keys ignored_keys default_keys : option (list string))
    (migrate : option (pyval -> result pyval)) : DictionaryAttrs :=
  Dictionary___init__ (map (fun e => (fst e, as_ValueSpec (snd e))) elements)
    optional_keys required_keys ignored_keys default_keys migrate.

Definition Dictionary_validating (elements : list (string * ValidatingValueSpec))
    (optional_keys : optional_keys_arg)
    (required_keys ignored_keys default_keys : option (list string))
    (migrate : option (pyval -> result pyval))
    (validate : option callback) (_default_value : option default_arg)
  : ValidatingValueSpec :=
  let self :=
    Dictionary_validating_attrs elements optional_keys required_keys ignored_keys
      default_keys migrate in
  {| as_ValueSpec := Dictionary_of_attrs self _default_value;
     _validate_value := Dictionary__validate_value self elements;
     _validate := validate |}.

(** [for nr, s in enumerate(value): self._valuespec.validate_value(s, varprefix + "_%d" % nr)] *)
Fixpoint ListOfStrings__validate_items (_valuespec : ValidatingValueSpec)
    (varprefix : string) (nr : nat) (value : list pyval) : result unit :=
  match value with
  | [] => Ok tt
  | s :: rest =>
      validate_value _valuespec s (varprefix ++ "_" ++ str_of_nat nr) ;;;
      ListOfStrings__validate_items _valuespec varprefix (S nr) rest
  end.

Definition ListOfStrings__validate_value (_valuespec : ValidatingValueSpec)
    (_allow_empty : bool) (_max_entries : option Z) (value : pyval)
    (varprefix : string) : result unit :=
  n <- py_len value ;;
  (if Nat.eqb n 0 && negb _allow_empty
   then Raise (MKUserError (varprefix ++ "_0")) else Ok tt) ;;;
  (match _max_entries with
   | Some max_entries =>
       n' <- py_len value ;;
       if max_entries <? Z.of_nat n'
       then Raise (MKUserError (varprefix ++ "_" ++ fmt_d max_entries))
       else Ok tt
   | None => Ok tt
   end) ;;;
  items <- py_iter value ;;
  ListOfStrings__validate_items _valuespec varprefix 0%nat items.

Definition ListOfStrings_validating (_valuespec : ValidatingValueSpec)
    (_allow_empty : bool) (_max_entries : option Z) (validate : option callback)
    (_default_value : option default_arg) : ValidatingValueSpec :=
  {| as_ValueSpec := ListOfStrings (Some (as_ValueSpec _valuespec)) _default_value;
     _validate_value :=
       ListOfStrings__validate_value _valuespec _allow_empty _max_entries;
     _validate := validate |}.

(** ** Alternative.matching_alternative and Alternative._validate_value *)

(** A valuespec object with its identity: [vs == v] on valuespecs is the
    identity of objects, no class defining [__eq__]. *)
Record ValueSpecObject : Type := mkValueSpecObject {
  object_id : nat;
  object_methods : ValidatingValueSpec
}.

(** [for vs in self._elements: try: vs.validate_datatype(value, ""); return vs
    except Exception: pass] *)
Fixpoint Alternative_first_match (elements : list ValueSpecObject) (value : pyval)
  : option ValueSpecObject :=
  match elements with
  | [] => None
  | vs :: rest =>
      match validate_datatype (as_ValueSpec (object_methods vs)) value "" with
      | Ok _ => Some vs
      | Raise _ => Alternative_first_match rest value
      end
  end.

Definition Alternative_matching_alternative (elements : list ValueSpecObject)
    (_match : option (pyval -> result Z)) (value : pyval)
  : result (option ValueSpecObject * pyval) :=
  match _match with
  | Some f =>
      i <- f value ;;
      vs <- seq_getitem elements i ;;
      Ok (Some vs, value)
  | None => Ok (Alternative_first_match elements value, value)
  end.

(** [for nr, v in enumerate(self._elements): if vs == v: vs.validate_value(...)] *)
Fixpoint Alternative__validate_value_loop (vs : option ValueSpecObject)
    (value : pyval) (varprefix : string) (nr : nat)
    (elements : list ValueSpecObject) : result unit :=
  match elements with
  | [] => Ok tt
  | v :: rest =>
      match vs with
      | Some o =>
          if Nat.eqb (object_id o) (object_id v)
          then validate_value (object_methods o) value
                 (varprefix ++ "_" ++ str_of_nat nr)
          else Ok tt
      | None => Ok tt
      end ;;;
      Alternative__validate_value_loop vs value varprefix (S nr) rest
  end.

Definition Alternative__validate_value (elements : list ValueSpecObject)
    (_match : option (pyval -> result Z)) (value : pyval) (varprefix : string)
  : result unit :=
  m <- Alternative_matching_alternative elements _match value ;;
  Alternative__validate_value_loop (fst m) (snd m) varprefix 0%nat elements.

(** ** Integer.value_to_text *)

(** The loop [while len(rest) > 3], run for at most [fuel] rounds: the
    pair of [rest] and [sepped] it ends with. *)
Fixpoint Integer_sep_loop (fuel : nat) (thousand_sep rest sepped : string)
  : string * string :=
  match fuel with
  | O => (rest, sepped)
  | S fuel' =>
      if (3 <? String.length rest)%nat
      then
        Integer_sep_loop fuel' thousand_sep
          (str_take (String.length rest - 3) rest)
          (thousand_sep ++ str_drop (String.length rest - 3) rest ++ sepped)
      else (rest, sepped)
  end.

(** [text] is what [self._display_format % value] gave. *)
Definition Integer_value_to_text (text : string) (_thousand_sep : option string)
    (_unit : string) : string :=
  let text :=
    match _thousand_sep with
    | Some (String c sep) =>
        let '(rest, sepped) :=
          Integer_sep_loop (String.length text) (String c sep) text "" in
        rest ++ sepped
    | _ => text
    end in
  match _unit with
  | EmptyString => text
  | String _ _ => text ++ "&nbsp;" ++ _unit
  end.

(** ** Age.render_input and Age.from_html_vars *)

(** The number fields [render_input] shows, as pairs of the name and the
    number of each [html.number_input]; all other output is markup. *)
Fixpoint Age_render_loop (_display : list string) (varprefix : string)
    (takeover : Z) (entries : list (string * Z * Z)) : list (string * Z) :=
  match entries with
  | [] => []
  | (uid, val, tkovr_fac) :: rest =>
      if str_in uid _display
      then (varprefix ++ "_" ++ uid, val + takeover)
             :: Age_render_loop _display varprefix 0 rest
      else Age_render_loop _display varprefix ((takeover + val) * tkovr_fac) rest
  end.

Definition Age_render_input (_display : list string) (varprefix : string)
    (value : Z) : list (string * Z) :=
  let '(days, rest) := divmod value (60 * 60 * 24) in
  let '(hours, rest) := divmod rest (60 * 60) in
  let '(minutes, seconds) := divmod rest 60 in
  Age_render_loop _display varprefix 0
    [("days", days, 24); ("hours", hours, 60);
     ("minutes", minutes, 60); ("seconds", seconds, 60)].

(** [saveint_var name] is [utils.saveint(html.request.var(name, 0))]: the
    number the request holds under [name], 0 when it holds none. *)
Definition Age_from_html_vars (saveint_var : string -> Z) (varprefix : string) : Z :=
  saveint_var (varprefix ++ "_days") * 3600 * 24
  + saveint_var (varprefix ++ "_hours") * 3600
  + saveint_var (varprefix ++ "_minutes") * 60
  + saveint_var (varprefix ++ "_seconds").

(** The request a form sends back that shows the number fields [fields]. *)
Fixpoint request_of_fields (fields : list (string * Z)) (name : string) : Z :=
  match fields with
  | [] => 0
  | (n, v) :: rest => if String.eqb n name then v else request_of_fields rest name
  end.

(** ** The JVM threads parameters *)

Definition _item_spec_jvm_threads : ValidatingValueSpec :=
  TextAscii_validating "" false false None None None None.

Definition _parameter_valuespec_jvm_threads : ValidatingValueSpec :=
  Tuple_validating
    [Integer_validating None None None (Some (DefaultValue (PInt 80)));
     Integer_validating None None None (Some (DefaultValue (PInt 100)))]
    None None.

(** ** Notions the further properties are stated with *)

(** A value [Timeofday.validate_datatype] lets through: [None] when
    empty input is allowed, or a pair of ints. *)
Definition is_time_of_day (allow_empty : bool) (value : pyval) : Prop :=
  (allow_empty = true /\ value = PNone)
  \/ exists h m,
       value = PTuple [h; m] /\ isinstance_int h = true /\ isinstance_int m = true.

(** A check that returns or raises [MKUserError(varprefix)], nothing
    else. *)
Definition only_MKUserError (varprefix : string) (c : result unit) : Prop :=
  c = Ok tt \/ c = Raise (MKUserError varprefix).

(** The strings of a list, one after the other. *)
Definition str_concat (l : list string) : string := fold_right append "" l.

(** * Properties *)

(** ** The error monad *)

Lemma result_unit_cases (c : result unit) : c = Ok tt \/ exists e, c = Raise e.
Proof.
  destruct c as [[]|e]; [left; reflexivity | right; exists e; reflexivity].
Qed.

Lemma bind_Ok {A B : Type} (a : A) (k : A -> result B) : bind (Ok a) k = k a.
Proof. reflexivity. Qed.

Lemma seq_ok_iff (c k : result unit) :
  (c ;;; k) = Ok tt <-> c = Ok tt /\ k = Ok tt.
Proof.
  destruct c as [[]|e]; simpl; split.
  - intro H; split; [reflexivity | exact H].
  - intros [_ H]; exact H.
  - discriminate.
  - intros [H _]; discriminate.
Qed.

Lemma seq_raise_inv (c k : result unit) (e : exc) :
  (c ;;; k) = Raise e -> c = Raise e \/ (c = Ok tt /\ k = Raise e).
Proof.
  destruct c as [[]|e']; simpl; intro H.
  - right; split; [reflexivity | exact H].
  - left; exact H.
Qed.

Lemma returns_not_raises {A : Type} (c : result A) : returns c -> ~ raises c.
Proof.
  intros [a Ha] [e He]. rewrite Ha in He. discriminate.
Qed.

(** ** Equality with a string *)

Lemma py_eq_PStr_r (k : pyval) (s : string) :
  py_eq k (PStr s) = true <-> k = PStr s.
Proof.
  destruct k; simpl; split; intro H; try discriminate.
  - apply String.eqb_eq in H. now subst.
  - inversion H. apply String.eqb_refl.
Qed.

Lemma py_eq_PStr (s t : string) : py_eq (PStr s) (PStr t) = String.eqb s t.
Proof. reflexivity. Qed.

Lemma str_in_In (name : string) (names : list string) :
  str_in name names = true <-> In name names.
Proof.
  unfold str_in. rewrite existsb_exists. split.
  - intros [x [Hin Heq]]. apply String.eqb_eq in Heq. now subst.
  - intro Hin. exists name. split; [exact Hin | apply String.eqb_refl].
Qed.

Lemma py_in_strs_In (key : pyval) (names : list string) :
  py_in_strs key names = true <-> exists n, In n names /\ key = PStr n.
Proof.
  unfold py_in_strs. rewrite existsb_exists. split.
  - intros [n [Hin Heq]]. exists n. split; [exact Hin|]. now apply py_eq_PStr_r.
  - intros [n [Hin Heq]]. exists n. split; [exact Hin|]. now apply py_eq_PStr_r.
Qed.

(** ** Equality and NaN *)

(** A value that holds a NaN is equal to no value, itself included: what
    [py_eq] finds equal to itself holds no NaN. *)
Lemma py_eq_holds_nan :
  forall v w : pyval, holds_nan v = true -> py_eq v w = false.
Proof.
  fix IH 1. intros v w H. destruct v as [| | |f| |l|l|d]; try discriminate H.
  - destruct f; try discriminate H. simpl.
    destruct (as_number w) as [[z|g]|]; reflexivity.
  - destruct w as [| | | | |m| |]; try reflexivity. revert m.
    induction l as [|x l IHl]; intro m; [discriminate H|].
    destruct m as [|y m]; [reflexivity|].
    simpl in H. apply orb_true_iff in H. destruct H as [Hx|Hl].
    + simpl. now rewrite (IH x y Hx).
    + simpl. simpl in IHl. rewrite (IHl Hl m). apply andb_false_r.
  - destruct w as [| | | | | |m|]; try reflexivity. revert m.
    induction l as [|x l IHl]; intro m; [discriminate H|].
    destruct m as [|y m]; [reflexivity|].
    simpl in H. apply orb_true_iff in H. destruct H as [Hx|Hl].
    + simpl. now rewrite (IH x y Hx).
    + simpl. simpl in IHl. rewrite (IHl Hl m). apply andb_false_r.
  - destruct w as [| | | | | | |e]; try reflexivity.
    simpl. apply andb_false_iff. right.
    induction d as [|[k v] d IHd]; [discriminate H|].
    simpl in H. apply orb_true_iff in H. destruct H as [H|Hd].
    + apply andb_false_iff. left. apply orb_true_iff in H.
      clear IHd. induction e as [|[k' w'] e IHe]; [reflexivity|].
      destruct H as [Hk|Hv].
      * rewrite (IH k k' Hk). apply IHe.
      * destruct (py_eq k k'); [apply (IH v w' Hv)|apply IHe].
    + apply andb_false_iff. right. apply (IHd Hd).
Qed.

Lemma py_eq_self_no_nan (v : pyval) : py_eq v v = true -> holds_nan v = false.
Proof.
  intro H. destruct (holds_nan v) eqn:E; [|reflexivity].
  rewrite (py_eq_holds_nan v v E) in H. discriminate.
Qed.

(** ** Tuple.validate_datatype *)

Section TupleFacts.

Variable varprefix : string.

Lemma Tuple_validate_elements_ok (es : list ValueSpec) :
  forall (vals : list pyval) (no : nat),
    List.length vals = List.length es ->
    (Tuple_validate_elements varprefix no es vals = Ok tt <->
     forall i element val,
       nth_error es i = Some element -> nth_error vals i = Some val ->
       Tuple_component varprefix (no + i) element val = Ok tt).
Proof.
  induction es as [|element es IH]; intros vals no Hlen.
  - destruct vals; [|discriminate]. simpl. split; [|reflexivity].
    intros _ i element val H. destruct i; discriminate.
  - destruct vals as [|val vals]; [discriminate|].
    simpl in Hlen. injection Hlen as Hlen. simpl.
    rewrite seq_ok_iff, (IH vals (S no) Hlen). split.
    + intros [H0 Hrest] i element' val' He Hv. destruct i as [|i]; simpl in He, Hv.
      * injection He as <-. injection Hv as <-.
        unfold Tuple_component. now rewrite Nat.add_0_r.
      * rewrite Nat.add_succ_r. apply (Hrest i element' val' He Hv).
    + intro H. split.
      * specialize (H 0%nat element val eq_refl eq_refl).
        unfold Tuple_component in H. now rewrite Nat.add_0_r in H.
      * intros i element' val' He Hv.
        specialize (H (S i) element' val' He Hv).
        now rewrite Nat.add_succ_r in H.
Qed.

(** A raised exception is that of the first failing component. *)
Lemma Tuple_validate_elements_raise (es : list ValueSpec) :
  forall (vals : list pyval) (no : nat) (e : exc),
    Tuple_validate_elements varprefix no es vals = Raise e ->
    exists i element val,
      nth_error es i = Some element /\ nth_error vals i = Some val /\
      Tuple_component varprefix (no + i) element val = Raise e /\
      forall j element' val',
        (j < i)%nat -> nth_error es j = Some element' ->
        nth_error vals j = Some val' ->
        Tuple_component varprefix (no + j) element' val' = Ok tt.
Proof.
  induction es as [|element es IH]; intros vals no e H.
  - simpl in H. discriminate.
  - destruct vals as [|val vals]; [simpl in H; discriminate|].
    simpl in H. apply seq_raise_inv in H. destruct H as [H|[H0 H]].
    + exists 0%nat, element, val. repeat split.
      * unfold Tuple_component. now rewrite Nat.add_0_r.
      * intros j element' val' Hj. lia.
    + destruct (IH vals (S no) e H) as (i & element' & val' & He & Hv & Hc & Hbefore).
      exists (S i), element', val'. repeat split; try assumption.
      * now rewrite Nat.add_succ_r.
      * intros j element'' val'' Hj He' Hv'. destruct j as [|j]; simpl in He', Hv'.
        -- injection He' as <-. injection Hv' as <-.
           unfold Tuple_component. now rewrite Nat.add_0_r.
        -- rewrite Nat.add_succ_r. apply (Hbefore j); [lia | assumption | assumption].
Qed.

End TupleFacts.

(** C3, as stated, fails when the check of an element raises another
    exception: a component that fails the check of its element need not
    make the [Tuple] raise [MKUserError].  With [Tuple([Transform(Integer(), forth=lambda v: v[0]),
    Integer()])] and the value [(5, "x")], the first component fails
    with the [TypeError] of [5[0]], and that is what the [Tuple]
    raises. *)
Lemma Tuple_component_failure_is_not_MKUserError :
  let first :=
    Transform (Integer None None) None (Some (fun v => py_getitem_int v 0)) None in
  let self := Tuple [first; Integer None None] None in
  let value := PTuple [PInt 5; PStr "x"] in
  Tuple_component "p" 0 first (PInt 5) = Raise TypeError
  /\ validate_datatype self value "p" = Raise TypeError
  /\ ~ raises_MKUserError (validate_datatype self value "p").
Proof.
  cbv zeta. split; [reflexivity|]. split; [reflexivity|].
  intros [varname H]. discriminate.
Qed.

(** C3, amended. [Tuple.validate_datatype(value, varprefix)] raises
    [MKUserError(varprefix, ...)] when [value] is not a tuple or when its
    length is not the number of elements; when some component fails the
    datatype check of its element, it raises the exception of the first
    failing component, which is an [MKUserError] when the checks of the
    elements raise nothing else on the components; and it returns
    exactly when [value] is a tuple of the right length whose every
    component passes the datatype check of the corresponding element
    (called with [varprefix + "_" + str(no)]). *)
Theorem Tuple_validate_datatype_correct :
  forall (elements : list ValueSpec) (_default_value : option default_arg)
         (value : pyval) (varprefix : string),
    let self := Tuple elements _default_value in
    (isinstance_tuple value = false ->
       validate_datatype self value varprefix = Raise (MKUserError varprefix))
    /\ (forall vals, value = PTuple vals ->
          List.length vals <> List.length elements ->
          validate_datatype self value varprefix = Raise (MKUserError varprefix))
    /\ (forall vals i element val e,
          value = PTuple vals -> List.length vals = List.length elements ->
          nth_error elements i = Some element -> nth_error vals i = Some val ->
          Tuple_component varprefix i element val = Raise e ->
          exists j element' val' e',
            (j <= i)%nat /\
            nth_error elements j = Some element' /\ nth_error vals j = Some val' /\
            Tuple_component varprefix j element' val' = Raise e' /\
            (forall k element'' val'',
                (k < j)%nat -> nth_error elements k = Some element'' ->
                nth_error vals k = Some val'' ->
                Tuple_component varprefix k element'' val'' = Ok tt) /\
            validate_datatype self value varprefix = Raise e')
    /\ (forall vals i element val e,
          value = PTuple vals -> List.length vals = List.length elements ->
          nth_error elements i = Some element -> nth_error vals i = Some val ->
          Tuple_component varprefix i element val = Raise e ->
          (forall j element' val' e',
              nth_error elements j = Some element' -> nth_error vals j = Some val' ->
              Tuple_component varprefix j element' val' = Raise e' ->
              exists varname, e' = MKUserError varname) ->
          raises_MKUserError (validate_datatype self value varprefix))
    /\ (validate_datatype self value varprefix = Ok tt <->
        exists vals,
          value = PTuple vals /\ List.length vals = List.length elements /\
          forall i element val,
            nth_error elements i = Some element -> nth_error vals i = Some val ->
            Tuple_component varprefix i element val = Ok tt).
Proof.
  intros elements d value varprefix self. unfold self.
  cbn [validate_datatype Tuple].
  assert (Hfirst : forall vals i element val e,
    List.length vals = List.length elements ->
    nth_error elements i = Some element -> nth_error vals i = Some val ->
    Tuple_component varprefix i element val = Raise e ->
    exists j element' val' e',
      (j <= i)%nat /\
      nth_error elements j = Some element' /\ nth_error vals j = Some val' /\
      Tuple_component varprefix j element' val' = Raise e' /\
      (forall k element'' val'',
          (k < j)%nat -> nth_error elements k = Some element'' ->
          nth_error vals k = Some val'' ->
          Tuple_component varprefix k element'' val'' = Ok tt) /\
      Tuple_validate_datatype elements (PTuple vals) varprefix = Raise e').
  { intros vals i element val e Hlen He Hv Hc. unfold Tuple_validate_datatype.
    apply Nat.eqb_eq in Hlen as Hlenb. rewrite Hlenb. cbn [negb].
    destruct (result_unit_cases (Tuple_validate_elements varprefix 0 elements vals))
      as [Hok|[e' Hr]].
    - pose proof (proj1 (Tuple_validate_elements_ok varprefix elements vals 0%nat Hlen)
                    Hok i element val He Hv) as Hi.
      simpl in Hi. congruence.
    - destruct (Tuple_validate_elements_raise varprefix elements vals 0%nat e' Hr)
        as (j & element' & val' & He' & Hv' & Hc' & Hbefore).
      simpl in Hc', Hbefore. exists j, element', val', e'.
      split; [|split; [exact He'|split; [exact Hv'|split; [exact Hc'|
              split; [exact Hbefore|exact Hr]]]]].
      destruct (Nat.le_gt_cases j i) as [Hle|Hgt]; [exact Hle|].
      specialize (Hbefore i element val Hgt He Hv). congruence. }
  split; [|split; [|split; [|split; [|split]]]].
  - intro Hty. destruct value; simpl in Hty; try discriminate; reflexivity.
  - intros vals -> Hlen. simpl.
    apply Nat.eqb_neq in Hlen. now rewrite Hlen.
  - intros vals i element val e -> Hlen He Hv Hc.
    exact (Hfirst vals i element val e Hlen He Hv Hc).
  - intros vals i element val e -> Hlen He Hv Hc Honly.
    destruct (Hfirst vals i element val e Hlen He Hv Hc)
      as (j & element' & val' & e' & _ & He' & Hv' & Hc' & _ & Hr).
    destruct (Honly j element' val' e' He' Hv' Hc') as [varname ->].
    exists varname. exact Hr.
  - intro H. destruct value; simpl in H; try discriminate.
    destruct (Nat.eqb (List.length items) (List.length elements)) eqn:Hlen;
      simpl in H; [|discriminate].
    apply Nat.eqb_eq in Hlen. exists items. repeat split; [exact Hlen|].
    exact (proj1 (Tuple_validate_elements_ok varprefix elements items 0%nat Hlen) H).
  - intros (vals & -> & Hlen & Hall). simpl.
    apply Nat.eqb_eq in Hlen as Hlenb. rewrite Hlenb. simpl.
    exact (proj2 (Tuple_validate_elements_ok varprefix elements vals 0%nat Hlen) Hall).
Qed.

(** ** Dictionary.validate_datatype *)

Lemma reraise_MKUserError (c : result unit) :
  try_except c
    (fun e => match e with
              | MKUserError varname => Raise (MKUserError varname)
              | _ => Raise e
              end) = c.
Proof.
  destruct c as [u|e]; [reflexivity|]. destruct e; reflexivity.
Qed.

Section DictionaryFacts.

Variable self : DictionaryAttrs.
Variable value : list (pyval * pyval).
Variable varprefix : string.

Lemma Dictionary_validate_elements_ok (elements : list (string * ValueSpec)) :
  Dictionary_validate_elements self value varprefix elements = Ok tt <->
  forall param vs, In (param, vs) elements -> Dictionary_element_ok self value varprefix param vs.
Proof.
  induction elements as [|[param vs] rest IH]; simpl.
  - split; [intros _ p v []|reflexivity].
  - unfold Dictionary_element_ok in *.
    destruct (dict_get value (PStr param)) as [entry|] eqn:Hget.
    + rewrite reraise_MKUserError, seq_ok_iff, IH. split.
      * intros [H0 Hrest] p v [Heq|Hin].
        -- injection Heq as <- <-. now rewrite Hget.
        -- now apply Hrest.
      * intro H. split.
        -- specialize (H param vs (or_introl eq_refl)). now rewrite Hget in H.
        -- intros p v Hin. apply H. now right.
    + destruct (Dictionary_required self param) eqn:Hreq.
      * split; [discriminate|]. intro H.
        specialize (H param vs (or_introl eq_refl)). rewrite Hget in H. congruence.
      * rewrite IH. split.
        -- intros Hrest p v [Heq|Hin].
           ++ injection Heq as <- <-. now rewrite Hget.
           ++ now apply Hrest.
        -- intros H p v Hin. apply H. now right.
Qed.

Lemma Dictionary_validate_elements_raise (elements : list (string * ValueSpec))
    (e : exc) :
  Dictionary_validate_elements self value varprefix elements = Raise e ->
  (e = MKUserError varprefix /\
   exists param vs, In (param, vs) elements /\
     dict_get value (PStr param) = None /\ Dictionary_required self param = true)
  \/ (exists param vs entry,
        In (param, vs) elements /\ dict_get value (PStr param) = Some entry /\
        validate_datatype vs entry (varprefix ++ "_p_" ++ param) = Raise e).
Proof.
  induction elements as [|[param vs] rest IH]; simpl; [discriminate|].
  destruct (dict_get value (PStr param)) as [entry|] eqn:Hget.
  - rewrite reraise_MKUserError. intro H. apply seq_raise_inv in H.
    destruct H as [H|[_ H]].
    + right. exists param, vs, entry. auto.
    + destruct (IH H) as [[He (p & v & Hin & Hg & Hr)]|(p & v & en & Hin & Hg & Hr)].
      * left. split; [exact He|]. exists p, v. auto.
      * right. exists p, v, en. auto.
  - destruct (Dictionary_required self param) eqn:Hreq.
    + intro H. injection H as <-. left. split; [reflexivity|].
      exists param, vs. auto.
    + intro H.
      destruct (IH H) as [[He (p & v & Hin & Hg & Hr)]|(p & v & en & Hin & Hg & Hr)].
      * left. split; [exact He|]. exists p, v. auto.
      * right. exists p, v, en. auto.
Qed.

Lemma Dictionary_check_exceeding_ok (allowed_keys : list string) (keys : list pyval) :
  Dictionary_check_exceeding allowed_keys varprefix keys = Ok tt <->
  forall key, In key keys -> py_in_strs key allowed_keys = true.
Proof.
  induction keys as [|key rest IH]; simpl.
  - split; [intros _ k []|reflexivity].
  - destruct (py_in_strs key allowed_keys) eqn:Hin; simpl.
    + rewrite IH. split.
      * intros H k [<-|Hk]; [exact Hin | now apply H].
      * intros H k Hk. apply H. now right.
    + split; [discriminate|]. intro H.
      specialize (H key (or_introl eq_refl)). congruence.
Qed.

Lemma Dictionary_check_exceeding_raise (allowed_keys : list string)
    (keys : list pyval) (e : exc) :
  Dictionary_check_exceeding allowed_keys varprefix keys = Raise e ->
  e = MKUserError varprefix.
Proof.
  induction keys as [|key rest IH]; simpl; [discriminate|].
  destruct (py_in_strs key allowed_keys); simpl; [exact IH|].
  intro H. now injection H as <-.
Qed.

End DictionaryFacts.

(** The keys a [Dictionary] built by the constructor requires: with
    [optional_keys] given as a boolean, those of [required_keys], or all
    of them when the boolean is false. *)
Lemma Dictionary_required_of_bool (elements : list (string * ValueSpec))
    (b : bool) (required_keys ignored_keys default_keys : option (list string))
    (migrate : option (pyval -> result pyval)) (param : string) :
  Dictionary_required
    (Dictionary___init__ elements (OptionalKeysBool b) required_keys ignored_keys
       default_keys migrate) param
  = negb b || str_in param (or_empty required_keys).
Proof.
  destruct b; reflexivity.
Qed.

(** C4, as stated, fails when the check of an entry raises another
    exception: only the [MKUserError] of an entry is caught, so another
    exception of an entry's check leaves [validate_datatype] as it is,
    before the missing keys after it and the undeclared keys are looked
    at.  With [Dictionary([("a",
    Transform(Integer(), forth=lambda v: v[0])), ("b", Integer())],
    optional_keys=False)], the value [{"a": 5}] lacks the required key
    ["b"] and [{"a": 5, "b": 1, "c": 1}] holds the undeclared key ["c"];
    both raise the [TypeError] of [5[0]]. *)
Lemma Dictionary_entry_failure_is_not_MKUserError :
  let a := Transform (Integer None None) None (Some (fun v => py_getitem_int v 0)) None in
  let self :=
    Dictionary [("a", a); ("b", Integer None None)] (OptionalKeysBool false)
      None None None None None in
  let missing := PDict [(PStr "a", PInt 5)] in
  let exceeding := PDict [(PStr "a", PInt 5); (PStr "b", PInt 1); (PStr "c", PInt 1)] in
  validate_datatype a (PInt 5) "p_p_a" = Raise TypeError
  /\ (validate_datatype self missing "p" = Raise TypeError
      /\ ~ raises_MKUserError (validate_datatype self missing "p"))
  /\ (validate_datatype self exceeding "p" = Raise TypeError
      /\ ~ raises_MKUserError (validate_datatype self exceeding "p")).
Proof.
  cbv zeta. split; [reflexivity|].
  split; (split; [reflexivity|]); intros [varname H]; discriminate.
Qed.

(** C4, amended. [Dictionary.validate_datatype(value, varprefix)] raises
    [MKUserError] when the migrated value is not a dict.  It raises when
    a declared key that is required ([_optional_keys] false, or the key
    in [_required_keys]) is absent, when the entry of a present declared
    key fails the datatype check of its element, or when the value has a
    key that is neither declared nor in [_ignored_keys]; every exception
    it raises after the migration is [MKUserError(varprefix)] or the
    exception of such an entry, so that it raises [MKUserError] in these
    three cases when the checks of the entries raise nothing else;
    otherwise it returns. *)
Theorem Dictionary_validate_datatype_correct :
  forall (self : DictionaryAttrs) (_default_value : option default_arg)
         (value : pyval) (varprefix : string),
    let vs := Dictionary_of_attrs self _default_value in
    (forall value',
        Dictionary_migrate self value = Ok value' -> isinstance_dict value' = false ->
        validate_datatype vs value varprefix = Raise (MKUserError varprefix))
    /\ (forall items,
          Dictionary_migrate self value = Ok (PDict items) ->
          (forall param element,
              In (param, element) (_elements self) ->
              dict_contains items (PStr param) = false ->
              Dictionary_required self param = true ->
              raises (validate_datatype vs value varprefix))
          /\ (forall param element entry e,
                In (param, element) (_elements self) ->
                dict_get items (PStr param) = Some entry ->
                validate_datatype element entry (varprefix ++ "_p_" ++ param) = Raise e ->
                raises (validate_datatype vs value varprefix))
          /\ (forall key,
                In key (dict_keys items) ->
                py_in_strs key (Dictionary_allowed_keys self) = false ->
                raises (validate_datatype vs value varprefix))
          /\ (forall e,
                validate_datatype vs value varprefix = Raise e ->
                e = MKUserError varprefix
                \/ exists param element entry,
                    In (param, element) (_elements self) /\
                    dict_get items (PStr param) = Some entry /\
                    validate_datatype element entry (varprefix ++ "_p_" ++ param)
                    = Raise e)
          /\ ((forall param element entry e,
                  In (param, element) (_elements self) ->
                  dict_get items (PStr param) = Some entry ->
                  validate_datatype element entry (varprefix ++ "_p_" ++ param)
                  = Raise e ->
                  exists varname, e = MKUserError varname) ->
              (forall param element,
                  In (param, element) (_elements self) ->
                  dict_contains items (PStr param) = false ->
                  Dictionary_required self param = true ->
                  raises_MKUserError (validate_datatype vs value varprefix))
              /\ (forall param element entry e,
                    In (param, element) (_elements self) ->
                    dict_get items (PStr param) = Some entry ->
                    validate_datatype element entry (varprefix ++ "_p_" ++ param)
                    = Raise e ->
                    raises_MKUserError (validate_datatype vs value varprefix))
              /\ (forall key,
                    In key (dict_keys items) ->
                    py_in_strs key (Dictionary_allowed_keys self) = false ->
                    raises_MKUserError (validate_datatype vs value varprefix)))
          /\ (validate_datatype vs value varprefix = Ok tt <->
              (forall param element,
                  In (param, element) (_elements self) ->
                  Dictionary_element_ok self items varprefix param element)
              /\ (forall key,
                    In key (dict_keys items) ->
                    py_in_strs key (Dictionary_allowed_keys self) = true))).
Proof.
  intros self d value varprefix vs. unfold vs.
  cbn [validate_datatype Dictionary_of_attrs].
  unfold Dictionary_validate_datatype, Dictionary__get_elements. split.
  - intros value' -> Hty. cbn [bind].
    destruct value'; simpl in Hty; try discriminate; reflexivity.
  - intros items ->. cbn [bind].
    assert (Hok :
      (Dictionary_validate_elements self items varprefix (_elements self) ;;;
       Dictionary_check_exceeding (Dictionary_allowed_keys self) varprefix
         (dict_keys items)) = Ok tt <->
      (forall param element,
          In (param, element) (_elements self) ->
          Dictionary_element_ok self items varprefix param element)
      /\ (forall key,
            In key (dict_keys items) ->
            py_in_strs key (Dictionary_allowed_keys self) = true)).
    { now rewrite seq_ok_iff, Dictionary_validate_elements_ok,
        Dictionary_check_exceeding_ok. }
    assert (Hraise : forall P : Prop,
      (((forall param element,
          In (param, element) (_elements self) ->
          Dictionary_element_ok self items varprefix param element)
       /\ (forall key,
            In key (dict_keys items) ->
            py_in_strs key (Dictionary_allowed_keys self) = true)) -> False) ->
      raises (Dictionary_validate_elements self items varprefix (_elements self) ;;;
              Dictionary_check_exceeding (Dictionary_allowed_keys self) varprefix
                (dict_keys items))).
    { intros _ Hno.
      destruct (result_unit_cases
        (Dictionary_validate_elements self items varprefix (_elements self) ;;;
         Dictionary_check_exceeding (Dictionary_allowed_keys self) varprefix
           (dict_keys items))) as [H|[e H]].
      - exfalso. apply Hno. now apply Hok.
      - exists e. exact H. }
    assert (Hexc : forall e,
      (Dictionary_validate_elements self items varprefix (_elements self) ;;;
       Dictionary_check_exceeding (Dictionary_allowed_keys self) varprefix
         (dict_keys items)) = Raise e ->
      e = MKUserError varprefix
      \/ exists param element entry,
          In (param, element) (_elements self) /\
          dict_get items (PStr param) = Some entry /\
          validate_datatype element entry (varprefix ++ "_p_" ++ param) = Raise e).
    { intros e H. apply seq_raise_inv in H. destruct H as [H|[_ H]].
      - apply Dictionary_validate_elements_raise in H.
        destruct H as [[He _]|(p & v & en & Hin & Hg & Hr)].
        + now left.
        + right. exists p, v, en. auto.
      - left. now apply Dictionary_check_exceeding_raise in H. }
    assert (Habsent : forall param element,
      In (param, element) (_elements self) ->
      dict_contains items (PStr param) = false ->
      Dictionary_required self param = true ->
      raises (Dictionary_validate_elements self items varprefix (_elements self) ;;;
              Dictionary_check_exceeding (Dictionary_allowed_keys self) varprefix
                (dict_keys items))).
    { intros param element Hin Habsent Hreq. apply (Hraise True).
      intros [Hel _]. specialize (Hel param element Hin).
      unfold Dictionary_element_ok, dict_contains in *.
      destruct (dict_get items (PStr param)); congruence. }
    assert (Hentry : forall param element entry e,
      In (param, element) (_elements self) ->
      dict_get items (PStr param) = Some entry ->
      validate_datatype element entry (varprefix ++ "_p_" ++ param) = Raise e ->
      raises (Dictionary_validate_elements self items varprefix (_elements self) ;;;
              Dictionary_check_exceeding (Dictionary_allowed_keys self) varprefix
                (dict_keys items))).
    { intros param element entry e Hin Hget Hfail. apply (Hraise True).
      intros [Hel _]. specialize (Hel param element Hin).
      unfold Dictionary_element_ok in Hel. rewrite Hget in Hel. congruence. }
    assert (Hkey : forall key,
      In key (dict_keys items) ->
      py_in_strs key (Dictionary_allowed_keys self) = false ->
      raises (Dictionary_validate_elements self items varprefix (_elements self) ;;;
              Dictionary_check_exceeding (Dictionary_allowed_keys self) varprefix
                (dict_keys items))).
    { intros key Hkey Hnot. apply (Hraise True).
      intros [_ Hkeys]. specialize (Hkeys key Hkey). congruence. }
    split; [exact Habsent|]. split; [exact Hentry|]. split; [exact Hkey|].
    split; [exact Hexc|]. split; [|exact Hok].
    intro Honly.
    assert (Hmk : forall c : result unit,
      c = (Dictionary_validate_elements self items varprefix (_elements self) ;;;
           Dictionary_check_exceeding (Dictionary_allowed_keys self) varprefix
             (dict_keys items)) ->
      raises c -> raises_MKUserError c).
    { intros c -> [e He]. destruct (Hexc e He) as [->|(p & v & en & Hin & Hg & Hr)].
      - exists varprefix. exact He.
      - destruct (Honly p v en e Hin Hg Hr) as [varname ->].
        exists varname. exact He. }
    split; [|split].
    + intros param element Hin Ha Hreq.
      exact (Hmk _ eq_refl (Habsent param element Hin Ha Hreq)).
    + intros param element entry e Hin Hget Hfail.
      exact (Hmk _ eq_refl (Hentry param element entry e Hin Hget Hfail)).
    + intros key Hk Hnot. exact (Hmk _ eq_refl (Hkey key Hk Hnot)).
Qed.

(** ** Transform *)

(** C5. A [Transform] around [vs] answers [canonical_value()] and
    [default_value()] with [back] applied to the answer of [vs] (whatever
    [default_value] argument it was built with), [value_to_text(v)] with
    [vs.value_to_text(forth(v))], and [validate_datatype(v, p)] with
    [vs.validate_datatype(forth(v), p)], so that it raises exactly the
    exception the wrapped check raises; [forth] and [back] are the
    identity when they were not given. *)
Theorem Transform_delegates :
  forall (vs : ValueSpec) (back forth : option (pyval -> result pyval))
         (_default_value : option default_arg),
    let self := Transform vs back forth _default_value in
    canonical_value self = (v <- canonical_value vs ;; Transform_back back v)
    /\ default_value self = (v <- default_value vs ;; Transform_back back v)
    /\ (forall inner_value_to_text v,
           Transform_value_to_text forth inner_value_to_text v
           = (w <- Transform_forth forth v ;; inner_value_to_text w))
    /\ (forall v p,
           validate_datatype self v p
           = (w <- Transform_forth forth v ;; validate_datatype vs w p))
    /\ (forall v, Transform_forth None v = Ok v /\ Transform_back None v = Ok v)
    /\ (forall f v, Transform_forth (Some (total f)) v = Ok (f v)
                    /\ Transform_back (Some (total f)) v = Ok (f v))
    /\ (forall w v p e,
           Transform_forth forth v = Ok w ->
           (validate_datatype self v p = Raise e <-> validate_datatype vs w p = Raise e))
    /\ (forall w v p,
           Transform_forth forth v = Ok w ->
           (validate_datatype self v p = Ok tt <-> validate_datatype vs w p = Ok tt)).
Proof.
  intros vs back forth d self. unfold self.
  cbn [canonical_value default_value validate_datatype Transform].
  unfold Transform_canonical_value, Transform_default_value,
    Transform_validate_datatype, Transform_value_to_text.
  do 6 (split; [repeat split; reflexivity|]).
  split.
  - intros w v p e Hforth. rewrite Hforth. reflexivity.
  - intros w v p Hforth. rewrite Hforth. reflexivity.
Qed.

(** With conversions that cannot raise, in the words of the claim. *)
Corollary Transform_total :
  forall (vs : ValueSpec) (back forth : pyval -> pyval)
         (_default_value : option default_arg) (c d : pyval),
    canonical_value vs = Ok c -> default_value vs = Ok d ->
    let self := Transform vs (Some (total back)) (Some (total forth)) _default_value in
    canonical_value self = Ok (back c)
    /\ default_value self = Ok (back d)
    /\ (forall v p, validate_datatype self v p = validate_datatype vs (forth v) p).
Proof.
  intros vs back forth dv c d Hc Hd self. unfold self.
  cbn [canonical_value default_value validate_datatype Transform].
  unfold Transform_canonical_value, Transform_default_value,
    Transform_validate_datatype.
  rewrite Hc, Hd. repeat split.
Qed.

(** ** Age.value_to_text *)

Lemma Age_parts_filter (translate : string -> string) (d h m s : Z) :
  Age_parts [(translate "days", d); (translate "hours", h);
             (translate "minutes", m); (translate "seconds", s)]
  = map (fun e => fmt_d (snd e) ++ " " ++ translate (fst e))
      (filter (fun e => negb (snd e =? 0))
         [("days", d); ("hours", h); ("minutes", m); ("seconds", s)]).
Proof.
  cbn [Age_parts filter map fst snd].
  destruct (d =? 0), (h =? 0), (m =? 0), (s =? 0); reflexivity.
Qed.

Lemma Age_text_of_parts (translate : string -> string) (d h m s : Z) :
  match Age_parts [(translate "days", d); (translate "hours", h);
                   (translate "minutes", m); (translate "seconds", s)] with
  | _ :: _ =>
      String.concat " "
        (Age_parts [(translate "days", d); (translate "hours", h);
                    (translate "minutes", m); (translate "seconds", s)])
  | [] => translate "no time"
  end = Age_text_spec translate d h m s.
Proof.
  unfold Age_text_spec. rewrite Age_parts_filter.
  cbn [filter map fst snd].
  destruct (d =? 0), (h =? 0), (m =? 0), (s =? 0); reflexivity.
Qed.

(** C6. For [n >= 0], [Age.value_to_text(n)] renders the one
    decomposition [n = 86400*d + 3600*h + 60*m + s] with [h < 24],
    [m < 60], [s < 60]: the parts that are not zero, in the order days,
    hours, minutes, seconds, each as ["<count> <unit>"], joined by one
    space, and the text for "no time" when [n = 0]. *)
Theorem Age_value_to_text_correct :
  forall (translate : string -> string) (n : Z),
    0 <= n ->
    exists d h m s : Z,
      (n = 86400 * d + 3600 * h + 60 * m + s
       /\ 0 <= d /\ 0 <= h < 24 /\ 0 <= m < 60 /\ 0 <= s < 60)
      /\ (forall d' h' m' s' : Z,
             n = 86400 * d' + 3600 * h' + 60 * m' + s' ->
             0 <= h' < 24 -> 0 <= m' < 60 -> 0 <= s' < 60 ->
             d' = d /\ h' = h /\ m' = m /\ s' = s)
      /\ Age_value_to_text translate n = Age_text_spec translate d h m s
      /\ (n = 0 -> Age_value_to_text translate n = translate "no time").
Proof.
  intros translate n Hn.
  exists (n / 86400), ((n mod 86400) / 3600), (((n mod 86400) mod 3600) / 60),
    (((n mod 86400) mod 3600) mod 60).
  split; [|split; [|split]].
  - Z.to_euclidean_division_equations. lia.
  - intros d' h' m' s' Hdec Hh Hm Hs.
    Z.to_euclidean_division_equations. lia.
  - unfold Age_value_to_text, divmod.
    change (60 * 60 * 24) with 86400. change (60 * 60) with 3600.
    apply Age_text_of_parts.
  - intros ->. reflexivity.
Qed.

Lemma Age_value_to_text_witness :
  exists d h m s : Z,
    (90061 = 86400 * d + 3600 * h + 60 * m + s
     /\ 0 <= d /\ 0 <= h < 24 /\ 0 <= m < 60 /\ 0 <= s < 60)
    /\ (forall d' h' m' s' : Z,
           90061 = 86400 * d' + 3600 * h' + 60 * m' + s' ->
           0 <= h' < 24 -> 0 <= m' < 60 -> 0 <= s' < 60 ->
           d' = d /\ h' = h /\ m' = m /\ s' = s)
    /\ Age_value_to_text (fun s => s) 90061 = Age_text_spec (fun s => s) d h m s
    /\ (90061 = 0 -> Age_value_to_text (fun s => s) 90061 = "no time").
Proof.
  apply (Age_value_to_text_correct (fun s => s) 90061). lia.
Defined.

Example Age_value_to_text_90061 :
  Age_value_to_text (fun s => s) 90061 = "1 days 1 hours 1 minutes 1 seconds".
Proof. reflexivity. Qed.

Example Age_value_to_text_3600 :
  Age_value_to_text (fun s => s) 3600 = "1 hours".
Proof. reflexivity. Qed.

Example Age_value_to_text_0 : Age_value_to_text (fun s => s) 0 = "no time".
Proof. reflexivity. Qed.

(** ** The EMC VNX storage pools parameters *)

Lemma Percentage_strict_datatype (value : pyval) (varprefix : string) :
  Percentage_validate_datatype false value varprefix = Ok tt <->
  exists f, value = PFloat f.
Proof.
  destruct value; simpl; split; intro H; try discriminate;
    try (destruct H; discriminate).
  - now exists f.
  - reflexivity.
Qed.

Lemma levels_pair_datatype (p q : option default_arg) (entry : pyval)
    (varprefix : string) :
  validate_datatype
    (Tuple [Percentage false Percentage_minvalue_default p;
            Percentage false Percentage_minvalue_default q] None)
    entry varprefix = Ok tt <->
  exists a b, entry = PTuple [PFloat a; PFloat b].
Proof.
  cbn [validate_datatype Tuple]. unfold Tuple_validate_datatype. split.
  - intro H. destruct entry as [| | | | | |vals|]; try discriminate.
    destruct vals as [|x [|y [|z vals]]]; try discriminate.
    cbn [List.length Nat.eqb negb Tuple_validate_elements validate_datatype Percentage] in H.
    apply seq_ok_iff in H. destruct H as [Hx H].
    apply seq_ok_iff in H. destruct H as [Hy _].
    apply Percentage_strict_datatype in Hx. apply Percentage_strict_datatype in Hy.
    destruct Hx as [a ->]. destruct Hy as [b ->]. now exists a, b.
  - intros (a & b & ->). reflexivity.
Qed.

(** C7. The registration binds the check group ["emcvnx_storage_pools"]
    to a [Dictionary] whose one key ["percent_full"] is optional and
    holds a [Tuple] of two [Percentage] fields with the default values
    70.0 and 90.0; its datatype check accepts exactly the dicts with no
    key other than ["percent_full"] whose entry under that key, when
    there is one, is a pair of floats; and its default value is the
    empty dict. *)
Theorem emcvnx_storage_pools_parameters :
  let levels :=
    Tuple [Percentage false Percentage_minvalue_default
             (Some (DefaultValue (PFloat float_70_0)));
           Percentage false Percentage_minvalue_default
             (Some (DefaultValue (PFloat float_90_0)))] None in
  let attrs :=
    Dictionary___init__ [("percent_full", levels)] (OptionalKeysBool true)
      None None None None in
  checkgroup emcvnx_storage_pools = "emcvnx_storage_pools"
  /\ valuespec emcvnx_storage_pools = Dictionary_of_attrs attrs None
  /\ Dictionary_required attrs "percent_full" = false
  /\ default_value levels = Ok (PTuple [PFloat float_70_0; PFloat float_90_0])
  /\ float_of_Z 70 = Ok float_70_0 /\ float_of_Z 90 = Ok float_90_0
  /\ (forall value varprefix,
         validate_datatype (valuespec emcvnx_storage_pools) value varprefix = Ok tt
         <-> exists items,
               value = PDict items
               /\ (forall key, In key (dict_keys items) -> key = PStr "percent_full")
               /\ (forall entry,
                      dict_get items (PStr "percent_full") = Some entry ->
                      exists a b, entry = PTuple [PFloat a; PFloat b]))
  /\ default_value (valuespec emcvnx_storage_pools) = Ok (PDict []).
Proof.
  intros levels attrs.
  do 6 (split; [reflexivity|]). split; [|reflexivity].
  intros value varprefix.
  change (valuespec emcvnx_storage_pools) with (Dictionary_of_attrs attrs None).
  cbn [validate_datatype Dictionary_of_attrs].
  unfold Dictionary_validate_datatype, Dictionary_migrate.
  cbn [_migrate attrs Dictionary___init__]. rewrite bind_Ok.
  destruct value as [| | | | | | |items];
    try (split; [discriminate | intros (its & H & _); discriminate]).
  rewrite seq_ok_iff, Dictionary_validate_elements_ok, Dictionary_check_exceeding_ok.
  split.
  - intros [Hel Hkeys]. exists items. split; [reflexivity|]. split.
    + intros key Hkey. specialize (Hkeys key Hkey).
      apply py_in_strs_In in Hkeys. destruct Hkeys as (n & [<-|[]] & ->). reflexivity.
    + intros entry Hget.
      specialize (Hel "percent_full" levels (or_introl eq_refl)).
      unfold Dictionary_element_ok in Hel. rewrite Hget in Hel.
      now apply levels_pair_datatype in Hel.
  - intros (items' & Heq & Hkeys & Hentry). injection Heq as <-. split.
    + intros param element [Heq|[]]. injection Heq as <- <-.
      unfold Dictionary_element_ok.
      destruct (dict_get items (PStr "percent_full")) as [entry|] eqn:Hget.
      * apply levels_pair_datatype. now apply Hentry.
      * reflexivity.
    + intros key Hkey. rewrite (Hkeys key Hkey). reflexivity.
Qed.

Example emcvnx_accepts_levels :
  validate_datatype (valuespec emcvnx_storage_pools)
    (PDict [(PStr "percent_full", PTuple [PFloat float_70_0; PFloat float_90_0])])
    "p" = Ok tt.
Proof. reflexivity. Qed.

Example emcvnx_rejects_int_level :
  validate_datatype (valuespec emcvnx_storage_pools)
    (PDict [(PStr "percent_full", PTuple [PFloat float_70_0; PInt 90])])
    "p" = Raise (MKUserError "p_p_percent_full_1").
Proof. reflexivity. Qed.

Example emcvnx_rejects_other_key :
  validate_datatype (valuespec emcvnx_storage_pools)
    (PDict [(PStr "levels", PInt 1)]) "p" = Raise (MKUserError "p").
Proof. reflexivity. Qed.

(** ** Level classification *)

Lemma append_empty_r (s : string) : s ++ "" = s.
Proof.
  induction s as [|c s IH]; simpl; [reflexivity | now rewrite IH].
Qed.

(** C8. [check_levels(value, dsname, params)] with the pair
    [(warn, crit)] gives status 0 below [warn], status 1 and the text
    [" (warn/crit at <warn>/<crit>)"] after the info text from [warn] up
    to [crit], and status 2 from [crit] on; with
    [(warn, crit, warn_low, crit_low)] it gives moreover status 2 below
    [crit_low] and status 1 below [warn_low], with
    [" (warn/crit below <warn_low>/<crit_low>)"] after the info text; the
    performance data entry is [(dsname, value, warn, crit)].  Where two
    of the ranges overlap the critical one wins and the upper one before
    the lower, which the side conditions spell out; they hold by
    themselves when [crit_low <= warn_low <= warn <= crit]. *)
Theorem check_levels_classification :
  forall (human_readable : Z -> string) (value : Z) (dsname : string)
         (infoname : option string) (warn crit warn_low crit_low : Z),
    let info :=
      (match infoname with Some n => n | None => dsname end)
        ++ ": " ++ human_readable value in
    let at_levels :=
      " (warn/crit at " ++ human_readable warn ++ "/" ++ human_readable crit ++ ")" in
    let below_levels :=
      " (warn/crit below " ++ human_readable warn_low ++ "/"
        ++ human_readable crit_low ++ ")" in
    let perf := [CheckApi.Perf4 dsname value warn crit] in
    let upper :=
      CheckApi.check_levels human_readable value dsname
        (CheckApi.Levels2 warn crit) infoname in
    let both :=
      CheckApi.check_levels human_readable value dsname
        (CheckApi.Levels4 warn crit warn_low crit_low) infoname in
    (value < warn -> value < crit -> upper = (0, info, perf))
    /\ (warn <= value < crit -> upper = (1, info ++ at_levels, perf))
    /\ (crit <= value -> upper = (2, info ++ at_levels, perf))
    /\ (crit <= value -> both = (2, info ++ at_levels, perf))
    /\ (value < crit -> value < crit_low -> both = (2, info ++ below_levels, perf))
    /\ (warn <= value < crit -> crit_low <= value ->
        both = (1, info ++ at_levels, perf))
    /\ (value < warn -> value < crit -> crit_low <= value < warn_low ->
        both = (1, info ++ below_levels, perf))
    /\ (value < warn -> value < crit -> crit_low <= value -> warn_low <= value ->
        both = (0, info, perf)).
Proof.
  intros hr value dsname infoname warn crit warn_low crit_low
    info at_levels below_levels perf upper both.
  unfold upper, both, CheckApi.check_levels, CheckApi._check_boundaries,
    CheckApi.levelsinfo.
  fold info.
  repeat split; intros;
    repeat match goal with
      | |- context [?a <=? ?b] =>
          let E := fresh "E" in
          destruct (a <=? b) eqn:E;
          [apply Z.leb_le in E | apply Z.leb_gt in E]; try lia
      | |- context [?a <? ?b] =>
          let E := fresh "E" in
          destruct (a <? b) eqn:E;
          [apply Z.ltb_lt in E | apply Z.ltb_ge in E]; try lia
      end;
    rewrite ?append_empty_r; reflexivity.
Qed.

(** The cases of [test_boundaries] and [test_check_levels] that use
    integers, with [str] as the rendering. *)
Example test_boundaries_1 :
  CheckApi._check_boundaries fmt_d 5 (CheckApi.Levels2 3 6)
  = (1, " (warn/crit at 3/6)").
Proof. reflexivity. Qed.

Example test_boundaries_3 :
  CheckApi._check_boundaries fmt_d 2 (CheckApi.Levels4 3 6 1 0) = (0, "").
Proof. reflexivity. Qed.

Example test_boundaries_4 :
  CheckApi._check_boundaries fmt_d 1 (CheckApi.Levels4 3 6 1 0) = (0, "").
Proof. reflexivity. Qed.

Example test_boundaries_5 :
  CheckApi._check_boundaries fmt_d 0 (CheckApi.Levels4 3 6 1 0)
  = (1, " (warn/crit below 1/0)").
Proof. reflexivity. Qed.

Example test_boundaries_6 :
  CheckApi._check_boundaries fmt_d (-1) (CheckApi.Levels4 3 6 1 0)
  = (2, " (warn/crit below 1/0)").
Proof. reflexivity. Qed.

Example test_check_levels_2 :
  CheckApi.check_levels (fun x => fmt_d x ++ ".00 years") 6 "disk"
    (CheckApi.Levels2 4 8) (Some "Disk Age")
  = (1, "Disk Age: 6.00 years (warn/crit at 4.00 years/8.00 years)",
     [CheckApi.Perf4 "disk" 6 4 8]).
Proof. reflexivity. Qed.

(** ** ValueSpec.default_value *)

(** Ten of the classes embedded here do not override [default_value]. *)
Lemma inherited_default_value :
  forall d : option default_arg,
    (forall v, inherits_default_value (FixedValue v d) d)
    /\ (forall m, inherits_default_value (Age m d) d)
    /\ (forall m, inherits_default_value (Integer m d) d)
    /\ (forall a m, inherits_default_value (Float a m d) d)
    /\ (forall a m, inherits_default_value (Percentage a m d) d)
    /\ inherits_default_value (Checkbox d) d
    /\ (forall n, inherits_default_value (TextAscii n d) d)
    /\ (forall vs, inherits_default_value (ListOfStrings vs d) d)
    /\ (forall c p pv pt, inherits_default_value (DropdownChoice c p pv pt d) d)
    /\ (forall vs n, inherits_default_value (Optional vs n d) d).
Proof.
  intro d. repeat split.
Qed.

(** C9, as stated, fails on the classes that override [default_value].
    A [Dictionary] built without a [default_value] argument, with an
    [Integer] under a key named in [default_keys], has the default value
    [{"a": 0}] and the canonical value [{}]; a [Tuple] built without a
    [default_value] argument around an [Integer] whose default is 5 has
    the default value [(5,)] and the canonical value [(0,)]. *)
Lemma overridden_default_value_is_not_canonical :
  let dictionary :=
    Dictionary [("a", Integer None None)] (OptionalKeysBool true) None None
      (Some ["a"]) None None in
  let tuple := Tuple [Integer None (Some (DefaultValue (PInt 5)))] None in
  (default_value dictionary = Ok (PDict [(PStr "a", PInt 0)])
   /\ canonical_value dictionary = Ok (PDict [])
   /\ default_value dictionary <> canonical_value dictionary)
  /\ (default_value tuple = Ok (PTuple [PInt 5])
      /\ canonical_value tuple = Ok (PTuple [PInt 0])
      /\ default_value tuple <> canonical_value tuple).
Proof.
  cbv zeta. repeat split; discriminate.
Qed.

(** C9, amended. For a valuespec of a class that does not override
    [default_value]: built without a [default_value] argument,
    [default_value()] is [canonical_value()]; built with a plain value, it
    is that value; built with a function, it is the result of that
    function; and when the function raises, it is [canonical_value()]
    again. *)
Theorem ValueSpec_default_value_correct :
  forall (vs : ValueSpec) (d : option default_arg),
    inherits_default_value vs d ->
    (d = None -> default_value vs = canonical_value vs)
    /\ (forall v, d = Some (DefaultValue v) -> default_value vs = Ok v)
    /\ (forall f v,
           d = Some (DefaultFunction f) -> f tt = Ok v -> default_value vs = Ok v)
    /\ (forall f e,
           d = Some (DefaultFunction f) -> f tt = Raise e ->
           default_value vs = canonical_value vs).
Proof.
  intros vs d H. unfold inherits_default_value in H.
  repeat split.
  - intro Hd. rewrite H, Hd. reflexivity.
  - intros v Hd. rewrite H, Hd. reflexivity.
  - intros f v Hd Hf. rewrite H, Hd.
    unfold ValueSpec_default_value. simpl. now rewrite Hf.
  - intros f e Hd Hf. rewrite H, Hd.
    unfold ValueSpec_default_value. simpl. now rewrite Hf.
Qed.

Lemma ValueSpec_default_value_witness :
  let raising := fun _ : unit => @Raise pyval TypeError in
  let vs := Integer None (Some (DefaultFunction raising)) in
  (Some (DefaultFunction raising) = None -> default_value vs = canonical_value vs)
  /\ (forall v,
         Some (DefaultFunction raising) = Some (DefaultValue v) ->
         default_value vs = Ok v)
  /\ (forall f v,
         Some (DefaultFunction raising) = Some (DefaultFunction f) ->
         f tt = Ok v -> default_value vs = Ok v)
  /\ (forall f e,
         Some (DefaultFunction raising) = Some (DefaultFunction f) ->
         f tt = Raise e -> default_value vs = canonical_value vs).
Proof.
  exact (ValueSpec_default_value_correct
           (Integer None (Some (DefaultFunction (fun _ => Raise TypeError))))
           (Some (DefaultFunction (fun _ => Raise TypeError)))
           eq_refl).
Defined.

Example default_value_without_argument :
  default_value (Integer (Some (NInt 3)) None) = canonical_value (Integer (Some (NInt 3)) None).
Proof. reflexivity. Qed.

Example default_value_of_function :
  default_value (Checkbox (Some (DefaultFunction (fun _ => Ok (PBool true)))))
  = Ok (PBool true).
Proof. reflexivity. Qed.

Example default_value_of_raising_function :
  default_value (Checkbox (Some (DefaultFunction (fun _ => Raise TypeError))))
  = Ok (PBool false).
Proof. reflexivity. Qed.

(** ** Tuple.default_value and Dictionary.default_value *)

Lemma mapM_Forall2 {A B : Type} (f : A -> result B) (l : list A) (ys : list B) :
  mapM f l = Ok ys <-> Forall2 (fun x y => f x = Ok y) l ys.
Proof.
  revert ys. induction l as [|x l IH]; intro ys; simpl.
  - split.
    + intro H. injection H as <-. constructor.
    + intro H. inversion H. reflexivity.
  - split.
    + intro H. destruct (f x) as [y|e] eqn:Hx; simpl in H; [|discriminate].
      destruct (mapM f l) as [ys'|e] eqn:Hl; simpl in H; [|discriminate].
      injection H as <-. constructor; [exact Hx|]. now apply IH.
    + intro H. inversion H as [|x' y l' ys' Hx Hl]; subst.
      rewrite Hx. simpl. apply IH in Hl. rewrite Hl. reflexivity.
Qed.

Lemma str_keys_dict_set (d : list (pyval * pyval)) (k : string) (v : pyval) :
  str_keys d -> str_keys (dict_set d (PStr k) v).
Proof.
  unfold str_keys. induction d as [|[key w] d IH]; intro H; simpl.
  - constructor; [now exists k | constructor].
  - inversion H as [|x l Hkey Hd]; subst.
    destruct (py_eq key (PStr k)); constructor; auto.
Qed.

Lemma dict_get_dict_set (d : list (pyval * pyval)) (k k' : string) (v : pyval) :
  str_keys d ->
  dict_get (dict_set d (PStr k) v) (PStr k')
  = if String.eqb k k' then Some v else dict_get d (PStr k').
Proof.
  unfold str_keys. induction d as [|[key w] d IH]; intro H.
  - cbn [dict_set dict_get]. rewrite py_eq_PStr.
    destruct (String.eqb k k'); reflexivity.
  - inversion H as [|x l [s Hs] Hd]; subst. cbn [fst] in Hs. subst key.
    cbn [dict_set dict_get]. rewrite !py_eq_PStr.
    destruct (String.eqb s k) eqn:Hsk; cbn [dict_get]; rewrite !py_eq_PStr.
    + apply String.eqb_eq in Hsk. subst s.
      destruct (String.eqb k k'); reflexivity.
    + destruct (String.eqb s k') eqn:Hsk'.
      * apply String.eqb_eq in Hsk'. subst s.
        rewrite String.eqb_sym, Hsk. reflexivity.
      * now apply IH.
Qed.

Lemma str_keys_In (d : list (pyval * pyval)) (key : pyval) :
  str_keys d -> In key (dict_keys d) -> exists s, key = PStr s.
Proof.
  unfold str_keys, dict_keys. intros H Hin.
  apply in_map_iff in Hin. destruct Hin as [kv [<- Hkv]].
  rewrite Forall_forall in H. exact (H kv Hkv).
Qed.

Lemma dict_contains_In (d : list (pyval * pyval)) (s : string) :
  dict_contains d (PStr s) = true <-> In (PStr s) (dict_keys d).
Proof.
  unfold dict_contains. induction d as [|[key w] d IH]; simpl.
  - split; [discriminate | intros []].
  - destruct (py_eq key (PStr s)) eqn:Hk.
    + apply py_eq_PStr_r in Hk. subst key. split; auto.
    + rewrite IH. split; [auto|]. intros [Heq|Hin]; [|exact Hin].
      subst key. simpl in Hk. rewrite String.eqb_refl in Hk. discriminate.
Qed.

Lemma Dictionary_last_default_In (self : DictionaryAttrs)
    (elements : list (string * ValueSpec)) (name : string) (vs : ValueSpec) :
  Dictionary_last_default self elements name = Some vs ->
  In (name, vs) elements /\ Dictionary_default_key self name = true.
Proof.
  induction elements as [|[n e] rest IH]; simpl; [discriminate|].
  destruct (Dictionary_last_default self rest name) as [r|].
  - intro H. injection H as ->. destruct (IH eq_refl). auto.
  - destruct (String.eqb n name) eqn:Hn; simpl; [|discriminate].
    apply String.eqb_eq in Hn. subst n.
    destruct (Dictionary_default_key self name); [|discriminate].
    intro H. injection H as ->. auto.
Qed.

Lemma Dictionary_last_default_some (self : DictionaryAttrs)
    (elements : list (string * ValueSpec)) (name : string) (vs : ValueSpec) :
  In (name, vs) elements -> Dictionary_default_key self name = true ->
  exists vs', Dictionary_last_default self elements name = Some vs'.
Proof.
  induction elements as [|[n e] rest IH]; simpl; [intros []|].
  intros [Heq|Hin] Hkey.
  - injection Heq as -> ->.
    destruct (Dictionary_last_default self rest name) as [r|]; [now exists r|].
    rewrite String.eqb_refl, Hkey. now exists vs.
  - destruct (IH Hin Hkey) as [vs' ->]. now exists vs'.
Qed.

Lemma Dictionary_last_default_NoDup (self : DictionaryAttrs)
    (elements : list (string * ValueSpec)) (name : string) (vs : ValueSpec) :
  NoDup (map fst elements) ->
  In (name, vs) elements -> Dictionary_default_key self name = true ->
  Dictionary_last_default self elements name = Some vs.
Proof.
  induction elements as [|[n e] rest IH]; simpl; [intros _ []|].
  intros Hnd [Heq|Hin] Hkey; inversion Hnd as [|x l Hnotin Hnd']; subst.
  - injection Heq as -> ->.
    destruct (Dictionary_last_default self rest name) as [r|] eqn:Hr.
    + apply Dictionary_last_default_In in Hr. destruct Hr as [Hr _].
      exfalso. apply Hnotin. apply in_map_iff. now exists (name, r).
    + now rewrite String.eqb_refl, Hkey.
  - now rewrite (IH Hnd' Hin Hkey).
Qed.

Lemma Dictionary_default_value_loop_get (self : DictionaryAttrs)
    (elements : list (string * ValueSpec)) :
  forall acc : list (pyval * pyval),
    str_keys acc ->
    (forall name vs, In (name, vs) elements ->
       Dictionary_default_key self name = true -> returns (default_value vs)) ->
    exists def_val,
      Dictionary_default_value_loop self elements acc = Ok def_val
      /\ str_keys def_val
      /\ forall name,
           dict_get def_val (PStr name)
           = match Dictionary_last_default self elements name with
             | Some vs =>
                 match default_value vs with Ok v => Some v | Raise _ => None end
             | None => dict_get acc (PStr name)
             end.
Proof.
  induction elements as [|[n vs] rest IH]; intros acc Hacc Hret.
  - exists acc. simpl. auto.
  - cbn [Dictionary_default_value_loop Dictionary_last_default].
    destruct (Dictionary_default_key self n) eqn:Hkey.
    + destruct (Hret n vs (or_introl eq_refl) Hkey) as [v Hv]. rewrite Hv.
      cbn [bind].
      destruct (IH (dict_set acc (PStr n) v) (str_keys_dict_set acc n v Hacc))
        as (def_val & Hloop & Hkeys & Hget).
      { intros name e Hin. apply Hret. now right. }
      exists def_val. split; [exact Hloop|]. split; [exact Hkeys|].
      intro name. rewrite Hget.
      destruct (Dictionary_last_default self rest name); [reflexivity|].
      rewrite (dict_get_dict_set acc n name v Hacc), andb_true_r.
      destruct (String.eqb n name); [now rewrite Hv | reflexivity].
    + destruct (IH acc Hacc) as (def_val & Hloop & Hkeys & Hget).
      { intros name e Hin. apply Hret. now right. }
      exists def_val. split; [exact Hloop|]. split; [exact Hkeys|].
      intro name. rewrite Hget.
      destruct (Dictionary_last_default self rest name); [reflexivity|].
      now rewrite andb_false_r.
Qed.

(** C10. [Tuple] and [Dictionary] never read the [default_value] argument
    they were built with.  The default value of a [Tuple] is the tuple of
    the default values of its elements.  The default value of a
    [Dictionary] is a dict with string keys that has a key exactly for
    each declared element that is required or named in [_default_keys],
    and holds under it the default value of the element declared for it
    (of the last one, should a name be declared twice). *)
Theorem Tuple_Dictionary_default_value :
  (forall (elements : list ValueSpec) (d : option default_arg),
      default_value (Tuple elements d) = default_value (Tuple elements None)
      /\ default_value (Tuple elements d)
         = (xs <- mapM default_value elements ;; Ok (PTuple xs))
      /\ forall vals,
           default_value (Tuple elements d) = Ok (PTuple vals)
           <-> Forall2 (fun e v => default_value e = Ok v) elements vals)
  /\ (forall (self : DictionaryAttrs) (d : option default_arg),
        default_value (Dictionary_of_attrs self d)
        = default_value (Dictionary_of_attrs self None)
        /\ (forall name,
               Dictionary_default_key self name
               = Dictionary_required self name || str_in name (_default_keys self))
        /\ ((forall name vs,
                In (name, vs) (_elements self) ->
                Dictionary_default_key self name = true ->
                returns (default_value vs)) ->
            exists def_val,
              default_value (Dictionary_of_attrs self d) = Ok (PDict def_val)
              /\ (forall key, In key (dict_keys def_val) -> exists name, key = PStr name)
              /\ (forall name,
                     In (PStr name) (dict_keys def_val)
                     <-> In name (map fst (_elements self))
                         /\ Dictionary_default_key self name = true)
              /\ (forall name v,
                     dict_get def_val (PStr name) = Some v ->
                     exists vs,
                       In (name, vs) (_elements self)
                       /\ default_value vs = Ok v)
              /\ (NoDup (map fst (_elements self)) ->
                  forall name vs v,
                    In (name, vs) (_elements self) ->
                    Dictionary_default_key self name = true ->
                    default_value vs = Ok v ->
                    dict_get def_val (PStr name) = Some v))).
Proof.
  split.
  - intros elements d. split; [reflexivity|]. split; [reflexivity|].
    intro vals. cbn [default_value Tuple]. unfold Tuple_default_value.
    rewrite <- mapM_Forall2.
    destruct (mapM default_value elements) as [xs|e]; simpl; split; intro H;
      try discriminate; congruence.
  - intros self d. split; [reflexivity|]. split.
    { intro name. unfold Dictionary_default_key, Dictionary_required.
      now rewrite (orb_comm (str_in name (_required_keys self))). }
    intro Hret.
    destruct (Dictionary_default_value_loop_get self (_elements self) []
                (Forall_nil _) Hret) as (def_val & Hloop & Hkeys & Hget).
    exists def_val.
    cbn [default_value Dictionary_of_attrs].
    unfold Dictionary_default_value, Dictionary__get_elements. rewrite Hloop.
    split; [reflexivity|]. split; [|split; [|split]].
    + intros key Hin. exact (str_keys_In def_val key Hkeys Hin).
    + intro name. rewrite <- dict_contains_In. unfold dict_contains.
      rewrite Hget. split.
      * destruct (Dictionary_last_default self (_elements self) name) as [vs|] eqn:Hl;
          [|discriminate].
        intros _. apply Dictionary_last_default_In in Hl. destruct Hl as [Hin Hk].
        split; [|exact Hk]. apply in_map_iff. now exists (name, vs).
      * intros [Hin Hk]. apply in_map_iff in Hin.
        destruct Hin as [[n vs] [Hn Hin]]. simpl in Hn. subst n.
        destruct (Dictionary_last_default_some self _ name vs Hin Hk) as [vs' Hl].
        rewrite Hl. apply Dictionary_last_default_In in Hl. destruct Hl as [Hin' _].
        destruct (Hret name vs' Hin' Hk) as [v ->]. reflexivity.
    + intros name v. rewrite Hget.
      destruct (Dictionary_last_default self (_elements self) name) as [vs|] eqn:Hl;
        [|discriminate].
      apply Dictionary_last_default_In in Hl. destruct Hl as [Hin _].
      destruct (default_value vs) as [v'|] eqn:Hv; [|discriminate].
      intro H. injection H as ->. now exists vs.
    + intros Hnd name vs v Hin Hk Hv. rewrite Hget.
      rewrite (Dictionary_last_default_NoDup self _ name vs Hnd Hin Hk).
      now rewrite Hv.
Qed.

Example Tuple_default_value_ignores_argument :
  default_value
    (Tuple [Integer None (Some (DefaultValue (PInt 80)));
            Integer None (Some (DefaultValue (PInt 100)))]
       (Some (DefaultValue (PTuple [PInt 1; PInt 2]))))
  = Ok (PTuple [PInt 80; PInt 100]).
Proof. reflexivity. Qed.

Example Dictionary_default_value_ignores_argument :
  default_value
    (Dictionary [("a", Integer None (Some (DefaultValue (PInt 7))));
                 ("b", Checkbox None);
                 ("c", TextAscii false None)]
       (OptionalKeysBool true) (Some ["a"]) None (Some ["c"]) None
       (Some (DefaultValue (PDict []))))
  = Ok (PDict [(PStr "a", PInt 7); (PStr "c", PStr "")]).
Proof. reflexivity. Qed.

(** ** ValueSpec.validate_value *)

(** C2. [validate_value] runs [_validate_value] and then the [validate]
    callback and nothing else: its outcome is the same for two valuespecs
    that agree on these two, whatever their [validate_datatype] does; and
    there are a valuespec and a value, [Checkbox()] and [5], on which
    [validate_datatype] raises [MKUserError] and [validate_value]
    returns. *)
Theorem validate_value_skips_datatype :
  (forall self value varprefix,
      validate_value self value varprefix
      = (_validate_value self value varprefix ;;;
         ValueSpec__custom_validate (_validate self) value varprefix))
  /\ (forall self other,
         _validate_value self = _validate_value other ->
         _validate self = _validate other ->
         forall value varprefix,
           validate_value self value varprefix = validate_value other value varprefix)
  /\ (exists self value,
         forall varprefix,
           validate_datatype (as_ValueSpec self) value varprefix
           = Raise (MKUserError varprefix)
           /\ validate_value self value varprefix = Ok tt).
Proof.
  split; [reflexivity|]. split.
  - intros self other Hv Hc value varprefix. unfold validate_value.
    now rewrite Hv, Hc.
  - exists (Checkbox_validating None None), (PInt 5). intro varprefix.
    split; reflexivity.
Qed.

Example Integer_validate_value_accepts_float :
  forall varprefix,
    validate_datatype
      (as_ValueSpec (Integer_validating (Some (NInt 0)) (Some (NInt 10)) None None))
      (PFloat float_1_5) varprefix = Raise (MKUserError varprefix)
    /\ validate_value (Integer_validating (Some (NInt 0)) (Some (NInt 10)) None None)
         (PFloat float_1_5) varprefix = Ok tt.
Proof. intro varprefix. split; reflexivity. Qed.

Example Integer_validate_value_rejects_low :
  validate_value (Integer_validating (Some (NInt 0)) (Some (NInt 10)) None None)
    (PInt (-1)) "p" = Raise (MKUserError "p").
Proof. reflexivity. Qed.

(** ** canonical_value against validate_datatype *)

(** C1 fails on [Integer(minvalue=1.5)]: its canonical value is the float
    [1.5], which its own datatype check refuses. *)
Theorem Integer_canonical_value_fails_datatype :
  let self := Integer (Some (NFloat float_1_5)) None in
  canonical_value self = Ok (PFloat float_1_5)
  /\ forall varprefix,
       validate_datatype self (PFloat float_1_5) varprefix
       = Raise (MKUserError varprefix).
Proof.
  cbv zeta. split; [reflexivity|]. intro varprefix. reflexivity.
Qed.

(** The sibling class [Float] converts: the canonical value of
    [Float(minvalue=2)] is the float [2.0] and passes. *)
Example Float_canonical_value_converts :
  exists f,
    canonical_value (Float false (Some (NInt 2)) None) = Ok (PFloat f)
    /\ validate_datatype (Float false (Some (NInt 2)) None) (PFloat f) "p" = Ok tt.
Proof. eexists. split; reflexivity. Qed.

Lemma assoc_last_In (name : string) (kvs : list (string * pyval)) (v : pyval) :
  assoc_last name kvs = Some v -> In (name, v) kvs.
Proof.
  induction kvs as [|[n w] rest IH]; simpl; [discriminate|].
  destruct (assoc_last name rest) as [x|].
  - intro H. injection H as ->. right. now apply IH.
  - destruct (String.eqb n name) eqn:Hn; [|discriminate].
    apply String.eqb_eq in Hn. subst n. intro H. injection H as ->. now left.
Qed.

Lemma assoc_last_NoDup (name : string) (kvs : list (string * pyval)) (v : pyval) :
  NoDup (map fst kvs) -> In (name, v) kvs -> assoc_last name kvs = Some v.
Proof.
  induction kvs as [|[n w] rest IH]; simpl; [intros _ []|].
  intros Hnd [Heq|Hin]; inversion Hnd as [|x l Hnotin Hnd']; subst.
  - injection Heq as -> ->.
    destruct (assoc_last name rest) as [x|] eqn:Hx.
    + apply assoc_last_In in Hx. exfalso. apply Hnotin.
      apply in_map_iff. now exists (name, x).
    + now rewrite String.eqb_refl.
  - now rewrite (IH Hnd' Hin).
Qed.

Lemma dict_of_items_get (kvs : list (string * pyval)) :
  forall acc : list (pyval * pyval),
    str_keys acc ->
    str_keys (fold_left (fun d kv => dict_set d (fst kv) (snd kv)) (str_items kvs) acc)
    /\ forall name,
         dict_get
           (fold_left (fun d kv => dict_set d (fst kv) (snd kv)) (str_items kvs) acc)
           (PStr name)
         = match assoc_last name kvs with
           | Some v => Some v
           | None => dict_get acc (PStr name)
           end.
Proof.
  induction kvs as [|[n v] rest IH]; intros acc Hacc.
  - simpl. auto.
  - cbn [str_items map fold_left fst snd assoc_last].
    destruct (IH (dict_set acc (PStr n) v) (str_keys_dict_set acc n v Hacc))
      as [Hkeys Hget].
    split; [exact Hkeys|]. intro name.
    fold (str_items rest). rewrite (Hget name).
    destruct (assoc_last name rest); [reflexivity|].
    rewrite (dict_get_dict_set acc n name v Hacc).
    destruct (String.eqb n name); reflexivity.
Qed.

Lemma NoDup_map_fst_filter {A B : Type} (f : A * B -> bool) (l : list (A * B)) :
  NoDup (map fst l) -> NoDup (map fst (filter f l)).
Proof.
  induction l as [|x l IH]; simpl; intro H; [constructor|].
  inversion H as [|y l' Hnotin Hnd]; subst.
  destruct (f x); simpl; [|now apply IH].
  constructor; [|now apply IH].
  intro Hin. apply Hnotin. apply in_map_iff in Hin.
  destruct Hin as [z [Hz Hzin]]. apply filter_In in Hzin.
  apply in_map_iff. exists z. tauto.
Qed.

Lemma Forall2_In_l {A B : Type} (R : A -> B -> Prop) (l : list A) (l' : list B) (x : A) :
  Forall2 R l l' -> In x l -> exists y, In y l' /\ R x y.
Proof.
  induction 1 as [|a b l l' Hab _ IH]; simpl; [intros []|].
  intros [<-|Hin].
  - exists b. auto.
  - destruct (IH Hin) as [y [Hy Hr]]. exists y. auto.
Qed.

Lemma Forall2_In_r {A B : Type} (R : A -> B -> Prop) (l : list A) (l' : list B) (y : B) :
  Forall2 R l l' -> In y l' -> exists x, In x l /\ R x y.
Proof.
  induction 1 as [|a b l l' Hab _ IH]; simpl; [intros []|].
  intros [<-|Hin].
  - exists a. auto.
  - destruct (IH Hin) as [x [Hx Hr]]. exists x. auto.
Qed.

Lemma Tuple_validate_elements_Forall2 (varprefix : string)
    (es : list ValueSpec) (vals : list pyval) :
  Forall2 (fun e v => forall p, validate_datatype e v p = Ok tt) es vals ->
  forall no, Tuple_validate_elements varprefix no es vals = Ok tt.
Proof.
  induction 1 as [|e v es vals Hev _ IH]; intro no; simpl; [reflexivity|].
  rewrite Hev. simpl. apply IH.
Qed.

Lemma Tuple_canonical_passes (es : list ValueSpec) (d : option default_arg) :
  Forall canonical_passes es -> canonical_passes (Tuple es d).
Proof.
  intro H.
  assert (Hvals : exists vals,
             mapM canonical_value es = Ok vals
             /\ Forall2 (fun e v => forall p, validate_datatype e v p = Ok tt) es vals).
  { induction H as [|e es (v & Hc & Hv) _ (vals & Hm & Hf)].
    - exists []. split; [reflexivity | constructor].
    - exists (v :: vals). split.
      + simpl. rewrite Hc. simpl. rewrite Hm. reflexivity.
      + now constructor. }
  destruct Hvals as (vals & Hm & Hf).
  exists (PTuple vals). split.
  - cbn [canonical_value Tuple]. unfold Tuple_canonical_value. now rewrite Hm.
  - intro varprefix. cbn [validate_datatype Tuple]. unfold Tuple_validate_datatype.
    rewrite (Forall2_length Hf), Nat.eqb_refl. simpl.
    now apply Tuple_validate_elements_Forall2.
Qed.

Lemma Alternative_canonical_passes (e : ValueSpec) (es : list ValueSpec)
    (d : option default_arg) :
  canonical_passes e -> canonical_passes (Alternative (e :: es) d).
Proof.
  intros (v & Hc & Hv). exists v. split; [exact Hc|].
  intro varprefix. cbn [validate_datatype Alternative Alternative_validate_datatype].
  now rewrite Hv.
Qed.

Section DictionaryCanonical.

Variable self : DictionaryAttrs.
Hypothesis no_migrate : _migrate self = None.
Hypothesis names_differ : NoDup (map fst (_elements self)).
Hypothesis elements_pass : Forall (fun e => canonical_passes (snd e)) (_elements self).

Lemma Dictionary_canonical_items (elements : list (string * ValueSpec)) :
  Forall (fun e => canonical_passes (snd e)) elements ->
  exists kvs,
    mapM (fun e => v <- canonical_value (snd e) ;; Ok (PStr (fst e), v))
      (filter (fun e => Dictionary_canonical_key self (fst e)) elements)
    = Ok (str_items kvs)
    /\ Forall2 canonical_item
         (filter (fun e => Dictionary_canonical_key self (fst e)) elements) kvs.
Proof.
  induction 1 as [|e elements (v & Hc & Hv) _ (kvs & Hm & Hf)]; simpl.
  - exists []. split; [reflexivity | constructor].
  - destruct (Dictionary_canonical_key self (fst e)).
    + exists ((fst e, v) :: kvs). split.
      * simpl. rewrite Hc. simpl. rewrite Hm. reflexivity.
      * constructor; [|exact Hf]. repeat split; assumption.
    + exists kvs. auto.
Qed.

Lemma Dictionary_canonical_passes (d : option default_arg) :
  canonical_passes (Dictionary_of_attrs self d).
Proof.
  destruct (Dictionary_canonical_items (_elements self) elements_pass)
    as (kvs & Hm & Hf).
  set (keep := fun e : string * ValueSpec => Dictionary_canonical_key self (fst e)) in *.
  assert (Hnames : map fst kvs = map fst (filter keep (_elements self))).
  { clear Hm. induction Hf as [|e kv l l' (Hn & _) _ IH]; simpl; [reflexivity|].
    now rewrite Hn, IH. }
  assert (Hnd : NoDup (map fst kvs)).
  { rewrite Hnames. now apply NoDup_map_fst_filter. }
  destruct (dict_of_items_get kvs [] (Forall_nil _)) as [Hkeys Hget].
  fold (dict_of_items (str_items kvs)) in Hkeys, Hget.
  exists (PDict (dict_of_items (str_items kvs))). split.
  - cbn [canonical_value Dictionary_of_attrs].
    unfold Dictionary_canonical_value, Dictionary__get_elements.
    fold keep. now rewrite Hm.
  - intro varprefix. cbn [validate_datatype Dictionary_of_attrs].
    unfold Dictionary_validate_datatype, Dictionary_migrate, Dictionary__get_elements.
    rewrite no_migrate, bind_Ok.
    apply seq_ok_iff. split.
    + apply Dictionary_validate_elements_ok. intros param vs Hin.
      unfold Dictionary_element_ok. rewrite (Hget param). cbn [dict_get].
      destruct (Dictionary_canonical_key self param) eqn:Hkey.
      * assert (Hinf : In (param, vs) (filter keep (_elements self))).
        { apply filter_In. split; [exact Hin | exact Hkey]. }
        destruct (Forall2_In_l _ _ _ _ Hf Hinf) as ([n v] & Hkv & Hn & Hc & Hv).
        simpl in Hn, Hv. subst n.
        rewrite (assoc_last_NoDup param kvs v Hnd Hkv). apply Hv.
      * destruct (assoc_last param kvs) as [v|] eqn:Hl.
        -- apply assoc_last_In in Hl.
           destruct (Forall2_In_r _ _ _ _ Hf Hl) as ([n e] & Hine & Hn & _).
           apply filter_In in Hine. destruct Hine as [_ Hk].
           unfold keep in Hk. simpl in Hn, Hk. subst n. congruence.
        -- unfold Dictionary_required. unfold Dictionary_canonical_key in Hkey.
           now rewrite orb_comm.
    + apply Dictionary_check_exceeding_ok. intros key Hkey.
      destruct (str_keys_In _ key Hkeys Hkey) as [name ->].
      apply dict_contains_In in Hkey. unfold dict_contains in Hkey.
      rewrite (Hget name) in Hkey. cbn [dict_get] in Hkey.
      destruct (assoc_last name kvs) as [v|] eqn:Hl; [|discriminate].
      apply assoc_last_In in Hl.
      assert (Hname : In name (map fst (_elements self))).
      { assert (Hin : In name (map fst kvs)).
        { apply in_map_iff. now exists (name, v). }
        rewrite Hnames in Hin. apply in_map_iff in Hin.
        destruct Hin as (e & He & Hine). apply filter_In in Hine.
        apply in_map_iff. exists e. tauto. }
      apply py_in_strs_In. exists name. split; [|reflexivity].
      unfold Dictionary_allowed_keys, Dictionary__get_elements.
      destruct (_ignored_keys self); [exact Hname|].
      apply in_or_app. now left.
Qed.

End DictionaryCanonical.

(** For every well configured valuespec built by nesting the thirteen
    classes ([Age] with a [minvalue] that is no long, [FixedValue] and
    [Optional] with a value that holds no NaN, and the further
    conditions of [well_configured]), [canonical_value()] returns a
    value that passes the [validate_datatype] of the same valuespec
    under every [varprefix]. *)
Theorem well_configured_canonical_passes :
  forall vs : ValueSpec, well_configured vs -> canonical_passes vs.
Proof.
  fix IH 2. intros vs H. destruct H.
  - exists v. split; [reflexivity|]. intro varprefix. cbn [validate_datatype FixedValue].
    unfold FixedValue_validate_datatype. now rewrite H.
  - exists (Age_canonical_value m). split; [reflexivity|]. intro varprefix.
    cbn [validate_datatype Age]. unfold Age_validate_datatype, Age_canonical_value.
    destruct m as [z|]; [|reflexivity].
    destruct (z =? 0); cbn [negb isinstance_int]; [reflexivity|].
    now rewrite (H z eq_refl).
  - exists (py_of_number (Integer_canonical_value m)). split; [reflexivity|].
    intro varprefix. destruct m as [[z|f]|]; simpl.
    + destruct (z =? 0); reflexivity.
    + specialize (H f eq_refl). simpl in H. now rewrite H.
    + reflexivity.
  - destruct H as [f Hf]. exists (PFloat f). split.
    + cbn [canonical_value Float]. unfold Float_canonical_value. now rewrite Hf.
    + intro varprefix. reflexivity.
  - destruct H as [f Hf]. exists (PFloat f). split.
    + cbn [canonical_value Percentage]. unfold Float_canonical_value. now rewrite Hf.
    + intro varprefix. destruct a; reflexivity.
  - exists (PBool false). split; [reflexivity|]. intro varprefix. reflexivity.
  - exists (PStr ""). split; [reflexivity|]. intro varprefix. destruct n; reflexivity.
  - exists (PList []). split; [reflexivity|]. intro varprefix. reflexivity.
  - destruct H as [choices Hc].
    exists (match choices with entry :: _ => fst entry | [] => PNone end). split.
    + cbn [canonical_value DropdownChoice]. unfold DropdownChoice_canonical_value.
      rewrite Hc. simpl. destruct choices; reflexivity.
    + intro varprefix. reflexivity.
  - exists n. split; [reflexivity|]. intro varprefix. cbn [validate_datatype Optional].
    unfold Optional_validate_datatype, py_ne. now rewrite H.
  - apply Alternative_canonical_passes. apply IH. exact H.
  - apply Tuple_canonical_passes.
    revert es H. fix IHes 2. intros es H. destruct H as [|e es He Hes].
    + constructor.
    + constructor; [apply IH; exact He | apply IHes; exact Hes].
  - apply Dictionary_canonical_passes; try assumption.
    revert H1. generalize (_elements self).
    fix IHes 2. intros es Hall. destruct Hall as [|e es He Hes].
    + constructor.
    + constructor; [apply IH; exact He | apply IHes; exact Hes].
Qed.

Lemma well_configured_canonical_witness :
  canonical_passes
    (Dictionary
       [("levels", Tuple [Integer (Some (NInt 1)) None; Float false None None] None);
        ("mode", Alternative [Checkbox None; TextAscii false None] None);
        ("age", Age (Some 60) None);
        ("kind", Optional (FixedValue (PStr "fixed") None) PNone None)]
       (OptionalKeysBool false) None None None None None).
Proof.
  apply well_configured_canonical_passes.
  apply wc_Dictionary.
  - reflexivity.
  - simpl. repeat constructor; simpl; intuition discriminate.
  - simpl. repeat constructor; try discriminate.
    + exists (S754_zero false). reflexivity.
    + intros z Hz. injection Hz as <-. reflexivity.
Defined.

(** What the condition on [Age] leaves out: [Age(minvalue=2**63)] has a
    long as its canonical value, and its own datatype check, which asks
    for an int, refuses it. *)
Example Age_long_minvalue_fails_datatype :
  canonical_value (Age (Some (sys_maxint + 1)) None) = Ok (PInt (sys_maxint + 1))
  /\ forall varprefix,
       validate_datatype (Age (Some (sys_maxint + 1)) None) (PInt (sys_maxint + 1))
         varprefix = Raise (MKUserError varprefix).
Proof. split; reflexivity. Qed.

(** * Further properties *)

(** Decides the comparisons of integers a goal or hypothesis tests. *)
Ltac decide_comparisons :=
  repeat match goal with
    | |- context [?a ?= ?b] =>
        let E := fresh "E" in
        destruct (Z.compare_spec a b) as [E|E|E]
    | H : context [?a ?= ?b] |- _ =>
        let E := fresh "E" in
        destruct (Z.compare_spec a b) as [E|E|E]
    end.

(** ** Integer._validate_value *)

Lemma Integer__validate_value_int (lo hi : option Z) (x : Z) (varprefix : string) :
  (Integer__validate_value (option_map NInt lo) (option_map NInt hi) (PInt x)
     varprefix = Ok tt
   <-> (forall l, lo = Some l -> l <= x) /\ (forall h, hi = Some h -> x <= h))
  /\ (Integer__validate_value (option_map NInt lo) (option_map NInt hi) (PInt x)
        varprefix = Ok tt
      \/ Integer__validate_value (option_map NInt lo) (option_map NInt hi) (PInt x)
           varprefix = Raise (MKUserError varprefix)).
Proof.
  unfold Integer__validate_value, py2_lt_number, py2_gt_number,
    number_ltb, number_gtb.
  destruct lo as [l|], hi as [h|]; simpl; decide_comparisons; simpl;
    (split; [split; [intro H; try discriminate; split; intros ? Heq;
                      inversion Heq; subst; lia
                    | intros [Hl Hh]; try reflexivity;
                      try (specialize (Hl _ eq_refl)); try (specialize (Hh _ eq_refl));
                      lia]
            | auto]).
Qed.

(** An [Integer] with integer bounds accepts an int exactly when it lies
    between [minvalue] and [maxvalue], both included, and otherwise
    raises [MKUserError(varprefix)].  The canonical value never falls
    below [minvalue]; it passes exactly when it does not exceed
    [maxvalue]. *)
Theorem Integer_validate_value_range :
  forall (lo hi : option Z) (z : Z) (varprefix : string),
    let check := Integer__validate_value (option_map NInt lo) (option_map NInt hi) in
    (check (PInt z) varprefix = Ok tt
     <-> (forall l, lo = Some l -> l <= z) /\ (forall h, hi = Some h -> z <= h))
    /\ (check (PInt z) varprefix = Ok tt
        \/ check (PInt z) varprefix = Raise (MKUserError varprefix))
    /\ exists c,
         Integer_canonical_value (option_map NInt lo) = NInt c
         /\ (forall l, lo = Some l -> l <= c)
         /\ (check (PInt c) varprefix = Ok tt <-> forall h, hi = Some h -> c <= h).
Proof.
  intros lo hi z varprefix check. unfold check.
  pose proof (fun x => Integer__validate_value_int lo hi x varprefix) as Hcheck.
  split; [apply Hcheck|]. split; [apply Hcheck|].
  destruct lo as [l|]; simpl.
  - destruct (l =? 0) eqn:Hl0; simpl.
    + apply Z.eqb_eq in Hl0. subst l. exists 0. split; [reflexivity|]. split.
      * intros l Heq. inversion Heq. lia.
      * rewrite (proj1 (Hcheck 0)). split; [tauto|].
        intro H. split; [|exact H]. intros l Heq. inversion Heq. lia.
    + exists l. split; [reflexivity|]. split.
      * intros l' Heq. inversion Heq. lia.
      * rewrite (proj1 (Hcheck l)). split; [tauto|].
        intro H. split; [|exact H]. intros l' Heq. inversion Heq. lia.
  - exists 0. split; [reflexivity|]. split; [discriminate|].
    rewrite (proj1 (Hcheck 0)). split; [tauto|].
    intro H. split; [discriminate | exact H].
Qed.

(** A network port is an [Integer] between 1 and 65535. *)
Example NetworkPort_range :
  forall z varprefix,
    validate_value (NetworkPort None) (PInt z) varprefix = Ok tt <-> 1 <= z <= 65535.
Proof.
  intros z varprefix. unfold validate_value, NetworkPort, ValueSpec_validate_value.
  cbn [_validate_value _validate Integer_validating ValueSpec__custom_validate].
  rewrite seq_ok_iff.
  pose proof (Integer__validate_value_int (Some 1) (Some 65535) z varprefix) as [H _].
  cbn [option_map] in H. rewrite H. split.
  - intros [[Hl Hh] _]. specialize (Hl 1 eq_refl). specialize (Hh 65535 eq_refl). lia.
  - intro Hz. split; [|reflexivity]. split; intros ? Heq; inversion Heq; lia.
Qed.

(** ** Timeofday and TimeofdayRange *)

Lemma Timeofday_validate_datatype_ok (allow_empty : bool) (value : pyval)
    (varprefix : string) :
  Timeofday_validate_datatype allow_empty value varprefix = Ok tt
  <-> is_time_of_day allow_empty value.
Proof.
  unfold Timeofday_validate_datatype, is_time_of_day. split.
  - intro H. destruct value as [| | | | | |items|];
      try (destruct allow_empty; simpl in H; try discriminate; left; auto; fail).
    replace (allow_empty && is_None (PTuple items)) with false in H
      by (destruct allow_empty; reflexivity).
    destruct items as [|h [|m [|x items]]]; simpl in H; try discriminate.
    right. exists h, m.
    destruct (isinstance_int h); simpl in H; [|discriminate].
    destruct (isinstance_int m); simpl in H; [|discriminate]. auto.
  - intros [[-> ->]|(h & m & -> & Hh & Hm)]; [reflexivity|].
    replace (allow_empty && is_None (PTuple [h; m])) with false
      by (destruct allow_empty; reflexivity).
    simpl. now rewrite Hh, Hm.
Qed.

Lemma Timeofday_validate_datatype_raise (allow_empty : bool) (value : pyval)
    (varprefix : string) (e : exc) :
  Timeofday_validate_datatype allow_empty value varprefix = Raise e ->
  e = MKUserError varprefix.
Proof.
  unfold Timeofday_validate_datatype.
  destruct (allow_empty && is_None value); [discriminate|].
  destruct value as [| | | | | |items|]; try (intro H; now injection H as <-).
  destruct (negb (Nat.eqb (List.length items) 2)); [intro H; now injection H as <-|].
  induction items as [|x items IH]; simpl; [discriminate|].
  destruct (negb (isinstance_int x)); [intro H; now injection H as <-|]. exact IH.
Qed.

(** [Timeofday.validate_datatype] lets through [None], when empty input
    is allowed, and the pairs of ints, bools among them and longs not,
    and raises [MKUserError(varprefix)] on every other value;
    [TimeofdayRange.validate_datatype] lets through [None], when empty
    input is allowed, and the pairs whose two components each pass the
    check of a [Timeofday] with the same [allow_empty], so that a range
    with one end [None] passes; and each class's canonical value passes
    its own check. *)
Theorem Timeofday_datatype_correct :
  forall (allow_24_00 allow_empty : bool) (d : option default_arg)
         (value : pyval) (varprefix : string),
    (validate_datatype (Timeofday allow_24_00 allow_empty d) value varprefix = Ok tt
     <-> is_time_of_day allow_empty value)
    /\ (validate_datatype (Timeofday allow_24_00 allow_empty d) value varprefix = Ok tt
        \/ validate_datatype (Timeofday allow_24_00 allow_empty d) value varprefix
           = Raise (MKUserError varprefix))
    /\ (validate_datatype (TimeofdayRange allow_empty d) value varprefix = Ok tt
        <-> (allow_empty = true /\ value = PNone)
            \/ exists from until,
                 value = PTuple [from; until]
                 /\ is_time_of_day allow_empty from
                 /\ is_time_of_day allow_empty until)
    /\ validate_datatype (Timeofday allow_24_00 allow_empty d)
         (Timeofday_canonical_value allow_empty) varprefix = Ok tt
    /\ validate_datatype (TimeofdayRange allow_empty d)
         (TimeofdayRange_canonical_value allow_empty) varprefix = Ok tt.
Proof.
  intros allow_24_00 allow_empty d value varprefix.
  cbn [validate_datatype Timeofday TimeofdayRange].
  split; [apply Timeofday_validate_datatype_ok|]. split.
  { destruct (result_unit_cases
                (Timeofday_validate_datatype allow_empty value varprefix))
      as [H|[e H]]; [now left|].
    right. rewrite H. f_equal. exact (Timeofday_validate_datatype_raise _ _ _ _ H). }
  split.
  { unfold TimeofdayRange_validate_datatype. split.
    - intro H. destruct value as [| | | | | |items|];
        try (destruct allow_empty; simpl in H; try discriminate; left; auto; fail).
      replace (allow_empty && is_None (PTuple items)) with false in H
        by (destruct allow_empty; reflexivity).
      destruct items as [|from [|until [|x items]]]; simpl in H; try discriminate.
      right. exists from, until.
      apply seq_ok_iff in H. destruct H as [Hf Hu].
      apply Timeofday_validate_datatype_ok in Hf.
      apply Timeofday_validate_datatype_ok in Hu. auto.
    - intros [[-> ->]|(from & until & -> & Hf & Hu)]; [reflexivity|].
      replace (allow_empty && is_None (PTuple [from; until])) with false
        by (destruct allow_empty; reflexivity).
      simpl. apply seq_ok_iff. split; now apply Timeofday_validate_datatype_ok. }
  split; destruct allow_empty; reflexivity.
Qed.

(** A time whose hour is a long is refused, whatever its value. *)
Example Timeofday_refuses_long :
  validate_datatype (Timeofday true false None)
    (PTuple [PInt (sys_maxint + 1); PInt 0]) "p" = Raise (MKUserError "p").
Proof. reflexivity. Qed.

(** [Timeofday._validate_value] accepts a pair of ints [(h, m)] exactly
    for the times from 00:00 to 23:59, and for 24:00 when [allow_24_00]
    is set, and raises [MKUserError(varprefix)] for every other pair.  On
    [None] it raises [MKUserError] when empty input is not allowed, and
    [TypeError] when it is: the canonical value of a [Timeofday] that
    allows empty input does not get through. *)
Theorem Timeofday_validate_value_correct :
  forall (allow_24_00 allow_empty : bool) (h m : Z) (varprefix : string),
    let check := Timeofday__validate_value allow_24_00 allow_empty in
    (check (PTuple [PInt h; PInt m]) varprefix = Ok tt
     <-> 0 <= h /\ 0 <= m <= 59
         /\ (h <= 23 \/ (allow_24_00 = true /\ h = 24 /\ m = 0)))
    /\ (check (PTuple [PInt h; PInt m]) varprefix = Ok tt
        \/ check (PTuple [PInt h; PInt m]) varprefix = Raise (MKUserError varprefix))
    /\ check PNone varprefix
       = (if allow_empty then Raise TypeError else Raise (MKUserError varprefix))
    /\ (allow_empty = false ->
        check (Timeofday_canonical_value allow_empty) varprefix = Ok tt).
Proof.
  intros allow_24_00 allow_empty h m varprefix check. unfold check.
  split; [|split; [|split]].
  - unfold Timeofday__validate_value, py2_gt_int_tuple, py2_lt_number, py2_gt_number,
      number_ltb, number_gtb, number_eqb.
    replace (negb allow_empty && is_None (PTuple [PInt h; PInt m])) with false
      by (destruct allow_empty; reflexivity).
    destruct allow_24_00; simpl; unfold number_eqb, py2_gt_number, number_gtb; simpl;
      decide_comparisons; simpl;
      (split; [intro H; try discriminate; lia
              | intro H; try reflexivity; exfalso;
                destruct H as (H0 & H1 & [H2|(H2 & H3 & H4)]); try discriminate; lia]).
  - unfold Timeofday__validate_value, py2_gt_int_tuple, py2_lt_number, py2_gt_number,
      number_ltb, number_gtb, number_eqb.
    replace (negb allow_empty && is_None (PTuple [PInt h; PInt m])) with false
      by (destruct allow_empty; reflexivity).
    destruct allow_24_00; simpl; unfold number_eqb, py2_gt_number, number_gtb; simpl;
      decide_comparisons; simpl; auto.
  - destruct allow_empty, allow_24_00; reflexivity.
  - intros ->. destruct allow_24_00; reflexivity.
Qed.

(** ** AutoTimestamp.validate_datatype *)

(** [AutoTimestamp.validate_datatype] never raises: for an int, which a
    long is not, and for a float it returns [None], and for every other
    value it hands an [MKUserError] back as its result.  No caller looks
    at the result, so an [AutoTimestamp] accepts every value wherever a
    datatype is checked: on its own, as the elements of a [Tuple], which
    then accepts exactly the tuples of the right length, and among the
    elements of an [Alternative], which then accepts every value. *)
Theorem AutoTimestamp_validate_datatype_never_raises :
  forall (now later : spec_float) (d : option default_arg)
         (value : pyval) (varprefix : string),
    let self := AutoTimestamp now later d in
    ~ raises (AutoTimestamp_validate_datatype value varprefix)
    /\ (AutoTimestamp_validate_datatype value varprefix = Ok None
        <-> isinstance_int value = true \/ isinstance_float value = true)
    /\ (AutoTimestamp_validate_datatype value varprefix
        = Ok (Some (MKUserError varprefix))
        <-> isinstance_int value = false /\ isinstance_float value = false)
    /\ AutoTimestamp_validate_datatype (PInt (sys_maxint + 1)) varprefix
       = Ok (Some (MKUserError varprefix))
    /\ validate_datatype self value varprefix = Ok tt
    /\ (forall n d',
           validate_datatype (Tuple (repeat self n) d') value varprefix = Ok tt
           <-> exists vals, value = PTuple vals /\ List.length vals = n)
    /\ (forall elements d',
           In self elements ->
           validate_datatype (Alternative elements d') value varprefix = Ok tt).
Proof.
  intros now later d value varprefix self.
  assert (Hself : forall v p, validate_datatype self v p = Ok tt).
  { intros v p. unfold self. cbn [validate_datatype AutoTimestamp].
    unfold AutoTimestamp_validate_datatype.
    now destruct (negb (isinstance_int v || isinstance_float v)). }
  split; [|split; [|split; [|split; [reflexivity|split; [apply Hself|split]]]]].
  - unfold AutoTimestamp_validate_datatype.
    destruct (negb (isinstance_int value || isinstance_float value));
      intros [e He]; discriminate.
  - unfold AutoTimestamp_validate_datatype.
    destruct (isinstance_int value), (isinstance_float value); cbn [orb negb];
      split; auto; try discriminate; intros [H|H]; discriminate.
  - unfold AutoTimestamp_validate_datatype.
    destruct (isinstance_int value), (isinstance_float value); cbn [orb negb];
      split; auto; try discriminate; intros [H1 H2]; discriminate.
  - intros n d'. cbn [validate_datatype Tuple]. unfold Tuple_validate_datatype.
    split.
    + intro H. destruct value as [| | | | | |vals|]; try discriminate.
      exists vals. split; [reflexivity|].
      destruct (Nat.eqb_spec (List.length vals) (List.length (repeat self n)))
        as [E|E]; [|discriminate].
      now rewrite repeat_length in E.
    + intros (vals & -> & Hlen).
      assert (E : List.length vals = List.length (repeat self n))
        by now rewrite repeat_length.
      apply Nat.eqb_eq in E as Eb. rewrite Eb. cbn [negb].
      apply (Tuple_validate_elements_ok varprefix (repeat self n) vals 0%nat E).
      intros i element val He _. unfold Tuple_component.
      apply nth_error_In, repeat_spec in He. subst element. apply Hself.
  - intros elements d' Hin. cbn [validate_datatype Alternative].
    induction elements as [|vs rest IH]; [destruct Hin|].
    cbn [Alternative_validate_datatype].
    destruct (validate_datatype vs value "") as [[]|e] eqn:Hvs; [reflexivity|].
    cbn [try_except]. destruct Hin as [->|Hin]; [|exact (IH Hin)].
    rewrite Hself in Hvs. discriminate.
Qed.

(** ** Alternative.validate_datatype *)

(** [Alternative.validate_datatype] returns exactly when some element's
    check returns on the value, each element being asked with the empty
    varprefix; in every other case it raises [MKUserError(varprefix)] of
    its own, whatever the elements raised. *)
Theorem Alternative_validate_datatype_correct :
  forall (elements : list ValueSpec) (d : option default_arg)
         (value : pyval) (varprefix : string),
    (validate_datatype (Alternative elements d) value varprefix = Ok tt
     <-> exists vs, In vs elements /\ validate_datatype vs value "" = Ok tt)
    /\ (validate_datatype (Alternative elements d) value varprefix = Ok tt
        \/ validate_datatype (Alternative elements d) value varprefix
           = Raise (MKUserError varprefix)).
Proof.
  intros elements d value varprefix. cbn [validate_datatype Alternative].
  induction elements as [|vs rest [IHok IHcases]]; simpl.
  - split; [|now right]. split; [discriminate | intros (vs & [] & _)].
  - destruct (result_unit_cases (validate_datatype vs value "")) as [H|[e H]];
      rewrite H; simpl.
    + split; [|now left]. split; [|reflexivity].
      intros _. exists vs. auto.
    + split; [|exact IHcases]. rewrite IHok. split.
      * intros (x & Hin & Hx). exists x. auto.
      * intros (x & [<-|Hin] & Hx); [congruence|]. exists x. auto.
Qed.

(** ** Tuple._validate_value *)

Lemma Tuple__validate_value_loop_ok (varprefix : string)
    (es : list ValidatingValueSpec) :
  forall (vals : list pyval) (no : nat),
    Tuple__validate_value_loop varprefix no es vals = Ok tt <->
    forall i element val,
      nth_error es i = Some element -> nth_error vals i = Some val ->
      validate_value element val (varprefix ++ "_" ++ str_of_nat (no + i)) = Ok tt.
Proof.
  induction es as [|element es IH]; intros vals no.
  - simpl. split; [|reflexivity]. intros _ i e v H. destruct i; discriminate.
  - destruct vals as [|val vals].
    + simpl. split; [|reflexivity]. intros _ i e v _ H. destruct i; discriminate.
    + cbn [Tuple__validate_value_loop]. rewrite seq_ok_iff, (IH vals (S no)). split.
      * intros [H0 Hrest] i e v He Hv. destruct i as [|i]; simpl in He, Hv.
        -- injection He as <-. injection Hv as <-. now rewrite Nat.add_0_r.
        -- rewrite Nat.add_succ_r. apply (Hrest i e v He Hv).
      * intro H. split.
        -- specialize (H 0%nat element val eq_refl eq_refl).
           now rewrite Nat.add_0_r in H.
        -- intros i e v He Hv. specialize (H (S i) e v He Hv).
           now rewrite Nat.add_succ_r in H.
Qed.

(** [Tuple._validate_value] never looks at the length of the value: a
    tuple passes exactly when each component that has an element at its
    position passes that element's [validate_value] under
    [varprefix + "_" + str(no)].  So the empty tuple passes, every
    shortening of a tuple that passes passes, and components beyond the
    elements are ignored; a value that cannot be iterated over, such as
    [None], raises [TypeError]. *)
Theorem Tuple_validate_value_ignores_length :
  forall (elements : list ValidatingValueSpec) (items : list pyval)
         (varprefix : string),
    (Tuple__validate_value elements (PTuple items) varprefix = Ok tt
     <-> forall i element val,
           nth_error elements i = Some element -> nth_error items i = Some val ->
           validate_value element val (varprefix ++ "_" ++ str_of_nat i) = Ok tt)
    /\ Tuple__validate_value elements (PTuple []) varprefix = Ok tt
    /\ (forall n,
           Tuple__validate_value elements (PTuple items) varprefix = Ok tt ->
           Tuple__validate_value elements (PTuple (firstn n items)) varprefix = Ok tt)
    /\ (forall more,
           (List.length elements <= List.length items)%nat ->
           Tuple__validate_value elements (PTuple (items ++ more)) varprefix
           = Tuple__validate_value elements (PTuple items) varprefix)
    /\ Tuple__validate_value elements PNone varprefix = Raise TypeError.
Proof.
  intros elements items varprefix. unfold Tuple__validate_value. cbn [py_iter bind].
  split; [|split; [|split; [|split]]].
  - apply (Tuple__validate_value_loop_ok varprefix elements items 0%nat).
  - destruct elements; reflexivity.
  - intros n H.
    apply (Tuple__validate_value_loop_ok varprefix elements (firstn n items) 0%nat).
    intros i element val He Hv.
    apply (proj1 (Tuple__validate_value_loop_ok varprefix elements items 0%nat) H
             i element val He).
    destruct (Nat.lt_ge_cases i n) as [Hlt|Hge].
    + now rewrite nth_error_firstn, (proj2 (Nat.ltb_lt i n) Hlt) in Hv.
    + assert (Hnone : nth_error (firstn n items) i = None).
      { apply nth_error_None.
        apply Nat.le_trans with n; [apply firstn_le_length | exact Hge]. }
      congruence.
  - intros more Hlen. generalize 0%nat. revert items Hlen.
    induction elements as [|e es IH]; intros items Hlen no; [destruct items; reflexivity|].
    destruct items as [|v items]; [simpl in Hlen; lia|].
    cbn [app Tuple__validate_value_loop]. simpl in Hlen.
    rewrite (IH items (proj2 (Nat.succ_le_mono _ _) Hlen) (S no)). reflexivity.
  - reflexivity.
Qed.

(** ** Dictionary._validate_value *)

Lemma Dictionary__validate_value_loop_ok (self : DictionaryAttrs)
    (d : list (pyval * pyval)) (varprefix : string)
    (elements : list (string * ValidatingValueSpec)) :
  Dictionary__validate_value_loop self (PDict d) varprefix elements = Ok tt <->
  forall param vs,
    In (param, vs) elements ->
    match dict_get d (PStr param) with
    | Some entry => validate_value vs entry (varprefix ++ "_p_" ++ param) = Ok tt
    | None => Dictionary_required self param = false
    end.
Proof.
  induction elements as [|[param vs] rest IH]; cbn [Dictionary__validate_value_loop].
  - split; [intros _ p v []|reflexivity].
  - cbn [py_str_in py_getitem_str bind]. unfold dict_contains.
    destruct (dict_get d (PStr param)) as [entry|] eqn:Hget; cbn [bind].
    + rewrite seq_ok_iff, IH. split.
      * intros [H0 Hrest] p v [Heq|Hin].
        -- injection Heq as <- <-. now rewrite Hget.
        -- now apply Hrest.
      * intro H. split.
        -- specialize (H param vs (or_introl eq_refl)). now rewrite Hget in H.
        -- intros p v Hin. apply H. now right.
    + destruct (Dictionary_required self param) eqn:Hreq.
      * split; [discriminate|]. intro H.
        specialize (H param vs (or_introl eq_refl)). rewrite Hget in H. congruence.
      * rewrite IH. split.
        -- intros Hrest p v [Heq|Hin].
           ++ injection Heq as <- <-. now rewrite Hget.
           ++ now apply Hrest.
        -- intros H p v Hin. apply H. now right.
Qed.

Lemma Dictionary__validate_value_loop_extra_key (self : DictionaryAttrs)
    (d : list (pyval * pyval)) (key v : pyval) (varprefix : string)
    (elements : list (string * ValidatingValueSpec)) :
  (forall param, In param (map fst elements) -> py_eq key (PStr param) = false) ->
  Dictionary__validate_value_loop self (PDict ((key, v) :: d)) varprefix elements
  = Dictionary__validate_value_loop self (PDict d) varprefix elements.
Proof.
  induction elements as [|[param vs] rest IH]; intro Hkey; [reflexivity|].
  cbn [Dictionary__validate_value_loop py_str_in py_getitem_str].
  unfold dict_contains. cbn [dict_get].
  rewrite (Hkey param (or_introl eq_refl)).
  rewrite IH; [reflexivity|]. intros p Hin. apply Hkey. now right.
Qed.

(** For a value whose migration is a dict, [Dictionary._validate_value]
    returns exactly when every declared key that is present passes its
    element's [validate_value] and every declared key that is absent is
    not required.  It never looks at a key that is not declared: adding
    such a key to the dict leaves the outcome as it was. *)
Theorem Dictionary_validate_value_ignores_unknown_keys :
  forall (self : DictionaryAttrs) (elements : list (string * ValidatingValueSpec))
         (d : list (pyval * pyval)) (varprefix : string),
    _migrate self = None ->
    (Dictionary__validate_value self elements (PDict d) varprefix = Ok tt
     <-> forall param vs,
           In (param, vs) elements ->
           match dict_get d (PStr param) with
           | Some entry =>
               validate_value vs entry (varprefix ++ "_p_" ++ param) = Ok tt
           | None => Dictionary_required self param = false
           end)
    /\ (forall param vs,
           In (param, vs) elements -> dict_get d (PStr param) = None ->
           Dictionary_required self param = true ->
           raises (Dictionary__validate_value self elements (PDict d) varprefix))
    /\ (forall key v,
           (forall param, In param (map fst elements) ->
                          py_eq key (PStr param) = false) ->
           Dictionary__validate_value self elements (PDict ((key, v) :: d)) varprefix
           = Dictionary__validate_value self elements (PDict d) varprefix).
Proof.
  intros self elements d varprefix Hmig.
  unfold Dictionary__validate_value, Dictionary_migrate. rewrite Hmig, !bind_Ok.
  split; [apply Dictionary__validate_value_loop_ok|]. split.
  - intros param vs Hin Hget Hreq.
    destruct (result_unit_cases
                (Dictionary__validate_value_loop self (PDict d) varprefix elements))
      as [H|[e H]]; [|now exists e].
    pose proof (proj1 (Dictionary__validate_value_loop_ok self d varprefix elements)
                  H param vs Hin) as Hp.
    rewrite Hget in Hp. congruence.
  - intros key v Hkey. rewrite bind_Ok.
    now apply Dictionary__validate_value_loop_extra_key.
Qed.

Lemma Dictionary_validate_value_witness :
  let self :=
    Dictionary_validating_attrs [("levels", Integer_validating None None None None)]
      (OptionalKeysBool false) None None None None in
  let elements := [("levels", Integer_validating None None None None)] in
  Dictionary__validate_value self elements
    (PDict [(PStr "unknown", PNone); (PStr "levels", PInt 3)]) "p"
  = Dictionary__validate_value self elements (PDict [(PStr "levels", PInt 3)]) "p".
Proof.
  cbv zeta.
  apply (proj2 (proj2 (Dictionary_validate_value_ignores_unknown_keys
                         (Dictionary_validating_attrs
                            [("levels", Integer_validating None None None None)]
                            (OptionalKeysBool false) None None None None)
                         [("levels", Integer_validating None None None None)]
                         [(PStr "levels", PInt 3)] "p" eq_refl))).
  intros param [<-|[]]. reflexivity.
Defined.

(** ** ListOfStrings._validate_value *)

Lemma ListOfStrings__validate_items_ok (inner : ValidatingValueSpec)
    (varprefix : string) (items : list pyval) :
  forall nr,
    ListOfStrings__validate_items inner varprefix nr items = Ok tt <->
    forall i s,
      nth_error items i = Some s ->
      validate_value inner s (varprefix ++ "_" ++ str_of_nat (nr + i)) = Ok tt.
Proof.
  induction items as [|s items IH]; intro nr; cbn [ListOfStrings__validate_items].
  - split; [|reflexivity]. intros _ i x H. destruct i; discriminate.
  - rewrite seq_ok_iff, (IH (S nr)). split.
    + intros [H0 Hrest] i x Hx. destruct i as [|i]; simpl in Hx.
      * injection Hx as <-. now rewrite Nat.add_0_r.
      * rewrite Nat.add_succ_r. now apply Hrest.
    + intro H. split.
      * specialize (H 0%nat s eq_refl). now rewrite Nat.add_0_r in H.
      * intros i x Hx. specialize (H (S i) x Hx). now rewrite Nat.add_succ_r in H.
Qed.

(** [ListOfStrings._validate_value] accepts a list exactly when it is not
    empty or [allow_empty] is set, it has at most [max_entries] items,
    and every item passes the inner valuespec under
    [varprefix + "_%d" % nr].  The empty list without [allow_empty] is
    reported under [varprefix + "_0"]; so the canonical value [[]] passes
    exactly when [allow_empty] is set and [max_entries] is not
    negative. *)
Theorem ListOfStrings_validate_value_correct :
  forall (inner : ValidatingValueSpec) (allow_empty : bool) (max_entries : option Z)
         (items : list pyval) (varprefix : string),
    let check := ListOfStrings__validate_value inner allow_empty max_entries in
    (check (PList items) varprefix = Ok tt
     <-> (items <> [] \/ allow_empty = true)
         /\ (forall m, max_entries = Some m -> Z.of_nat (List.length items) <= m)
         /\ (forall i s,
                nth_error items i = Some s ->
                validate_value inner s (varprefix ++ "_" ++ str_of_nat i) = Ok tt))
    /\ (allow_empty = false ->
        check (PList []) varprefix = Raise (MKUserError (varprefix ++ "_0")))
    /\ (check (PList []) varprefix = Ok tt
        <-> allow_empty = true /\ (forall m, max_entries = Some m -> 0 <= m)).
Proof.
  intros inner allow_empty max_entries items varprefix check.
  assert (Hmain : forall l,
    ListOfStrings__validate_value inner allow_empty max_entries (PList l) varprefix
    = Ok tt
    <-> (l <> [] \/ allow_empty = true)
        /\ (forall m, max_entries = Some m -> Z.of_nat (List.length l) <= m)
        /\ (forall i s,
               nth_error l i = Some s ->
               validate_value inner s (varprefix ++ "_" ++ str_of_nat i) = Ok tt)).
  { intro l. unfold ListOfStrings__validate_value. cbn [py_len py_iter bind].
    rewrite !seq_ok_iff, (ListOfStrings__validate_items_ok inner varprefix l 0%nat).
    cbn [Nat.add].
    assert (Hempty :
      (if Nat.eqb (List.length l) 0 && negb allow_empty
       then Raise (MKUserError (varprefix ++ "_0")) else Ok tt) = Ok tt
      <-> l <> [] \/ allow_empty = true).
    { destruct l, allow_empty; simpl; split; intro H; try discriminate; auto;
        try reflexivity.
      - destruct H as [H|H]; [now contradiction H | discriminate].
      - left. discriminate. }
    assert (Hmax :
      match max_entries with
      | Some m =>
          if m <? Z.of_nat (List.length l)
          then Raise (MKUserError (varprefix ++ "_" ++ fmt_d m)) else Ok tt
      | None => Ok tt
      end = Ok tt
      <-> forall m, max_entries = Some m -> Z.of_nat (List.length l) <= m).
    { destruct max_entries as [m|]; [|split; [discriminate | reflexivity]].
      destruct (m <? Z.of_nat (List.length l)) eqn:Hlt.
      - apply Z.ltb_lt in Hlt. split; [discriminate|].
        intro H. specialize (H m eq_refl). lia.
      - apply Z.ltb_ge in Hlt. split; [|reflexivity].
        intros _ m' Heq. inversion Heq. subst. lia. }
    rewrite Hempty, Hmax. tauto. }
  split; [apply Hmain|]. split.
  - intros ->. reflexivity.
  - unfold check. rewrite (Hmain []). simpl. split.
    + intros [[H|H] [Hm _]]; [now contradiction H|]. auto.
    + intros [Ha Hm]. split; [now right|]. split; [exact Hm|].
      intros i s H. destruct i; discriminate.
Qed.

(** ** DropdownChoice._validate_value *)

(** For a value that holds no NaN, where [py_eq] is [==] whatever
    objects the value shares with the choices: with
    [invalid_choice="complain"] and no [no_preselect], a
    [DropdownChoice] over a list of choices accepts exactly the values
    equal to the value of some choice; with any other [invalid_choice] it
    accepts every value.  With [no_preselect] and a [no_preselect_value]
    that compares equal to itself, which a NaN does not, the value
    [no_preselect_value], then the canonical value, is refused whatever
    [invalid_choice] is; and without choices the canonical value [None]
    is refused under ["complain"]. *)
Theorem DropdownChoice_validate_value_correct :
  forall (choices : list (pyval * string)) (no_preselect_value : pyval)
         (no_preselect_title : string) (value : pyval) (varprefix : string),
    let check := DropdownChoice__validate_value (ChoicesList choices) in
    holds_nan value = false ->
    (check false no_preselect_value no_preselect_title (Some "complain") value
       varprefix = Ok tt
     <-> exists entry, In entry choices /\ py_eq (fst entry) value = true)
    /\ (check false no_preselect_value no_preselect_title (Some "complain") value
          varprefix = Ok tt
        \/ check false no_preselect_value no_preselect_title (Some "complain") value
             varprefix = Raise (MKUserError varprefix))
    /\ (forall invalid_choice,
           is_complain invalid_choice = false ->
           check false no_preselect_value no_preselect_title invalid_choice value
             varprefix = Ok tt)
    /\ (forall invalid_choice,
           py_eq no_preselect_value no_preselect_value = true ->
           DropdownChoice_canonical_value (ChoicesList choices) true
             no_preselect_value no_preselect_title = Ok no_preselect_value
           /\ check true no_preselect_value no_preselect_title invalid_choice
                no_preselect_value varprefix = Raise (MKUserError varprefix))
    /\ (choices = [] ->
        DropdownChoice_canonical_value (ChoicesList choices) false
          no_preselect_value no_preselect_title = Ok PNone
        /\ check false no_preselect_value no_preselect_title (Some "complain") PNone
             varprefix = Raise (MKUserError varprefix)).
Proof.
  intros choices npv npt value varprefix check _. unfold check.
  unfold DropdownChoice__validate_value, DropdownChoice__value_is_invalid,
    DropdownChoice_choices.
  change (is_complain (Some "complain")) with true.
  cbn [andb bind].
  split; [|split; [|split; [|split]]].
  - destruct (existsb (fun entry => py_eq (fst entry) value) choices) eqn:Hex;
      cbn [negb].
    + split; [|reflexivity]. intros _. apply existsb_exists in Hex. exact Hex.
    + split; [discriminate|]. intros (entry & Hin & Heq).
      assert (existsb (fun entry => py_eq (fst entry) value) choices = true)
        by (apply existsb_exists; eauto).
      congruence.
  - destruct (existsb (fun entry => py_eq (fst entry) value) choices); cbn [negb]; auto.
  - intros invalid_choice Hic. rewrite Hic. reflexivity.
  - intros invalid_choice Hrefl. split; [reflexivity|]. now rewrite Hrefl.
  - intros ->. split; reflexivity.
Qed.

(** The choices ["a"] and ["b"], with ["-"] as the value of no
    selection: ["b"] is accepted and ["c"] is not; ["-"] is the
    canonical value and is refused. *)
Lemma DropdownChoice_validate_value_witness :
  let choices := [(PStr "a", "A"); (PStr "b", "B")] in
  let check := DropdownChoice__validate_value (ChoicesList choices) in
  check false (PStr "-") "none" (Some "complain") (PStr "b") "p" = Ok tt
  /\ check false (PStr "-") "none" (Some "complain") (PStr "c") "p"
     = Raise (MKUserError "p")
  /\ DropdownChoice_canonical_value (ChoicesList choices) true (PStr "-") "none"
     = Ok (PStr "-")
  /\ check true (PStr "-") "none" (Some "replace") (PStr "-") "p"
     = Raise (MKUserError "p").
Proof.
  cbv zeta.
  pose proof (DropdownChoice_validate_value_correct
                [(PStr "a", "A"); (PStr "b", "B")] (PStr "-") "none" (PStr "b") "p"
                eq_refl) as Hb.
  pose proof (DropdownChoice_validate_value_correct
                [(PStr "a", "A"); (PStr "b", "B")] (PStr "-") "none" (PStr "c") "p"
                eq_refl) as Hc.
  cbv zeta in Hb, Hc.
  destruct Hb as (Hiff & _ & _ & Hpre & _).
  destruct Hc as (Hiff' & Hcases & _).
  split; [|split; [|split]].
  - apply Hiff. exists (PStr "b", "B"). split; [right; left; reflexivity|reflexivity].
  - destruct Hcases as [Hok|Hr]; [|exact Hr].
    apply Hiff' in Hok. destruct Hok as (entry & [<-|[<-|[]]] & Heq); discriminate.
  - exact (proj1 (Hpre (Some "replace") eq_refl)).
  - exact (proj2 (Hpre (Some "replace") eq_refl)).
Defined.

(** ** TextAscii._validate_value *)

Lemma guard_ok (b : bool) (e : exc) :
  (if b then Raise e else Ok tt) = Ok tt <-> b = false.
Proof. destruct b; split; congruence. Qed.

Lemma only_MKUserError_guard (b : bool) (varprefix : string) :
  only_MKUserError varprefix (if b then Raise (MKUserError varprefix) else Ok tt).
Proof. destruct b; [now right | now left]. Qed.

Lemma only_MKUserError_seq (varprefix : string) (c k : result unit) :
  only_MKUserError varprefix c -> only_MKUserError varprefix k ->
  only_MKUserError varprefix (c ;;; k).
Proof. intros [->| ->] Hk; [exact Hk | now right]. Qed.

Lemma TextAscii_forbidden_loop_str (cs : list string) (s varprefix : string) :
  (TextAscii_forbidden_loop cs (PStr s) varprefix = Ok tt <->
   forall c, In c cs -> is_substring c s = false)
  /\ only_MKUserError varprefix (TextAscii_forbidden_loop cs (PStr s) varprefix).
Proof.
  induction cs as [|c cs [IH IHonly]]; cbn [TextAscii_forbidden_loop py_str_in bind].
  - split; [|now left]. split; [intros _ c [] | reflexivity].
  - destruct (is_substring c s) eqn:Hc.
    + split; [|now right]. split; [discriminate|].
      intro H. specialize (H c (or_introl eq_refl)). congruence.
    + split; [|exact IHonly]. rewrite IH. split.
      * intros H x [<-|Hx]; [exact Hc | now apply H].
      * intros H x Hx. apply H. now right.
Qed.

Lemma str_chars_single (s c : string) :
  In c (str_chars s) -> exists b, c = String b "".
Proof.
  induction s as [|b s IH]; simpl; [intros []|].
  intros [<-|H]; [now exists b | now apply IH].
Qed.

Section TextAsciiFacts.

Variable forbidden_chars : string.
Variables none_is_empty allow_empty : bool.
Variable regex : option (string -> bool).
Variable minlen : option Z.
Variable varprefix : string.

Lemma TextAscii_check_forbidden (t : string) :
  (match forbidden_chars with
   | EmptyString => Ok tt
   | String _ _ =>
       TextAscii_forbidden_loop (str_chars forbidden_chars) (PStr t) varprefix
   end = Ok tt
   <-> forall c, In c (str_chars forbidden_chars) -> is_substring c t = false)
  /\ only_MKUserError varprefix
       match forbidden_chars with
       | EmptyString => Ok tt
       | String _ _ =>
           TextAscii_forbidden_loop (str_chars forbidden_chars) (PStr t) varprefix
       end.
Proof.
  destruct forbidden_chars as [|c fc].
  - split; [|now left]. simpl. split; [intros _ x [] | reflexivity].
  - apply TextAscii_forbidden_loop_str.
Qed.

Lemma TextAscii_check_strip (t : string) :
  ((if negb allow_empty
    then stripped <- py_strip (PStr t) ;;
         if py_eq stripped (PStr "") then Raise (MKUserError varprefix) else Ok tt
    else Ok tt) = Ok tt
   <-> (allow_empty = false -> str_strip t <> ""))
  /\ only_MKUserError varprefix
       (if negb allow_empty
        then stripped <- py_strip (PStr t) ;;
             if py_eq stripped (PStr "") then Raise (MKUserError varprefix) else Ok tt
        else Ok tt).
Proof.
  destruct allow_empty; cbn [negb py_strip bind].
  - split; [|now left]. split; [discriminate | reflexivity].
  - rewrite py_eq_PStr. split; [|apply only_MKUserError_guard].
    rewrite guard_ok. destruct (String.eqb_spec (str_strip t) "") as [E|E].
    + split; [discriminate|]. intro H. now contradiction (H eq_refl).
    + split; [intros _ _; exact E | reflexivity].
Qed.

Lemma TextAscii_check_regex (t : string) :
  ((if py_truthy (PStr t)
    then match regex with
         | Some r =>
             matched <- regex_match r (PStr t) ;;
             if negb matched then Raise (MKUserError varprefix) else Ok tt
         | None => Ok tt
         end
    else Ok tt) = Ok tt
   <-> forall r, regex = Some r -> t <> "" -> r t = true)
  /\ only_MKUserError varprefix
       (if py_truthy (PStr t)
        then match regex with
             | Some r =>
                 matched <- regex_match r (PStr t) ;;
                 if negb matched then Raise (MKUserError varprefix) else Ok tt
             | None => Ok tt
             end
        else Ok tt).
Proof.
  destruct t as [|a t]; cbn [py_truthy].
  - split; [|now left]. split; [|reflexivity]. intros _ r _ H. now contradiction H.
  - destruct regex as [r|]; cbn [regex_match bind].
    + split; [|apply only_MKUserError_guard].
      rewrite guard_ok. destruct (r (String a t)) eqn:Hr; cbn [negb].
      * split; [|reflexivity]. intros _ r' Heq _. inversion Heq. subst. exact Hr.
      * split; [discriminate|]. intro H.
        assert (Habs : r (String a t) = true) by (apply H; [reflexivity | discriminate]).
        congruence.
    + split; [|now left]. split; [discriminate | reflexivity].
Qed.

Lemma TextAscii_check_minlen (t : string) :
  (match minlen with
   | Some m =>
       n <- py_len (PStr t) ;;
       if Z.of_nat n <? m then Raise (MKUserError varprefix) else Ok tt
   | None => Ok tt
   end = Ok tt
   <-> forall m, minlen = Some m -> m <= Z.of_nat (String.length t))
  /\ only_MKUserError varprefix
       match minlen with
       | Some m =>
           n <- py_len (PStr t) ;;
           if Z.of_nat n <? m then Raise (MKUserError varprefix) else Ok tt
       | None => Ok tt
       end.
Proof.
  destruct minlen as [m|]; cbn [py_len bind].
  - split; [|apply only_MKUserError_guard]. rewrite guard_ok, Z.ltb_ge. split.
    + intros H m' Heq. inversion Heq. subst. exact H.
    + intro H. exact (H m eq_refl).
  - split; [|now left]. split; [discriminate | reflexivity].
Qed.

Lemma TextAscii__validate_value_str (t : string) :
  (TextAscii__validate_value forbidden_chars none_is_empty allow_empty regex minlen
     (PStr t) varprefix = Ok tt
   <-> is_ascii_str t = true
       /\ (forall c, In c (str_chars forbidden_chars) -> is_substring c t = false)
       /\ (none_is_empty = true -> t <> "")
       /\ (allow_empty = false -> str_strip t <> "")
       /\ (forall r, regex = Some r -> t <> "" -> r t = true)
       /\ (forall m, minlen = Some m -> m <= Z.of_nat (String.length t)))
  /\ only_MKUserError varprefix
       (TextAscii__validate_value forbidden_chars none_is_empty allow_empty regex
          minlen (PStr t) varprefix).
Proof.
  unfold TextAscii__validate_value. split.
  - rewrite !seq_ok_iff.
    rewrite (proj1 (TextAscii_check_forbidden t)), (proj1 (TextAscii_check_strip t)),
      (proj1 (TextAscii_check_regex t)), (proj1 (TextAscii_check_minlen t)).
    rewrite guard_ok, py_eq_PStr.
    assert (H1 : (if is_ascii_str t then Ok tt else Raise (MKUserError varprefix))
                 = Ok tt <-> is_ascii_str t = true).
    { destruct (is_ascii_str t); split; congruence. }
    assert (H3 : none_is_empty && String.eqb t "" = false
                 <-> (none_is_empty = true -> t <> "")).
    { destruct none_is_empty; cbn [andb].
      - destruct (String.eqb_spec t "") as [E|E].
        + split; [discriminate|]. intro H. now contradiction (H eq_refl).
        + split; [intros _ _; exact E | reflexivity].
      - split; [discriminate | reflexivity]. }
    rewrite H1, H3. tauto.
  - repeat apply only_MKUserError_seq.
    + destruct (is_ascii_str t); [now left | now right].
    + apply TextAscii_check_forbidden.
    + apply only_MKUserError_guard.
    + apply TextAscii_check_strip.
    + apply TextAscii_check_regex.
    + apply TextAscii_check_minlen.
Qed.

End TextAsciiFacts.

(** [TextAscii._validate_value] accepts a str exactly when all its bytes
    are ASCII, no forbidden character occurs in it, it is not empty
    under [none_is_empty], its stripped form is not empty unless
    [allow_empty], it matches the regex unless it is empty, and it has
    at least [minlen] characters; a str it refuses raises
    [MKUserError(varprefix)].  So the canonical value [""] passes
    exactly when [allow_empty] is set, [none_is_empty] is not, and
    [minlen] is not positive.  On [None], which the datatype check lets
    through under [none_is_empty], it raises [TypeError] when there are
    forbidden characters, else [AttributeError] when [allow_empty] is
    not set, else [TypeError] when [minlen] is set, and returns
    otherwise. *)
Theorem TextAscii_validate_value_correct :
  forall (forbidden_chars : string) (none_is_empty allow_empty : bool)
         (regex : option (string -> bool)) (minlen : option Z)
         (s : string) (varprefix : string),
    let check :=
      TextAscii__validate_value forbidden_chars none_is_empty allow_empty regex
        minlen in
    (check (PStr s) varprefix = Ok tt
     <-> is_ascii_str s = true
         /\ (forall c, In c (str_chars forbidden_chars) -> is_substring c s = false)
         /\ (none_is_empty = true -> s <> "")
         /\ (allow_empty = false -> str_strip s <> "")
         /\ (forall r, regex = Some r -> s <> "" -> r s = true)
         /\ (forall m, minlen = Some m -> m <= Z.of_nat (String.length s)))
    /\ only_MKUserError varprefix (check (PStr s) varprefix)
    /\ (check (PStr "") varprefix = Ok tt
        <-> allow_empty = true /\ none_is_empty = false
            /\ (forall m, minlen = Some m -> m <= 0))
    /\ check PNone varprefix
       = match forbidden_chars with
         | String _ _ => Raise TypeError
         | EmptyString =>
             if negb allow_empty then Raise AttributeError
             else match minlen with
                  | Some _ => Raise TypeError
                  | None => Ok tt
                  end
         end.
Proof.
  intros forbidden_chars none_is_empty allow_empty regex minlen s varprefix check.
  unfold check.
  split; [apply TextAscii__validate_value_str|].
  split; [apply TextAscii__validate_value_str|]. split.
  - rewrite (proj1 (TextAscii__validate_value_str forbidden_chars none_is_empty
                      allow_empty regex minlen varprefix "")). split.
    + intros (_ & _ & Hn & Ha & _ & Hm). split; [|split].
      * destruct allow_empty; [reflexivity|]. now contradiction (Ha eq_refl).
      * destruct none_is_empty; [|reflexivity]. now contradiction (Hn eq_refl).
      * intros m Heq. specialize (Hm m Heq). simpl in Hm. lia.
    + intros (Ha & Hn & Hm). split; [reflexivity|]. split.
      { intros c Hc. destruct (str_chars_single _ _ Hc) as [b ->]. reflexivity. }
      split; [congruence|]. split; [congruence|]. split.
      { intros r _ H. now contradiction H. }
      intros m Heq. specialize (Hm m Heq). simpl. lia.
  - unfold TextAscii__validate_value. cbn [bind].
    destruct forbidden_chars as [|c fc]; [|reflexivity]. cbn [bind].
    replace (none_is_empty && py_eq PNone (PStr "")) with false
      by (destruct none_is_empty; reflexivity).
    cbn [bind]. destruct allow_empty; cbn [negb py_strip bind]; [|reflexivity].
    cbn [py_truthy bind]. destruct minlen; reflexivity.
Qed.

(** ** Integer.value_to_text *)

Lemma str_take_drop (n : nat) (s : string) : str_take n s ++ str_drop n s = s.
Proof.
  revert s. induction n as [|n IH]; intro s; [reflexivity|].
  destruct s as [|c s]; [reflexivity|]. simpl. now rewrite IH.
Qed.

Lemma str_take_length (n : nat) (s : string) :
  (n <= String.length s)%nat -> String.length (str_take n s) = n.
Proof.
  revert s. induction n as [|n IH]; intros s H; [reflexivity|].
  destruct s as [|c s]; simpl in *; [lia|]. rewrite IH; [reflexivity | lia].
Qed.

Lemma str_drop_length (n : nat) (s : string) :
  String.length (str_drop n s) = (String.length s - n)%nat.
Proof.
  revert s. induction n as [|n IH]; intro s; simpl; [lia|].
  destruct s as [|c s]; simpl; [reflexivity | apply IH].
Qed.

Lemma str_append_assoc (a b c : string) : (a ++ b) ++ c = a ++ b ++ c.
Proof.
  induction a as [|x a IH]; simpl; [reflexivity | now rewrite IH].
Qed.

Lemma str_concat_app (l l' : list string) :
  str_concat (l ++ l')%list = str_concat l ++ str_concat l'.
Proof.
  induction l as [|x l IH]; simpl; [reflexivity|].
  now rewrite IH, str_append_assoc.
Qed.

Lemma Integer_sep_loop_groups (sep : string) :
  forall (fuel : nat) (rest sepped : string),
    (String.length rest <= 3 + 3 * fuel)%nat ->
    exists head groups,
      rest = head ++ str_concat groups
      /\ Forall (fun g => String.length g = 3%nat) groups
      /\ (String.length head <= 3)%nat
      /\ (rest <> "" -> (1 <= String.length head)%nat)
      /\ Integer_sep_loop fuel sep rest sepped
         = (head, str_concat (map (append sep) groups) ++ sepped).
Proof.
  induction fuel as [|fuel IH]; intros rest sepped Hlen.
  - exists rest, []. simpl. rewrite append_empty_r.
    repeat split; [constructor | lia |].
    intro H. destruct rest; [congruence | simpl; lia].
  - cbn [Integer_sep_loop].
    destruct (3 <? String.length rest)%nat eqn:Hgt.
    + apply Nat.ltb_lt in Hgt.
      set (n := (String.length rest - 3)%nat).
      assert (Htake : String.length (str_take n rest) = n)
        by (apply str_take_length; unfold n; lia).
      destruct (IH (str_take n rest) (sep ++ str_drop n rest ++ sepped))
        as (head & groups & Hrest & Hgroups & Hhead & Hne & Hloop).
      { rewrite Htake. unfold n. lia. }
      exists head, (groups ++ [str_drop n rest])%list.
      split; [|split; [|split; [|split]]].
      * rewrite str_concat_app. simpl. rewrite append_empty_r.
        rewrite <- str_append_assoc, <- Hrest. symmetry. apply str_take_drop.
      * apply Forall_app. split; [exact Hgroups|].
        constructor; [|constructor]. rewrite str_drop_length. unfold n. lia.
      * exact Hhead.
      * intros _. apply Hne. intro H. rewrite H in Htake. simpl in Htake.
        unfold n in Htake. lia.
      * rewrite Hloop, map_app, str_concat_app. simpl.
        rewrite append_empty_r, !str_append_assoc. reflexivity.
    + apply Nat.ltb_ge in Hgt. exists rest, []. simpl. rewrite append_empty_r.
      repeat split; [constructor | lia |].
      intro H. destruct rest; [congruence | simpl; lia].
Qed.

(** With a thousands separator, [Integer.value_to_text] cuts the
    formatted number from the right into groups of three characters,
    leaving a head of one to three characters (none only for the empty
    text), and puts the separator before each group; the sign of a
    negative number counts as a character of the head.  A unit follows
    behind ["&nbsp;"]; without separator the text stays as it is. *)
Theorem Integer_value_to_text_groups :
  forall (text : string) (c : ascii) (sep : string) (unit : string),
    (exists head groups,
        text = head ++ str_concat groups
        /\ Forall (fun g => String.length g = 3%nat) groups
        /\ (String.length head <= 3)%nat
        /\ (text <> "" -> (1 <= String.length head)%nat)
        /\ Integer_value_to_text text (Some (String c sep)) ""
           = head ++ str_concat (map (append (String c sep)) groups))
    /\ (unit <> "" ->
        Integer_value_to_text text (Some (String c sep)) unit
        = Integer_value_to_text text (Some (String c sep)) "" ++ "&nbsp;" ++ unit)
    /\ Integer_value_to_text text None "" = text
    /\ Integer_value_to_text text (Some "") "" = text.
Proof.
  intros text c sep unit. split; [|split; [|split; reflexivity]].
  - destruct (Integer_sep_loop_groups (String c sep) (String.length text) text "")
      as (head & groups & Htext & Hgroups & Hhead & Hne & Hloop); [lia|].
    exists head, groups. repeat split; try assumption.
    unfold Integer_value_to_text. rewrite Hloop. now rewrite append_empty_r.
  - intro Hunit. unfold Integer_value_to_text.
    destruct (Integer_sep_loop (String.length text) (String c sep) text "").
    destruct unit; [congruence | reflexivity].
Qed.

Example Integer_value_to_text_million :
  Integer_value_to_text (fmt_d 1234567) (Some ".") "B" = "1.234.567&nbsp;B".
Proof. reflexivity. Qed.

Example Integer_value_to_text_negative :
  Integer_value_to_text (fmt_d (-123456)) (Some ".") "" = "-.123.456".
Proof. reflexivity. Qed.

(** ** Age.render_input and Age.from_html_vars *)

Lemma str_eqb_append (p a b : string) : String.eqb (p ++ a) (p ++ b) = String.eqb a b.
Proof.
  induction p as [|c p IH]; simpl; [reflexivity|].
  now rewrite Ascii.eqb_refl.
Qed.

(** Reading back with [from_html_vars] the number fields [render_input]
    shows for a value gives the value again when the seconds are
    displayed, and otherwise the value rounded down to a multiple of the
    smallest unit displayed: what a hidden larger unit holds is taken
    over into the next field, what a hidden smaller unit holds is
    lost. *)
Theorem Age_render_input_round_trip :
  forall (display : list string) (varprefix : string) (value : Z),
    let back :=
      Age_from_html_vars
        (request_of_fields (Age_render_input display varprefix value)) varprefix in
    (str_in "seconds" display = true -> back = value)
    /\ (str_in "seconds" display = false -> str_in "minutes" display = true ->
        back = value - value mod 60)
    /\ (str_in "seconds" display = false -> str_in "minutes" display = false ->
        str_in "hours" display = true -> back = value - value mod 3600)
    /\ (str_in "seconds" display = false -> str_in "minutes" display = false ->
        str_in "hours" display = false -> str_in "days" display = true ->
        back = value - value mod 86400)
    /\ (str_in "seconds" display = false -> str_in "minutes" display = false ->
        str_in "hours" display = false -> str_in "days" display = false ->
        back = 0).
Proof.
  intros display varprefix value back. unfold back.
  unfold Age_render_input, divmod, Age_from_html_vars.
  change (60 * 60 * 24) with 86400. change (60 * 60) with 3600.
  cbn [Age_render_loop].
  destruct (str_in "days" display), (str_in "hours" display),
    (str_in "minutes" display), (str_in "seconds" display);
    cbn [request_of_fields]; rewrite ?str_eqb_append;
    cbn [append String.eqb Ascii.eqb Bool.eqb andb];
    repeat split; intros; try discriminate;
    Z.to_euclidean_division_equations; lia.
Qed.

Example Age_render_input_hours_only :
  Age_render_input ["hours"] "age" 90061 = [("age_hours", 25)].
Proof. reflexivity. Qed.

(** ** The JVM threads parameters *)

(** The levels of the JVM threads rule are a pair of Integral values: the
    datatype check accepts exactly the 2-tuples of ints or bools, the
    default value is [(80, 100)] and the canonical value [(0, 0)], and
    [validate_value] accepts every pair of ints, in whatever order the
    two levels are.  The item of the rule is a [TextAscii] that must not
    be empty: its canonical value [""] is refused by its own
    [validate_value], which accepts exactly the ASCII strings that are
    not blank. *)
Theorem jvm_threads_parameters :
  forall (value : pyval) (varprefix : string),
    (validate_datatype (as_ValueSpec _parameter_valuespec_jvm_threads) value varprefix
     = Ok tt
     <-> exists a b,
           value = PTuple [a; b]
           /\ isinstance_Integral a = true /\ isinstance_Integral b = true)
    /\ default_value (as_ValueSpec _parameter_valuespec_jvm_threads)
       = Ok (PTuple [PInt 80; PInt 100])
    /\ canonical_value (as_ValueSpec _parameter_valuespec_jvm_threads)
       = Ok (PTuple [PInt 0; PInt 0])
    /\ (forall a b,
           validate_value _parameter_valuespec_jvm_threads (PTuple [PInt a; PInt b])
             varprefix = Ok tt)
    /\ canonical_value (as_ValueSpec _item_spec_jvm_threads) = Ok (PStr "")
    /\ validate_value _item_spec_jvm_threads (PStr "") varprefix
       = Raise (MKUserError varprefix)
    /\ (forall s,
           validate_value _item_spec_jvm_threads (PStr s) varprefix = Ok tt
           <-> is_ascii_str s = true /\ str_strip s <> "").
Proof.
  intros value varprefix.
  split; [|split; [reflexivity|split; [reflexivity|split; [reflexivity|
          split; [reflexivity|split; [reflexivity|]]]]]].
  - cbn [as_ValueSpec _parameter_valuespec_jvm_threads Tuple_validating map
         Integer_validating validate_datatype Tuple].
    unfold Tuple_validate_datatype. split.
    + intro H. destruct value as [| | | | | |vals|]; try discriminate.
      destruct vals as [|a [|b [|c vals]]]; try discriminate.
      cbn [List.length Nat.eqb negb Tuple_validate_elements validate_datatype Integer]
        in H.
      apply seq_ok_iff in H. destruct H as [Ha H].
      apply seq_ok_iff in H. destruct H as [Hb _].
      unfold Integer_validate_datatype in Ha, Hb.
      exists a, b. split; [reflexivity|].
      destruct (isinstance_Integral a); [|discriminate].
      destruct (isinstance_Integral b); [|discriminate]. auto.
    + intros (a & b & -> & Ha & Hb).
      cbn [List.length Nat.eqb negb Tuple_validate_elements validate_datatype Integer].
      unfold Integer_validate_datatype. now rewrite Ha, Hb.
  - intro s. unfold validate_value, ValueSpec_validate_value.
    cbn [_validate_value _validate _item_spec_jvm_threads TextAscii_validating
         ValueSpec__custom_validate].
    rewrite seq_ok_iff.
    rewrite (proj1 (TextAscii__validate_value_str "" false false None None
                      varprefix s)).
    split.
    + intros [(Hascii & _ & _ & Hstrip & _) _]. split; [exact Hascii|].
      now apply Hstrip.
    + intros [Hascii Hstrip]. split; [|reflexivity].
      split; [exact Hascii|]. split; [intros c []|]. split; [discriminate|].
      split; [intros _; exact Hstrip|]. split; discriminate.
Qed.

(** ** Dictionary.__init__ *)

(** With [optional_keys] given as a list that is not empty, the required
    keys of a [Dictionary] are exactly the declared names that are not
    in the list, whatever [required_keys] says; with an empty list or
    [False] every key is required; with [True] the required keys are
    those of [required_keys]. *)
Theorem Dictionary_init_required_keys :
  forall (elements : list (string * ValueSpec))
         (required_keys ignored_keys default_keys : option (list string))
         (migrate : option (pyval -> result pyval)) (param : string),
    let init optional_keys :=
      Dictionary___init__ elements optional_keys required_keys ignored_keys
        default_keys migrate in
    (forall k l,
        Dictionary_required (init (OptionalKeysList (k :: l))) param = true
        <-> In param (map fst elements) /\ ~ In param (k :: l))
    /\ Dictionary_required (init (OptionalKeysList [])) param = true
    /\ Dictionary_required (init (OptionalKeysBool false)) param = true
    /\ (Dictionary_required (init (OptionalKeysBool true)) param = true
        <-> exists keys, required_keys = Some keys /\ In param keys).
Proof.
  intros elements rk ik dk mig param init. unfold init, Dictionary_required.
  split; [|split; [reflexivity|split; [reflexivity|]]].
  - intros k l. cbn [Dictionary___init__ _optional_keys _required_keys negb orb].
    rewrite str_in_In, in_map_iff. split.
    + intros (e & <- & He). apply filter_In in He. destruct He as [He Hk].
      split; [apply in_map; exact He|].
      intro Hin. apply str_in_In in Hin. rewrite Hin in Hk. discriminate.
    + intros [Hin Hnot]. apply in_map_iff in Hin. destruct Hin as (e & <- & He).
      exists e. split; [reflexivity|]. apply filter_In. split; [exact He|].
      destruct (str_in (fst e) (k :: l)) eqn:Hs; [|reflexivity].
      apply str_in_In in Hs. now contradiction Hnot.
  - cbn [Dictionary___init__ _optional_keys _required_keys negb orb].
    rewrite str_in_In. destruct rk as [[|k l]|]; simpl; split.
    + intros [].
    + intros (keys & Heq & Hin). inversion Heq. subst. exact Hin.
    + intro H. exists (k :: l). auto.
    + intros (keys & Heq & Hin). inversion Heq. subst. exact Hin.
    + intros [].
    + intros (keys & Heq & _). discriminate.
Qed.

(** ** Alternative._validate_value *)

Lemma seq_Ok_r (c : result unit) : (c ;;; Ok tt) = c.
Proof. destruct c as [[]|e]; reflexivity. Qed.

Lemma Alternative_first_match_none (elements : list ValueSpecObject) (value : pyval) :
  (forall o, In o elements ->
             raises (validate_datatype (as_ValueSpec (object_methods o)) value "")) ->
  Alternative_first_match elements value = None.
Proof.
  induction elements as [|v rest IH]; intro H; [reflexivity|].
  simpl. destruct (H v (or_introl eq_refl)) as [e ->]. apply IH.
  intros o Ho. apply H. now right.
Qed.

Lemma Alternative_first_match_some (elements : list ValueSpecObject) (value : pyval) :
  forall i o,
    nth_error elements i = Some o ->
    validate_datatype (as_ValueSpec (object_methods o)) value "" = Ok tt ->
    (forall j o', (j < i)%nat -> nth_error elements j = Some o' ->
                  raises (validate_datatype (as_ValueSpec (object_methods o')) value "")) ->
    Alternative_first_match elements value = Some o.
Proof.
  induction elements as [|v rest IH]; intros i o Hnth Hok Hbefore.
  - destruct i; discriminate.
  - destruct i as [|i]; simpl in Hnth.
    + injection Hnth as ->. simpl. now rewrite Hok.
    + simpl. destruct (Hbefore 0%nat v (Nat.lt_0_succ i) eq_refl) as [e ->].
      apply (IH i o Hnth Hok). intros j o' Hj Hn.
      apply (Hbefore (S j) o'); [lia | exact Hn].
Qed.

Lemma Alternative__validate_value_loop_none (value : pyval) (varprefix : string)
    (elements : list ValueSpecObject) :
  forall nr, Alternative__validate_value_loop None value varprefix nr elements = Ok tt.
Proof.
  induction elements as [|v rest IH]; intro nr; [reflexivity|]. simpl. apply IH.
Qed.

Lemma Alternative__validate_value_loop_other (o : ValueSpecObject) (value : pyval)
    (varprefix : string) (elements : list ValueSpecObject) :
  ~ In (object_id o) (map object_id elements) ->
  forall nr,
    Alternative__validate_value_loop (Some o) value varprefix nr elements = Ok tt.
Proof.
  induction elements as [|v rest IH]; intros Hnot nr; [reflexivity|].
  cbn [Alternative__validate_value_loop].
  destruct (Nat.eqb_spec (object_id o) (object_id v)) as [E|E].
  - exfalso. apply Hnot. left. now symmetry.
  - cbn [bind]. apply IH. intro H. apply Hnot. now right.
Qed.

Lemma Alternative__validate_value_loop_at (o : ValueSpecObject) (value : pyval)
    (varprefix : string) (elements : list ValueSpecObject) :
  NoDup (map object_id elements) ->
  forall i nr,
    nth_error elements i = Some o ->
    Alternative__validate_value_loop (Some o) value varprefix nr elements
    = validate_value (object_methods o) value
        (varprefix ++ "_" ++ str_of_nat (nr + i)).
Proof.
  induction elements as [|v rest IH]; intros Hnd i nr Hnth.
  - destruct i; discriminate.
  - inversion Hnd as [|x l Hnotin Hnd']; subst.
    cbn [Alternative__validate_value_loop]. destruct i as [|i]; simpl in Hnth.
    + injection Hnth as ->. rewrite Nat.eqb_refl, Nat.add_0_r.
      rewrite (Alternative__validate_value_loop_other o value varprefix rest Hnotin).
      apply seq_Ok_r.
    + destruct (Nat.eqb_spec (object_id o) (object_id v)) as [E|E].
      * exfalso. apply Hnotin. rewrite <- E. apply in_map.
        now apply nth_error_In with i.
      * cbn [bind]. rewrite (IH Hnd' i (S nr) Hnth). now rewrite Nat.add_succ_r.
Qed.

(** Without a [match] function, [Alternative._validate_value] validates
    nothing when no element accepts the datatype of the value: it
    returns, whatever the value is.  When the elements are distinct
    objects and element [i] is the first to accept the datatype, the
    outcome is that of this element's [validate_value] under
    [varprefix + "_%d" % i].  With a [match] function whose index is out
    of range, it raises [IndexError]. *)
Theorem Alternative_validate_value_correct :
  forall (elements : list ValueSpecObject) (value : pyval) (varprefix : string),
    ((forall o, In o elements ->
                raises (validate_datatype (as_ValueSpec (object_methods o)) value ""))
     -> Alternative__validate_value elements None value varprefix = Ok tt)
    /\ (NoDup (map object_id elements) ->
        forall i o,
          nth_error elements i = Some o ->
          validate_datatype (as_ValueSpec (object_methods o)) value "" = Ok tt ->
          (forall j o', (j < i)%nat -> nth_error elements j = Some o' ->
                        raises (validate_datatype (as_ValueSpec (object_methods o'))
                                  value "")) ->
          Alternative__validate_value elements None value varprefix
          = validate_value (object_methods o) value
              (varprefix ++ "_" ++ str_of_nat i))
    /\ (forall f i,
           f value = Ok i ->
           Z.of_nat (List.length elements) <= i ->
           Alternative__validate_value elements (Some f) value varprefix
           = Raise IndexError).
Proof.
  intros elements value varprefix.
  unfold Alternative__validate_value, Alternative_matching_alternative.
  split; [|split].
  - intro H. rewrite (Alternative_first_match_none elements value H). cbn [bind fst snd].
    apply Alternative__validate_value_loop_none.
  - intros Hnd i o Hnth Hok Hbefore.
    rewrite (Alternative_first_match_some elements value i o Hnth Hok Hbefore).
    cbn [bind fst snd].
    now rewrite (Alternative__validate_value_loop_at o value varprefix elements Hnd
                   i 0%nat Hnth).
  - intros f i Hf Hi. rewrite Hf. cbn [bind]. unfold seq_getitem.
    assert (Hneg : (i <? 0) = false) by (apply Z.ltb_ge; lia).
    rewrite Hneg, Hneg.
    assert (Hnone : nth_error elements (Z.to_nat i) = None)
      by (apply nth_error_None; lia).
    now rewrite Hnone.
Qed.
